(** * PupilTracker: the image-processing class of PupilTrackerGUI.py

    A shallow embedding of [class PupilTracker] (frame ingestion, candidate
    search, candidate drawing and ROI tracking) and the properties of its
    specification.

    Conventions of the embedding.
    - Python integers are [Z]; NumPy's int32 contour coordinates are [Z] with
      the wrap-around of the in-place addition written out ([wrap_int32]).
    - OpenCV and NumPy are an interface ([Cv2]): the tracker is verified for
      every implementation of it.  The numbers OpenCV hands back (areas,
      lengths, rectangle and ellipse fits) are Python floats; the model
      carries them as exact rationals ([Q]), so the rounding of the two
      derived quantities (circularity, squareness) is outside the model, and
      a float literal denotes its decimal value.
    - OpenCV's calls return for every argument, except the blur of
      [process_image], which raises cv2.error for an array without a
      pixel (an empty crop) and for [None].
    - A method is a function from the tracker's fields to an [outcome]: a
      returned value or a raised exception, each with the fields as the
      method left them (an exception does not undo earlier assignments).
    - The wx parent window ([self.app]) only displays frames: the
      tracker's methods are given first without it, and the window with
      the tracker's calls into it comes after. *)

From Stdlib Require Import String ZArith QArith Qround List Bool Lia Lqa.
Import ListNotations.
Open Scope Z_scope.

(** ** Python and NumPy primitives *)

Module Py.

(** [int(x)] on a float: truncation toward zero. *)
Definition int (x : Q) : Z := Z.quot (Qnum x) (Z.pos (Qden x)).

(** Strict comparison of floats, [x < y]. *)
Definition Qlt_bool (x y : Q) : bool := negb (Qle_bool y x).

(** One bound of a slice [l[a:b]] over a sequence of length [n]: a negative
    bound counts from the end, and every bound is clamped to [0, n]. *)
Definition slice_bound (n i : Z) : Z :=
  if i <? 0 then Z.max 0 (i + n) else Z.min i n.

(** [l[a:b]]. *)
Definition slice {A : Type} (l : list A) (a b : Z) : list A :=
  let n := Z.of_nat (length l) in
  let lo := slice_bound n a in
  let hi := slice_bound n b in
  firstn (Z.to_nat (hi - lo)) (skipn (Z.to_nat lo) l).

(** [l[i]]: [None] stands for IndexError.  A negative index counts from the
    end of the list. *)
Definition getitem {A : Type} (l : list A) (i : Z) : option A :=
  let n := Z.of_nat (length l) in
  let j := if i <? 0 then i + n else i in
  if (j <? 0) || (n <=? j) then None else nth_error l (Z.to_nat j).

(** The value an int32 array element holds after an addition. *)
Definition wrap_int32 (z : Z) : Z := (z + 2 ^ 31) mod 2 ^ 32 - 2 ^ 31.

End Py.

(** ** Data *)

Definition pixel : Type := Z * Z * Z.
Definition color : Type := Z * Z * Z.
Definition image : Type := list (list pixel).
Definition gray_image : Type := list (list Z).
Definition kernel : Type := list (list Z).
Definition point : Type := Z * Z.

(** A contour or hull: NumPy array of shape (N, 1, 2), dtype int32. *)
Definition contour : Type := list point.

(** A region of interest, [[(x0, y0), (x1, y1)]]. *)
Definition roi : Type := point * point.

(** What [cv2.minAreaRect] and [cv2.fitEllipse] return:
    [((cx, cy), (w, h), angle)]. *)
Definition rotated_rect : Type := (Q * Q) * (Q * Q) * Q.

Definition rect_center (r : rotated_rect) : Q * Q := fst (fst r).
Definition rect_size (r : rotated_rect) : Q * Q := snd (fst r).

(** [img[y0:y1, x0:x1]] for [roi = [(x0, y0), (x1, y1)]]. *)
Definition crop (img : image) (r : roi) : image :=
  let '((x0, y0), (x1, y1)) := r in
  map (fun row => Py.slice row x0 x1) (Py.slice img y0 y1).

(** An array without a pixel: no rows, or rows of no columns. *)
Definition image_empty (img : image) : bool :=
  forallb (fun row => match row with [] => true | _ :: _ => false end) img.

(** [cnt[:, :, 0] += dx; cnt[:, :, 1] += dy]. *)
Definition translate (dx dy : Z) (cnt : contour) : contour :=
  map (fun p => (Py.wrap_int32 (fst p + dx), Py.wrap_int32 (snd p + dy))) cnt.

(** ** The OpenCV / NumPy interface

    Each field is the call of the source with the same name; arguments the
    source fixes by a flag ([cv2.THRESH_BINARY], [cv2.MORPH_CLOSE],
    [cv2.RETR_TREE], [cv2.CHAIN_APPROX_SIMPLE], [cv2.COLOR_BGR2GRAY]) are
    part of the field's name. *)

Class Cv2 : Type := {
  (** [cv2.VideoCapture(video_file)]: the frames it will decode, in order
      (none for a file that cannot be opened). *)
  VideoCapture : string -> list image;
  (** [cv2.resize(src, (0, 0), fx=fx, fy=fy)]. *)
  resize : image -> Q -> Q -> image;
  (** [cv2.GaussianBlur(src, ksize, sigma)]. *)
  GaussianBlur : image -> Z * Z -> Q -> image;
  cvtColor_BGR2GRAY : image -> gray_image;
  (** [cv2.threshold(src, thresh, maxval, cv2.THRESH_BINARY)[1]]. *)
  threshold_BINARY : gray_image -> Q -> Q -> gray_image;
  (** [cv2.morphologyEx(src, cv2.MORPH_CLOSE, kernel, iterations=n)]. *)
  morphologyEx_CLOSE : gray_image -> option kernel -> Z -> gray_image;
  (** [cv2.findContours(src, cv2.RETR_TREE, cv2.CHAIN_APPROX_SIMPLE)[1]]. *)
  findContours : gray_image -> list contour;
  contourArea : contour -> Q;
  convexHull : contour -> contour;
  (** [cv2.arcLength(curve, closed)]. *)
  arcLength : contour -> bool -> Q;
  minAreaRect : contour -> rotated_rect;
  fitEllipse : contour -> rotated_rect;
  boxPoints : rotated_rect -> list (Q * Q);
  (** The drawing calls, which change the image they are given. *)
  circle : image -> point -> Z -> color -> image;
  drawContours : image -> list contour -> Z -> color -> Z -> image;
  ellipse : image -> rotated_rect -> color -> Z -> image;
  rectangle : image -> point -> point -> color -> image;
  (** [np.pi]. *)
  np_pi : Q
}.

(** ** The tracker's fields *)

(** A [cv2.VideoCapture] object: the decoded frames and the position of the
    next one ([cv2.CAP_PROP_POS_FRAMES]). *)
Record capture : Type := mk_capture {
  cap_frames : list image;
  cap_pos : nat
}.

(** [cap.read()]: [(ret, frame)] and the capture after the call. *)
Definition cap_read (c : capture) : option image * capture :=
  match nth_error (cap_frames c) (cap_pos c) with
  | Some f => (Some f, mk_capture (cap_frames c) (S (cap_pos c)))
  | None => (None, c)
  end.

(** [cap.set(cv2.CAP_PROP_POS_FRAMES, n)]. *)
Definition cap_set_pos (c : capture) (n : nat) : capture :=
  mk_capture (cap_frames c) n.

Record PupilTracker : Type := mk_tracker {
  cap : option capture;
  num_frames : option Z;
  frame : option image;
  dx : option Z;
  dy : option Z;
  orig_image : option image;
  noise_kernel : option kernel;
  roi_pupil : option roi;
  roi_refle : option roi
}.

(** [PupilTracker.__init__]. *)
Definition init : PupilTracker :=
  mk_tracker None None None None None None None None None.

Definition set_cap v s :=
  mk_tracker v (num_frames s) (frame s) (dx s) (dy s) (orig_image s)
             (noise_kernel s) (roi_pupil s) (roi_refle s).
Definition set_num_frames v s :=
  mk_tracker (cap s) v (frame s) (dx s) (dy s) (orig_image s)
             (noise_kernel s) (roi_pupil s) (roi_refle s).
Definition set_frame v s :=
  mk_tracker (cap s) (num_frames s) v (dx s) (dy s) (orig_image s)
             (noise_kernel s) (roi_pupil s) (roi_refle s).
Definition set_dx v s :=
  mk_tracker (cap s) (num_frames s) (frame s) v (dy s) (orig_image s)
             (noise_kernel s) (roi_pupil s) (roi_refle s).
Definition set_dy v s :=
  mk_tracker (cap s) (num_frames s) (frame s) (dx s) v (orig_image s)
             (noise_kernel s) (roi_pupil s) (roi_refle s).
Definition set_orig_image v s :=
  mk_tracker (cap s) (num_frames s) (frame s) (dx s) (dy s) v
             (noise_kernel s) (roi_pupil s) (roi_refle s).
Definition set_noise_kernel v s :=
  mk_tracker (cap s) (num_frames s) (frame s) (dx s) (dy s) (orig_image s)
             v (roi_pupil s) (roi_refle s).
Definition set_roi_pupil v s :=
  mk_tracker (cap s) (num_frames s) (frame s) (dx s) (dy s) (orig_image s)
             (noise_kernel s) v (roi_refle s).
Definition set_roi_refle v s :=
  mk_tracker (cap s) (num_frames s) (frame s) (dx s) (dy s) (orig_image s)
             (noise_kernel s) (roi_pupil s) v.

(** ** Exceptions and the method monad *)

Inductive exn : Type :=
| IOError | EOFError | AttributeError | IndexError
| TypeError | ZeroDivisionError | RuntimeError
| Cv2Error (* cv2.error *).

Inductive outcome (A : Type) : Type :=
| Ok (a : A) (s : PupilTracker)
| Raise (e : exn) (s : PupilTracker).
Arguments Ok {A} a s.
Arguments Raise {A} e s.

Definition M (A : Type) : Type := PupilTracker -> outcome A.

Definition ret {A} (a : A) : M A := fun s => Ok a s.
Definition raise {A} (e : exn) : M A := fun s => Raise e s.
Definition bind {A B} (m : M A) (k : A -> M B) : M B :=
  fun s => match m s with
           | Ok a s' => k a s'
           | Raise e s' => Raise e s'
           end.
Definition read {A} (field : PupilTracker -> A) : M A := fun s => Ok (field s) s.
Definition assign (upd : PupilTracker -> PupilTracker) : M unit :=
  fun s => Ok tt (upd s).

(** The fields an outcome leaves behind. *)
Definition fields_of {A} (o : outcome A) : PupilTracker :=
  match o with Ok _ s => s | Raise _ s => s end.

Declare Scope py_scope.
Delimit Scope py_scope with py.
Notation "x <- m ;; k" := (bind m (fun x => k))
  (at level 61, m at next level, right associativity) : py_scope.
Notation "m ;; k" := (bind m (fun _ => k))
  (at level 61, right associativity) : py_scope.
Open Scope py_scope.

(** [x / y] on floats: [None] stands for ZeroDivisionError. *)
Definition truediv (x y : Q) : option Q :=
  if Qeq_bool y 0 then None else Some (x / y)%Q.

(** [try: m  except IndexError: pass  except AttributeError: pass]. *)
Definition try_pass (m : M unit) : M unit :=
  fun s => match m s with
           | Raise IndexError s' => Ok tt s'
           | Raise AttributeError s' => Ok tt s'
           | o => o
           end.

(** A loop over contours whose body either skips the contour ([continue]),
    appends a candidate to [found], or raises. *)
Fixpoint collect (body : contour -> exn + option contour)
         (cnts : list contour) (found : list contour) : exn + list contour :=
  match cnts with
  | [] => inr found
  | cnt :: rest =>
      match body cnt with
      | inl e => inl e
      | inr None => collect body rest found
      | inr (Some c) => collect body rest (found ++ [c])
      end
  end.

Definition lift {A} (r : exn + A) : M A :=
  match r with inl e => raise e | inr a => ret a end.

(** ** The methods of [PupilTracker] *)

Section Tracker.

Context {cv : Cv2}.

(** [np.ones((3, 3), np.uint8)]. *)
Definition ones_3x3 : kernel := [[1; 1; 1]; [1; 1; 1]; [1; 1; 1]].

(** [load_first_frame], over the [next_frame] it calls. *)
Definition load_first_frame_with (next_frame : M unit) : M unit :=
  next_frame;;
  (* self.app.load_video(self.frame): display only *)
  c <- read cap;;
  match c with
  | Some c => assign (set_cap (Some (cap_set_pos c 0)))
  | None => raise AttributeError
  end.

(** [next_frame] calls [load_first_frame] at the end of the video, which
    calls [next_frame] again: [depth] bounds the nesting as the
    interpreter's recursion limit does, and running out of it is Python's
    RuntimeError (maximum recursion depth exceeded). *)
Fixpoint next_frame_at (depth : nat) : M unit :=
  match depth with
  | O => raise RuntimeError
  | S d =>
      c <- read cap;;
      match c with
      | Some c =>
          let (r, c') := cap_read c in
          assign (set_cap (Some c'));;
          match r with
          | Some next_frame =>
              let frame := resize next_frame 0.5 0.5 in
              assign (set_orig_image (Some frame));;
              assign (set_frame (Some frame))
          | None =>
              assign (set_cap (Some (cap_set_pos c' 0)));;
              (* clear locations *)
              assign (set_roi_pupil None);;
              assign (set_roi_refle None);;
              load_first_frame_with (next_frame_at d);;
              raise EOFError
          end
      | None => raise IOError
      end
  end.

Definition recursion_limit : nat := 1000.

Definition next_frame : M unit := next_frame_at recursion_limit.

Definition load_first_frame : M unit := load_first_frame_with next_frame.

Definition load_video (video_file : string) : M unit :=
  let c := mk_capture (VideoCapture video_file) 0 in
  assign (set_cap (Some c));;
  assign (set_num_frames (Some (Z.of_nat (length (cap_frames c)))));;
  assign (set_noise_kernel (Some ones_3x3));;
  load_first_frame.

(** [get_frame]: falls off the end (returns [None]) when there is no
    frame. *)
Definition get_frame : M (option image) := read frame.

Definition get_orig_frame : M image :=
  o <- read orig_image;;
  match o with
  | Some img =>
      assign (set_frame (Some img));;   (* self.orig_image.copy() *)
      assign (set_roi_pupil None);;
      assign (set_roi_refle None);;
      ret img
  | None => raise AttributeError
  end.

(** [cv2.GaussianBlur(src, (5, 5), 0)] as the tracker calls it: OpenCV
    raises cv2.error for an array without a pixel, and for [None]. *)
Definition cv2_GaussianBlur (src : option image) : M image :=
  match src with
  | Some img =>
      if image_empty img then raise Cv2Error
      else ret (GaussianBlur img (5, 5) 0)
  | None => raise Cv2Error
  end.

(** Indexing [None] (no frame loaded yet) is a TypeError. *)
Definition process_image (img : option image) (roi : option roi)
  : M gray_image :=
  match roi with
  | Some r =>
      assign (set_dx (Some (fst (fst r))));;
      assign (set_dy (Some (snd (fst r))));;
      match img with
      | Some img =>
          let roi_image := crop img r in
          gauss <- cv2_GaussianBlur (Some roi_image);;
          ret (cvtColor_BGR2GRAY gauss)
      | None => raise TypeError
      end
  | None =>
      assign (set_dx (Some 0));;
      assign (set_dy (Some 0));;
      gauss <- cv2_GaussianBlur img;;
      ret (cvtColor_BGR2GRAY gauss)
  end.

(** The body of the loop of [find_pupils]; [odx], [ody] are [self.dx],
    [self.dy] (adding [None] to an array is a TypeError). *)
Definition pupil_body (odx ody : option Z) (cnt : contour)
  : exn + option contour :=
  (* drop small and large *)
  let area := contourArea cnt in
  if Qeq_bool area 0 then inr None else
  if negb (Py.Qlt_bool 1000 area && Py.Qlt_bool area 5000) then inr None else
  (* drop too few points *)
  let hull := convexHull cnt in
  if Z.of_nat (length hull) <? 5 then inr None else
  (* drop too eccentric *)
  let circumference := arcLength hull true in
  match truediv (circumference ^ 2) (4 * np_pi * area) with
  | None => inl ZeroDivisionError
  | Some circularity =>
      if Qle_bool 1.6 circularity then inr None else
      (* rescale to full image *)
      match odx, ody with
      | Some dx, Some dy => inr (Some (translate dx dy hull))
      | _, _ => inl TypeError
      end
  end.

Definition find_pupils (roi : option roi) : M (list contour) :=
  (* roi and gauss *)
  f <- read frame;;
  grayed <- process_image f roi;;
  (* threshold and remove noise *)
  let thresh_pupil := threshold_BINARY grayed 45 255 in
  k <- read noise_kernel;;
  let filtered_pupil := morphologyEx_CLOSE thresh_pupil k 4 in
  (* find contours *)
  let contours_pupil := findContours filtered_pupil in
  odx <- read dx;;
  ody <- read dy;;
  match contours_pupil with
  | [] => ret []
  | _ => lift (collect (pupil_body odx ody) contours_pupil [])
  end.

(** [cv2.<draw>(self.frame, ...)]: the frame is changed in place. *)
Definition draw_on_frame (draw : image -> image) : M unit :=
  f <- read frame;;
  match f with
  | Some img => assign (set_frame (Some (draw img)))
  | None => raise TypeError
  end.

(** A contour array handed to [cv2.drawContours] as the list of contours:
    each of its points is taken as a contour of its own. *)
Definition as_contours (cnt : contour) : list contour :=
  map (fun p => [p]) cnt.

(** [cnt_list[index]] under the test [len(cnt_list) > 0] of the two draw
    methods. *)
Definition select (cnt_list : list contour) (index : Z) : M contour :=
  if 0 <? Z.of_nat (length cnt_list) then
    match Py.getitem cnt_list index with
    | Some cnt => ret cnt
    | None => raise IndexError
    end
  else raise AttributeError.

Definition draw_pupil (index : option Z) (roi : option roi) (verbose : bool)
  : M unit :=
  let index := match index with None => 0 | Some i => i end in
  cnt_list <- find_pupils roi;;
  cnt <- select cnt_list index;;
  (* fit ellipse *)
  let ellipse_ := fitEllipse cnt in
  (* centroid *)
  let cx := Py.int (fst (rect_center ellipse_)) in
  let cy := Py.int (snd (rect_center ellipse_)) in
  (* draw *)
  draw_on_frame (fun f => circle f (cx, cy) 2 (255, 255, 255));;
  (if verbose then
     draw_on_frame (fun f => drawContours f (as_contours cnt) (-1) (0, 0, 255) 2);;
     draw_on_frame (fun f => ellipse f ellipse_ (0, 255, 100) 1);;
     draw_on_frame (fun f => rectangle f (cx - 100, cy - 100)
                                       (cx + 100, cy + 100) (255, 255, 255))
   else ret tt);;
  assign (set_roi_pupil (Some ((cx - 100, cy - 100), (cx + 100, cy + 100)))).

Definition track_pupil : M unit :=
  r <- read roi_pupil;;
  match r with
  | Some _ => try_pass (draw_pupil None r true)
  | None => ret tt
  end.

(** The body of the loop of [find_refle]; [roi] is the parameter and
    [self_roi_refle] the field [self.roi_refle] (indexing [None] is a
    TypeError). *)
Definition refle_body (odx ody : option Z) (roi self_roi_refle : option roi)
           (cnt : contour) : exn + option contour :=
  (* drop small and large *)
  let area := contourArea cnt in
  if Qeq_bool area 0 then inr None else
  if negb (Py.Qlt_bool 25 area && Py.Qlt_bool area 500) then inr None else
  (* rescale to full image *)
  match odx, ody with
  | Some dx, Some dy =>
      let cnt := translate dx dy cnt in
      (* test squareness *)
      let rect := minAreaRect cnt in
      let (w, h) := rect_size rect in
      match truediv h w with
      | None => inl ZeroDivisionError
      | Some squareness =>
          if negb (Py.Qlt_bool 0.5 squareness && Py.Qlt_bool squareness 2)
          then inr None else
          (* see if center in roi *)
          match roi with
          | Some _ =>
              (* rect center *)
              let cx := Py.int (fst (rect_center rect)) in
              let cy := Py.int (snd (rect_center rect)) in
              match self_roi_refle with
              | Some ((x0, y0), (x1, y1)) =>
                  if negb ((x0 <? cx) && (cx <? x1))
                     || negb ((y0 <? cy) && (cy <? y1))
                  then inr None
                  else inr (Some cnt)
              | None => inl TypeError
              end
          | None => inr (Some cnt)
          end
      end
  | _, _ => inl TypeError
  end.

Definition find_refle (roi : option roi) : M (list contour) :=
  (* roi and gauss *)
  f <- read frame;;
  rp <- read roi_pupil;;
  grayed <- process_image f rp;;
  (* threshold and remove noise *)
  let thresh_refle := threshold_BINARY grayed 200 255 in
  k <- read noise_kernel;;
  let filtered_refle := morphologyEx_CLOSE thresh_refle k 2 in
  (* find contours *)
  let contours_refle := findContours filtered_refle in
  odx <- read dx;;
  ody <- read dy;;
  rr <- read roi_refle;;
  match contours_refle with
  | [] => ret []
  | _ => lift (collect (refle_body odx ody roi rr) contours_refle [])
  end.

(** [np.int0(box)]: the corners truncated to integers. *)
Definition int0 (box : list (Q * Q)) : contour :=
  map (fun p => (Py.int (fst p), Py.int (snd p))) box.

Definition draw_refle (index : option Z) (roi : option roi) (verbose : bool)
  : M unit :=
  let index := match index with None => 0 | Some i => i end in
  cnt_list <- find_refle roi;;
  cnt <- select cnt_list index;;
  let rect := minAreaRect cnt in
  let box := int0 (boxPoints rect) in
  (* rect center *)
  let cx := Py.int (fst (rect_center rect)) in
  let cy := Py.int (snd (rect_center rect)) in
  (* reset roi *)
  assign (set_roi_refle (Some ((cx - 15, cy - 15), (cx + 15, cy + 15))));;
  (* draw *)
  draw_on_frame (fun f => circle f (cx, cy) 2 (100, 100, 100));;
  (if verbose then
     draw_on_frame (fun f => rectangle f (cx - 15, cy - 15)
                                       (cx + 15, cy + 15) (255, 255, 255));;
     draw_on_frame (fun f => drawContours f (as_contours cnt) (-1) (0, 0, 255) 2);;
     draw_on_frame (fun f => drawContours f [box] 0 (0, 255, 100) 1)
   else ret tt).

Definition track_refle : M unit :=
  r <- read roi_refle;;
  match r with
  | Some _ => try_pass (draw_refle None r true)
  | None => ret tt
  end.

End Tracker.

(** ** Vocabulary of the specification *)

Section Vocabulary.

Context {cv : Cv2}.

(** The crop offset [process_image] records for a ROI argument. *)
Definition offset_of (r : option roi) : point :=
  match r with Some r => fst r | None => (0, 0) end.

(** The fields after [process_image] has recorded the offset of [r]. *)
Definition with_offset (r : option roi) (s : PupilTracker) : PupilTracker :=
  set_dy (Some (snd (offset_of r))) (set_dx (Some (fst (offset_of r))) s).

(** The sub-image [process_image] blurs for a ROI argument. *)
Definition searched (img : image) (r : option roi) : image :=
  match r with Some r => crop img r | None => img end.

(** What [process_image] raises without a frame: the slice of [None] for
    a ROI argument, the blur of [None] without one. *)
Definition no_frame_error (r : option roi) : exn :=
  match r with Some _ => TypeError | None => Cv2Error end.

(** The contours found in the sub-image [r] of [img] after binarizing at
    [thresh] and closing [iterations] times with the tracker's kernel. *)
Definition contours_in (s : PupilTracker) (img : image) (r : option roi)
           (thresh : Q) (iterations : Z) : list contour :=
  findContours
    (morphologyEx_CLOSE
       (threshold_BINARY
          (cvtColor_BGR2GRAY (GaussianBlur (searched img r) (5, 5) 0))
          thresh 255)
       (noise_kernel s) iterations).

(** Circularity of a hull for a contour of area [area]:
    perimeter squared over 4 pi area. *)
Definition circularity (hull : contour) (area : Q) : Q :=
  (arcLength hull true ^ 2 / (4 * np_pi * area))%Q.

(** What an accepted pupil candidate [c] owes to the contour it was made
    from: the filters of [find_pupils]. *)
Definition pupil_accepted (s : PupilTracker) (r : option roi) (c : contour)
  : Prop :=
  exists img cnt,
    frame s = Some img /\ In cnt (contours_in s img r 45 4) /\
    c = translate (fst (offset_of r)) (snd (offset_of r)) (convexHull cnt) /\
    ~ (contourArea cnt == 0)%Q /\
    (1000 < contourArea cnt /\ contourArea cnt < 5000)%Q /\
    (5 <= length (convexHull cnt))%nat /\
    (circularity (convexHull cnt) (contourArea cnt) < 1.6)%Q.

(** What an accepted reflection candidate [c] owes to the contour it was
    made from: the area and squareness filters of [find_refle]. *)
Definition refle_accepted (s : PupilTracker) (c : contour) : Prop :=
  exists img cnt,
    frame s = Some img /\
    In cnt (contours_in s img (roi_pupil s) 200 2) /\
    c = translate (fst (offset_of (roi_pupil s)))
                  (snd (offset_of (roi_pupil s))) cnt /\
    ~ (contourArea cnt == 0)%Q /\
    (25 < contourArea cnt /\ contourArea cnt < 500)%Q /\
    let w := fst (rect_size (minAreaRect c)) in
    let h := snd (rect_size (minAreaRect c)) in
    (~ w == 0 /\ (0.5 < h / w /\ h / w < 2) /\ (0.5 < w / h /\ w / h < 2))%Q.

(** The integer centre the draw methods compute from a fit. *)
Definition int_center (r : rotated_rect) : point :=
  (Py.int (fst (rect_center r)), Py.int (snd (rect_center r))).

(** The rectangle [[(cx - d, cy - d), (cx + d, cy + d)]]. *)
Definition square_around (c : point) (d : Z) : roi :=
  ((fst c - d, snd c - d), (fst c + d, snd c + d)).

Definition roi_width (r : roi) : Z := fst (snd r) - fst (fst r).
Definition roi_height (r : roi) : Z := snd (snd r) - snd (fst r).

(** A point strictly inside a ROI. *)
Definition strictly_inside (r : roi) (p : point) : Prop :=
  fst (fst r) < fst p < fst (snd r) /\ snd (fst r) < snd p < snd (snd r).

(** The same for a point with float coordinates. *)
Definition Qstrictly_inside (r : roi) (p : Q * Q) : Prop :=
  (inject_Z (fst (fst r)) < fst p /\ fst p < inject_Z (fst (snd r)) /\
   inject_Z (snd (fst r)) < snd p /\ snd p < inject_Z (snd (snd r)))%Q.

(** The index a draw method uses for its [index] argument. *)
Definition index_of (index : option Z) : Z :=
  match index with None => 0 | Some i => i end.

(** The candidate a draw method selects from what its search returned. *)
Definition selected (search : M (list contour)) (index : option Z)
           (s : PupilTracker) : option contour :=
  match search s with
  | Ok cnt_list _ =>
      match cnt_list with
      | [] => None
      | _ => Py.getitem cnt_list (index_of index)
      end
  | Raise _ _ => None
  end.

(** The public operations of the tracker, as calls. *)
Inductive call : Type :=
| LoadVideo (video_file : string)
| LoadFirstFrame
| NextFrame
| GetFrame
| GetOrigFrame
| ProcessImage (img : option image) (r : option roi)
| FindPupils (r : option roi)
| DrawPupil (index : option Z) (r : option roi) (verbose : bool)
| TrackPupil
| FindRefle (r : option roi)
| DrawRefle (index : option Z) (r : option roi) (verbose : bool)
| TrackRefle.

(** The fields a call leaves behind, whether it returns or raises. *)
Definition perform (c : call) (s : PupilTracker) : PupilTracker :=
  match c with
  | LoadVideo f => fields_of (load_video f s)
  | LoadFirstFrame => fields_of (load_first_frame s)
  | NextFrame => fields_of (next_frame s)
  | GetFrame => fields_of (get_frame s)
  | GetOrigFrame => fields_of (get_orig_frame s)
  | ProcessImage img r => fields_of (process_image img r s)
  | FindPupils r => fields_of (find_pupils r s)
  | DrawPupil i r v => fields_of (draw_pupil i r v s)
  | TrackPupil => fields_of (track_pupil s)
  | FindRefle r => fields_of (find_refle r s)
  | DrawRefle i r v => fields_of (draw_refle i r v s)
  | TrackRefle => fields_of (track_refle s)
  end.

Definition succeeds {A} (o : outcome A) : bool :=
  match o with Ok _ _ => true | Raise _ _ => false end.

(** The pupil candidate a call draws, if it draws one. *)
Definition pupil_drawn (c : call) (s : PupilTracker) : option contour :=
  match c with
  | DrawPupil i r v =>
      if succeeds (draw_pupil i r v s) then selected (find_pupils r) i s
      else None
  | TrackPupil =>
      match roi_pupil s with
      | Some _ =>
          if succeeds (draw_pupil None (roi_pupil s) true s)
          then selected (find_pupils (roi_pupil s)) None s
          else None
      | None => None
      end
  | _ => None
  end.

(** The reflection candidate a call draws, if it draws one. *)
Definition refle_drawn (c : call) (s : PupilTracker) : option contour :=
  match c with
  | DrawRefle i r v =>
      if succeeds (draw_refle i r v s) then selected (find_refle r) i s
      else None
  | TrackRefle =>
      match roi_refle s with
      | Some _ =>
          if succeeds (draw_refle None (roi_refle s) true s)
          then selected (find_refle (roi_refle s)) None s
          else None
      | None => None
      end
  | _ => None
  end.

(** Both ROI slots as they were, or both cleared. *)
Definition rois_kept_or_cleared (s s' : PupilTracker) : Prop :=
  (roi_pupil s' = roi_pupil s /\ roi_refle s' = roi_refle s)
  \/ (roi_pupil s' = None /\ roi_refle s' = None).

(** A history of calls: the fields it ends in, and the pupil and the
    reflection drawn most recently along it. *)
Record history_end : Type := mk_end {
  fields : PupilTracker;
  last_pupil : option contour;
  last_refle : option contour
}.

Definition latest {A} (new old : option A) : option A :=
  match new with Some _ => new | None => old end.

Definition step (h : history_end) (c : call) : history_end :=
  mk_end (perform c (fields h))
         (latest (pupil_drawn c (fields h)) (last_pupil h))
         (latest (refle_drawn c (fields h)) (last_refle h)).

(** Running a sequence of calls on a fresh tracker. *)
Definition run (calls : list call) : history_end :=
  fold_left step calls (mk_end init None None).

(** The ROI slots at the end of a history: a slot that is set holds the
    square around the integer centre of the fit (ellipse for the pupil,
    minimum-area rectangle for the reflection) of the candidate drawn most
    recently, 200 pixels wide and high for the pupil and 30 for the
    reflection. *)
Definition roi_invariant (h : history_end) : Prop :=
  (forall box,
      roi_pupil (fields h) = Some box ->
      exists cnt,
        last_pupil h = Some cnt /\
        box = square_around (int_center (fitEllipse cnt)) 100 /\
        roi_width box = 200 /\ roi_height box = 200)
  /\ (forall box,
         roi_refle (fields h) = Some box ->
         exists cnt,
           last_refle h = Some cnt /\
           box = square_around (int_center (minAreaRect cnt)) 15 /\
           roi_width box = 30 /\ roi_height box = 30).

(** The three filters of [find_pupils] on a detected contour. *)
Definition pupil_passes (cnt : contour) : bool :=
  negb (Qeq_bool (contourArea cnt) 0)
  && (Py.Qlt_bool 1000 (contourArea cnt) && Py.Qlt_bool (contourArea cnt) 5000)
  && (5 <=? Z.of_nat (length (convexHull cnt)))
  && negb (Qle_bool 1.6 (circularity (convexHull cnt) (contourArea cnt))).

(** The ROI the containment test of [find_refle] uses: the stored one,
    when the ROI argument switches the test on. *)
Definition containment_roi (r stored : option roi) : option roi :=
  match r with Some _ => stored | None => None end.

(** The filters of [find_refle] on a detected contour shifted by
    [(x, y)]: area, squareness, and containment in [box] when there is a
    containment test. *)
Definition refle_passes (x y : Z) (box : option roi) (cnt : contour) : bool :=
  let rect := minAreaRect (translate x y cnt) in
  let squareness := (snd (rect_size rect) / fst (rect_size rect))%Q in
  negb (Qeq_bool (contourArea cnt) 0)
  && (Py.Qlt_bool 25 (contourArea cnt) && Py.Qlt_bool (contourArea cnt) 500)
  && (Py.Qlt_bool 0.5 squareness && Py.Qlt_bool squareness 2)
  && match box with
     | Some box =>
         (fst (fst box) <? fst (int_center rect))
         && (fst (int_center rect) <? fst (snd box))
         && ((snd (fst box) <? snd (int_center rect))
             && (snd (int_center rect) <? snd (snd box)))
     | None => true
     end.

(** [k] calls of [next_frame] in a row, up to the first that raises. *)
Fixpoint advance (k : nat) : M unit :=
  match k with
  | O => ret tt
  | S k' => next_frame;; advance k'
  end.

(** The calls that can replace the original frame. *)
Definition ingests (c : call) : bool :=
  match c with
  | LoadVideo _ | LoadFirstFrame | NextFrame => true
  | _ => false
  end.

(** The fields after a sequence of calls. *)
Definition perform_all (calls : list call) (s : PupilTracker) : PupilTracker :=
  fold_left (fun s c => perform c s) calls s.

(** The fields as [next_frame] has them when the read fails, before it
    loads the first frame again: the capture rewound and both ROI slots
    cleared. *)
Definition rewound (c : capture) (s : PupilTracker) : PupilTracker :=
  set_roi_refle None (set_roi_pupil None (set_cap (Some (cap_set_pos c 0)) s)).

(** A frame is present exactly when its original copy is, and a ROI slot
    is set only with a frame present. *)
Definition frame_present (s : PupilTracker) : Prop :=
  (frame s = None <-> orig_image s = None)
  /\ (roi_pupil s <> None -> frame s <> None)
  /\ (roi_refle s <> None -> frame s <> None).

End Vocabulary.

(** ** A synthetic OpenCV for concrete runs

    A small implementation of the interface, exact on the axis-aligned
    shapes the examples use: areas by the shoelace formula, fits by the
    bounding box, lengths along the axes.  Its contour finder reports the
    same fixed shapes for every image that has a foreground pixel. *)

Module Synthetic.

Fixpoint every_other {A} (l : list A) : list A :=
  match l with
  | a :: _ :: rest => a :: every_other rest
  | _ => []
  end.

Definition half (img : image) : image :=
  map every_other (every_other img).

Definition to_gray (img : image) : gray_image :=
  map (map (fun p : pixel => fst (fst p))) img.

Definition binarize (g : gray_image) (thresh maxval : Q) : gray_image :=
  map (map (fun v => if Py.Qlt_bool thresh (inject_Z v)
                     then Qfloor maxval else 0)) g.

Definition has_foreground (g : gray_image) : bool :=
  existsb (existsb (fun v => negb (v =? 0))) g.

(** A 50x50 blob with eight boundary points (area 2500). *)
Definition blob : contour :=
  [(20, 20); (45, 20); (70, 20); (70, 45); (70, 70); (45, 70); (20, 70); (20, 45)].
(** A second blob, 40x40 (area 1600). *)
Definition blob2 : contour :=
  [(30, 80); (50, 80); (70, 80); (70, 100); (70, 120); (50, 120); (30, 120); (30, 100)].
(** A 2x2 speck (area 4). *)
Definition speck : contour := [(5, 5); (7, 5); (7, 7); (5, 7)].
(** A 10x10 highlight (area 100). *)
Definition glint : contour := [(40, 40); (50, 40); (50, 50); (40, 50)].
(** A 4x30 streak (area 120, too elongated). *)
Definition streak : contour := [(80, 10); (84, 10); (84, 40); (80, 40)].

Definition shapes : list contour := [blob; speck; glint; streak; blob2].

Definition find (g : gray_image) : list contour :=
  if has_foreground g then shapes else [].

Fixpoint shoelace (first prev : point) (rest : list point) : Z :=
  match rest with
  | [] => fst prev * snd first - fst first * snd prev
  | p :: rest' => fst prev * snd p - fst p * snd prev + shoelace first p rest'
  end.

Definition area (c : contour) : Q :=
  match c with
  | [] => 0
  | p :: rest => (Z.abs (shoelace p p rest) # 2)
  end.

Fixpoint axis_length (first prev : point) (rest : list point) (closed : bool) : Z :=
  let d (a b : point) := Z.abs (fst a - fst b) + Z.abs (snd a - snd b) in
  match rest with
  | [] => if closed then d prev first else 0
  | p :: rest' => d prev p + axis_length first p rest' closed
  end.

Definition length_ (c : contour) (closed : bool) : Q :=
  match c with
  | [] => 0
  | p :: rest => inject_Z (axis_length p p rest closed)
  end.

Definition bounding_box (c : contour) : rotated_rect :=
  match c with
  | [] => ((0, 0), (0, 0), 0)%Q
  | p :: rest =>
      let x0 := fold_right Z.min (fst p) (map fst rest) in
      let x1 := fold_right Z.max (fst p) (map fst rest) in
      let y0 := fold_right Z.min (snd p) (map snd rest) in
      let y1 := fold_right Z.max (snd p) (map snd rest) in
      (((x0 + x1) # 2, (y0 + y1) # 2),
       (inject_Z (x1 - x0), inject_Z (y1 - y0)), 0%Q)
  end.

Definition corners (r : rotated_rect) : list (Q * Q) :=
  let '((cx, cy), (w, h), _) := r in
  [(cx - w / 2, cy - h / 2); (cx + w / 2, cy - h / 2);
   (cx + w / 2, cy + h / 2); (cx - w / 2, cy + h / 2)]%Q.

(** Painting one pixel, when it lies in the image. *)
Fixpoint set_nth {A} (l : list A) (n : nat) (f : A -> A) : list A :=
  match l, n with
  | [], _ => []
  | a :: rest, O => f a :: rest
  | a :: rest, S n' => a :: set_nth rest n' f
  end.

Definition paint (img : image) (p : point) (c : color) : image :=
  if (fst p <? 0) || (snd p <? 0) then img
  else set_nth img (Z.to_nat (snd p))
               (fun row => set_nth row (Z.to_nat (fst p)) (fun _ => c)).

(** Frames of 8x6 pixels: one lit, one dark. *)
Definition lit : image := repeat (repeat (255, 255, 255) 8) 6.
Definition dark : image := repeat (repeat (0, 0, 0) 8) 6.

(** A frame of 200x2 pixels, lit at its left end only. *)
Definition spot : image :=
  [(255, 255, 255) :: repeat (0, 0, 0) 199; repeat (0, 0, 0) 200].

(** A lit frame of 400x2 pixels. *)
Definition wide : image := repeat (repeat (255, 255, 255) 400) 2.

Definition open_ (video_file : string) : list image :=
  if String.eqb video_file "eye.avi" then [lit; lit; dark]
  else if String.eqb video_file "night.avi" then [dark]
  else if String.eqb video_file "spot.avi" then [spot]
  else if String.eqb video_file "wide.avi" then [wide]
  else [].

#[export] Instance cv : Cv2 := {|
  VideoCapture := open_;
  resize := fun img _ _ => half img;
  GaussianBlur := fun img _ _ => img;
  cvtColor_BGR2GRAY := to_gray;
  threshold_BINARY := binarize;
  morphologyEx_CLOSE := fun g _ _ => g;
  findContours := find;
  contourArea := area;
  convexHull := fun c => c;
  arcLength := length_;
  minAreaRect := bounding_box;
  fitEllipse := bounding_box;
  boxPoints := corners;
  circle := fun img p _ c => paint img p c;
  drawContours := fun img _ _ _ _ => img;
  ellipse := fun img _ _ _ => img;
  rectangle := fun img _ _ _ => img;
  np_pi := 884279719003555 # 281474976710656
|}.

(** The tracker after [load_video('eye.avi')]. *)
Definition loaded : PupilTracker := fields_of (load_video "eye.avi" init).

(** The tracker after a pupil, and after a reflection, has been drawn on the
    first frame. *)
Definition pupil_tracked : PupilTracker :=
  fields_of (draw_pupil None None true loaded).
Definition refle_tracked : PupilTracker :=
  fields_of (draw_refle None None true loaded).

(** The tracker when the dark third frame arrives with the pupil tracked. *)
Definition in_the_dark : PupilTracker :=
  fields (run [LoadVideo "eye.avi"; DrawPupil None None true;
               NextFrame; NextFrame; NextFrame]).

(** The tracker after a pupil has been drawn on the frame lit at its left
    end, and on the wide frame. *)
Definition spot_tracked : PupilTracker :=
  fields_of (draw_pupil None None true
               (fields_of (load_video "spot.avi" init))).
Definition wide_tracked : PupilTracker :=
  fields_of (draw_pupil None None true
               (fields_of (load_video "wide.avi" init))).

(** A session: load, pick the pupil and the reflection, play two frames. *)
Definition session : list call :=
  [LoadVideo "eye.avi"; DrawPupil (Some 1) None true;
   DrawRefle None None false; NextFrame; TrackPupil; TrackRefle;
   NextFrame; TrackPupil; TrackRefle].

End Synthetic.


(** * The window: MyFrame, ImagePanel and ToolsPanel

    The three wx classes around the tracker, as one record of the fields
    that change: the tracker, the play flag, the timer, the panel's bitmap,
    the two candidate indexes of the tools panel, and what the handlers
    print.  wx itself is an interface for the two bitmap calls; any
    exception wx raises is [WxError], which no handler of the source
    catches.  The methods of the window carry the levels of the stack
    that are left, since two handlers call themselves up to the
    recursion limit. *)

Class Wx : Type := {
  bitmap : Type;
  (** [wx.BitmapFromBuffer(width, height, img)]; [None] when wx raises (a
      buffer of the wrong size). *)
  BitmapFromBuffer : Z -> Z -> image -> option bitmap;
  (** [bmp.CopyFromBuffer(img)]: the bitmap after the copy; [None] when wx
      raises. *)
  CopyFromBuffer : bitmap -> image -> option bitmap
}.

Inductive gui_exn : Type :=
| Python (e : exn)
| WxError.

Section Window.

Context {cv : Cv2} {wx : Wx}.

Record MyFrame : Type := mk_frame {
  tracker : PupilTracker;
  playing : bool;
  (** [image_panel.fps_timer] is running. *)
  timer_on : bool;
  (** [image_panel.image_bmp]. *)
  image_bmp : option bitmap;
  (** [tools_panel.pupil_index], [tools_panel.refle_index]. *)
  pupil_index : Z;
  refle_index : Z;
  (** The exceptions printed so far, latest first. *)
  printed : list exn
}.

(** [MyFrame.__init__], with the panels it creates. *)
Definition new_frame : MyFrame :=
  mk_frame init false false None (-1) (-1) [].

Definition set_tracker v w :=
  mk_frame v (playing w) (timer_on w) (image_bmp w) (pupil_index w)
           (refle_index w) (printed w).
Definition set_playing v w :=
  mk_frame (tracker w) v (timer_on w) (image_bmp w) (pupil_index w)
           (refle_index w) (printed w).
Definition set_timer_on v w :=
  mk_frame (tracker w) (playing w) v (image_bmp w) (pupil_index w)
           (refle_index w) (printed w).
Definition set_image_bmp v w :=
  mk_frame (tracker w) (playing w) (timer_on w) v (pupil_index w)
           (refle_index w) (printed w).
Definition set_pupil_index v w :=
  mk_frame (tracker w) (playing w) (timer_on w) (image_bmp w) v
           (refle_index w) (printed w).
Definition set_refle_index v w :=
  mk_frame (tracker w) (playing w) (timer_on w) (image_bmp w) (pupil_index w)
           v (printed w).
(** [print e]. *)
Definition print (e : exn) w :=
  mk_frame (tracker w) (playing w) (timer_on w) (image_bmp w) (pupil_index w)
           (refle_index w) (e :: printed w).

Inductive gui_outcome (A : Type) : Type :=
| GOk (a : A) (w : MyFrame)
| GRaise (e : gui_exn) (w : MyFrame).
Arguments GOk {A} a w.
Arguments GRaise {A} e w.

Definition G (A : Type) : Type := MyFrame -> gui_outcome A.

Definition gret {A} (a : A) : G A := fun w => GOk a w.
Definition graise {A} (e : gui_exn) : G A := fun w => GRaise e w.
Definition gbind {A B} (m : G A) (k : A -> G B) : G B :=
  fun w => match m w with
           | GOk a w' => k a w'
           | GRaise e w' => GRaise e w'
           end.
Definition gread {A} (field : MyFrame -> A) : G A := fun w => GOk (field w) w.
Definition gassign (upd : MyFrame -> MyFrame) : G unit :=
  fun w => GOk tt (upd w).

(** A method of the tracker, called on [self.tracker]. *)
Definition on_tracker {A} (m : M A) : G A :=
  fun w => match m (tracker w) with
           | Ok a s => GOk a (set_tracker s w)
           | Raise e s => GRaise (Python e) (set_tracker s w)
           end.

(** The window an outcome leaves behind. *)
Definition window_of {A} (o : gui_outcome A) : MyFrame :=
  match o with GOk _ w => w | GRaise _ w => w end.

Declare Scope gui_scope.
Delimit Scope gui_scope with gui.
Notation "x <- m ;; k" := (gbind m (fun x => k))
  (at level 61, m at next level, right associativity) : gui_scope.
Notation "m ;; k" := (gbind m (fun _ => k))
  (at level 61, right associativity) : gui_scope.
Open Scope gui_scope.

(** ** The stack

    [next_frame] and the two Find handlers can call themselves until the
    interpreter's recursion limit.  Every method of the window and every
    call into the tracker takes [depth], the levels of the stack that are
    left: a call with none left raises RuntimeError before the body of
    the method runs, and the body makes its own calls with one level
    less.  Only calls of the program's own methods take a level: calls
    into OpenCV, NumPy, wx and the built-ins take none. *)

Definition pycall {A} (depth : nat) (body : nat -> G A) : G A :=
  match depth with
  | O => graise (Python RuntimeError)
  | S d => body d
  end.

(** A method of the tracker that does not call the window, called on
    [self.tracker]; [need] is the deepest nesting of the calls it makes,
    itself included.  Each of them assigns no field before its innermost
    call, so with fewer levels left it raises RuntimeError and leaves
    the tracker as it was. *)
Definition tracker_call {A} (need : nat) (m : M A) (depth : nat) : G A :=
  fun w =>
    if (depth <? need)%nat then GRaise (Python RuntimeError) w
    else on_tracker m w.

(** [get_frame] and [get_orig_frame] call nothing. *)
Definition PupilTracker_get_frame_at : nat -> G (option image) :=
  tracker_call 1 get_frame.
Definition PupilTracker_get_orig_frame_at : nat -> G image :=
  tracker_call 1 get_orig_frame.

(** [draw_pupil] calls [find_pupils], which calls [process_image]; the
    same for [draw_refle]. *)
Definition PupilTracker_draw_pupil_at (depth : nat) (index : option Z)
           (roi : option roi) (verbose : bool) : G unit :=
  tracker_call 3 (draw_pupil index roi verbose) depth.
Definition PupilTracker_draw_refle_at (depth : nat) (index : option Z)
           (roi : option roi) (verbose : bool) : G unit :=
  tracker_call 3 (draw_refle index roi verbose) depth.

(** [track_pupil] calls [draw_pupil] when the pupil ROI is set (the
    RuntimeError is not among the exceptions it passes over), and nothing
    otherwise; the same for [track_refle]. *)
Definition PupilTracker_track_pupil_at (depth : nat) : G unit :=
  r <- gread (fun w => roi_pupil (tracker w));;
  tracker_call (match r with Some _ => 4 | None => 1 end) track_pupil depth.
Definition PupilTracker_track_refle_at (depth : nat) : G unit :=
  r <- gread (fun w => roi_refle (tracker w));;
  tracker_call (match r with Some _ => 4 | None => 1 end) track_refle depth.

(** ** ImagePanel *)

Definition ImagePanel_start_timer_at (depth : nat) : G unit :=
  pycall depth (fun _ => gassign (set_timer_on true)).

Definition ImagePanel_stop_timer_at (depth : nat) : G unit :=
  pycall depth (fun _ => gassign (set_timer_on false)).

(** [load_image(img)]; handing wx [None] for a buffer is an error of wx. *)
Definition ImagePanel_load_image_at (depth : nat) (img : option image)
  : G unit :=
  pycall depth (fun _ =>
    match img with
    | Some img =>
        match BitmapFromBuffer 960 540 img with
        | Some bmp => gassign (set_image_bmp (Some bmp))
        | None => graise WxError
        end
    | None => graise WxError
    end).

(** [MyFrame.load_video(img)]. *)
Definition MyFrame_load_video_at (depth : nat) (img : option image)
  : G unit :=
  pycall depth (fun d => ImagePanel_load_image_at d img).

(** ** The tracker's methods that call the window

    [load_first_frame] shows the frame it loaded through
    [self.app.load_video]; these are [load_first_frame], [next_frame] and
    [load_video] of the tracker with that call in place. *)

(** The body of [load_first_frame], over the [next_frame] it calls. *)
Definition PupilTracker_load_first_frame_with (depth : nat)
           (next_frame : G unit) : G unit :=
  next_frame;;
  f <- gread (fun w => frame (tracker w));;
  MyFrame_load_video_at depth f;;
  c <- gread (fun w => cap (tracker w));;
  match c with
  | Some c => on_tracker (assign (set_cap (Some (cap_set_pos c 0))))
  | None => graise (Python AttributeError)
  end.

Fixpoint PupilTracker_next_frame_at (depth : nat) : G unit :=
  match depth with
  | O => graise (Python RuntimeError)
  | S d =>
      c <- gread (fun w => cap (tracker w));;
      match c with
      | Some c =>
          let (r, c') := cap_read c in
          on_tracker (assign (set_cap (Some c')));;
          match r with
          | Some next_frame =>
              let frame := resize next_frame 0.5 0.5 in
              on_tracker (assign (set_orig_image (Some frame)));;
              on_tracker (assign (set_frame (Some frame)))
          | None =>
              on_tracker (assign (set_cap (Some (cap_set_pos c' 0))));;
              on_tracker (assign (set_roi_pupil None));;
              on_tracker (assign (set_roi_refle None));;
              (* self.load_first_frame() *)
              match d with
              | O => graise (Python RuntimeError)
              | S d' =>
                  PupilTracker_load_first_frame_with
                    d' (PupilTracker_next_frame_at d')
              end;;
              graise (Python EOFError)
          end
      | None => graise (Python IOError)
      end
  end.

Definition PupilTracker_load_first_frame_at (depth : nat) : G unit :=
  pycall depth (fun d =>
    PupilTracker_load_first_frame_with d (PupilTracker_next_frame_at d)).

Definition PupilTracker_load_video_at (depth : nat) (video_file : string)
  : G unit :=
  pycall depth (fun d =>
    let c := mk_capture (VideoCapture video_file) 0 in
    on_tracker (assign (set_cap (Some c)));;
    on_tracker
      (assign (set_num_frames (Some (Z.of_nat (length (cap_frames c))))));;
    on_tracker (assign (set_noise_kernel (Some ones_3x3)));;
    PupilTracker_load_first_frame_at d).

(** The two, called with the whole stack left. *)
Definition PupilTracker_next_frame : G unit :=
  PupilTracker_next_frame_at recursion_limit.

Definition PupilTracker_load_video (video_file : string) : G unit :=
  PupilTracker_load_video_at recursion_limit video_file.

(** The end of [ImagePanel.draw]: the frame is copied into the bitmap. *)
Definition ImagePanel_show_frame (depth : nat) : G unit :=
  bmp <- gread image_bmp;;
  match bmp with
  | Some bmp =>
      f <- PupilTracker_get_frame_at depth;;
      match f with
      | Some img =>
          match CopyFromBuffer bmp img with
          | Some bmp' => gassign (set_image_bmp (Some bmp'))
          | None => graise WxError
          end
      | None => graise WxError
      end
  | None => graise (Python AttributeError)
  end.

(** [ImagePanel.draw]: the timer's tick, and the redraw after a call. *)
Definition ImagePanel_draw_at (depth : nat) : G unit :=
  pycall depth (fun d w =>
    if playing w then
      match PupilTracker_next_frame_at d w with
      | GRaise (Python EOFError) w' =>
          (gassign (print EOFError);;
           gassign (set_playing false);;
           ImagePanel_stop_timer_at d) w'
      | GRaise (Python IOError) w' =>
          (gassign (print IOError);;
           gassign (set_playing false);;
           ImagePanel_stop_timer_at d) w'
      | GRaise e w' => GRaise e w'
      | GOk _ w' =>
          (PupilTracker_track_pupil_at d;;
           PupilTracker_track_refle_at d;;
           ImagePanel_show_frame d) w'
      end
    else ImagePanel_show_frame d w).

(** The tick of the timer: wx calls [draw] with the whole stack left. *)
Definition ImagePanel_draw : G unit := ImagePanel_draw_at recursion_limit.

(** ** MyFrame *)

Definition MyFrame_draw_at (depth : nat) : G unit :=
  pycall depth (fun d => ImagePanel_draw_at d).

Definition MyFrame_open_video_at (depth : nat) (video_file : string)
  : G unit :=
  pycall depth (fun d => PupilTracker_load_video_at d video_file).

(** [load_dialog]: [choice] is the path picked in the file dialog, [None]
    when the dialog is cancelled. *)
Definition MyFrame_load_dialog_at (depth : nat) (choice : option string)
  : G unit :=
  pycall depth (fun d =>
    match choice with
    | None => gret tt
    | Some video_file => MyFrame_open_video_at d video_file
    end).

Definition MyFrame_clear_at (depth : nat) (draw : bool) : G unit :=
  pycall depth (fun d =>
    PupilTracker_get_orig_frame_at d;;
    if draw then MyFrame_draw_at d else gret tt).

Definition MyFrame_draw_pupil_at (depth : nat) (pupil_index : Z) : G unit :=
  pycall depth (fun d =>
    MyFrame_clear_at d false;;
    (if negb (pupil_index =? -1)
     then PupilTracker_draw_pupil_at d (Some pupil_index) None true
     else gret tt);;
    ImagePanel_draw_at d).

Definition MyFrame_draw_refle_at (depth : nat) (pupil_index refle_index : Z)
  : G unit :=
  pycall depth (fun d =>
    MyFrame_clear_at d false;;
    (if negb (pupil_index =? -1)
     then PupilTracker_draw_pupil_at d (Some pupil_index) None true;;
          ImagePanel_draw_at d
     else gret tt);;
    PupilTracker_draw_refle_at d (Some refle_index) None true;;
    ImagePanel_draw_at d).

Definition MyFrame_play_at (depth : nat) : G unit :=
  pycall depth (fun d =>
    ImagePanel_start_timer_at d;;
    gassign (set_playing true)).

Definition MyFrame_stop_at (depth : nat) : G unit :=
  pycall depth (fun d =>
    ImagePanel_stop_timer_at d;;
    gassign (set_playing false)).

(** ** ToolsPanel

    The two find handlers call themselves from their IndexError branch.
    The RuntimeError of the recursion limit comes from a call further
    down, after the index has been incremented, and is not among the
    exceptions the handlers catch. *)

Fixpoint ToolsPanel_on_find_pupil_button_at (depth : nat) : G unit :=
  match depth with
  | O => graise (Python RuntimeError)
  | S d =>
      fun w =>
        let w1 := set_pupil_index (pupil_index w + 1) w in
        match MyFrame_draw_pupil_at d (pupil_index w1) w1 with
        | GRaise (Python IndexError) w2 =>
            ToolsPanel_on_find_pupil_button_at d (set_pupil_index (-1) w2)
        | GRaise (Python AttributeError) w2 => GOk tt (print AttributeError w2)
        | o => o
        end
  end.

Fixpoint ToolsPanel_on_find_refle_button_at (depth : nat) : G unit :=
  match depth with
  | O => graise (Python RuntimeError)
  | S d =>
      fun w =>
        let w1 := set_refle_index (refle_index w + 1) w in
        match MyFrame_draw_refle_at d (pupil_index w1) (refle_index w1) w1 with
        | GRaise (Python IndexError) w2 =>
            ToolsPanel_on_find_refle_button_at d (set_refle_index (-1) w2)
        | GRaise (Python AttributeError) w2 => GOk tt (print AttributeError w2)
        | o => o
        end
  end.

Definition ToolsPanel_on_clear_button_at (depth : nat) : G unit :=
  pycall depth (fun d w =>
    match MyFrame_clear_at d true w with
    | GRaise (Python AttributeError) w' => GOk tt (print AttributeError w')
    | GRaise e w' => GRaise e w'
    | GOk _ w' =>
        (gassign (set_pupil_index (-1));;
         gassign (set_refle_index (-1))) w'
    end).

Definition ToolsPanel_on_load_button_at (depth : nat)
           (choice : option string) : G unit :=
  pycall depth (fun d =>
    gassign (set_pupil_index (-1));;
    gassign (set_refle_index (-1));;
    MyFrame_load_dialog_at d choice).

Definition ToolsPanel_on_play_button_at (depth : nat) : G unit :=
  pycall depth (fun d =>
    gassign (set_pupil_index (-1));;
    gassign (set_refle_index (-1));;
    MyFrame_play_at d).

Definition ToolsPanel_on_stop_button_at (depth : nat) : G unit :=
  pycall depth (fun d => MyFrame_stop_at d).

(** The handlers as wx calls them, with the whole stack left. *)
Definition ToolsPanel_on_find_pupil_button : G unit :=
  ToolsPanel_on_find_pupil_button_at recursion_limit.
Definition ToolsPanel_on_find_refle_button : G unit :=
  ToolsPanel_on_find_refle_button_at recursion_limit.
Definition ToolsPanel_on_clear_button : G unit :=
  ToolsPanel_on_clear_button_at recursion_limit.
Definition ToolsPanel_on_load_button (choice : option string) : G unit :=
  ToolsPanel_on_load_button_at recursion_limit choice.
Definition ToolsPanel_on_play_button : G unit :=
  ToolsPanel_on_play_button_at recursion_limit.
Definition ToolsPanel_on_stop_button : G unit :=
  ToolsPanel_on_stop_button_at recursion_limit.

(** ** Events

    What the user and the timer do to the window.  wx reports an exception
    that leaves a handler and goes on with the window as the handler left
    it. *)

Inductive event : Type :=
| PressFindPupil | PressFindRefle | PressClear
| PressLoad (choice : option string)
| PressPlay | PressStop
| TimerTick.

Definition handler (ev : event) : G unit :=
  match ev with
  | PressFindPupil => ToolsPanel_on_find_pupil_button
  | PressFindRefle => ToolsPanel_on_find_refle_button
  | PressClear => ToolsPanel_on_clear_button
  | PressLoad choice => ToolsPanel_on_load_button choice
  | PressPlay => ToolsPanel_on_play_button
  | PressStop => ToolsPanel_on_stop_button
  | TimerTick => ImagePanel_draw
  end.

Definition react (w : MyFrame) (ev : event) : MyFrame :=
  window_of (handler ev w).

(** The window after a sequence of events on a new one. *)
Definition session_after (events : list event) : MyFrame :=
  fold_left react events new_frame.

(** A window outcome and a tracker outcome that agree: the same result or
    the same exception, and the same tracker fields. *)
Definition agrees {A} (o : gui_outcome A) (t : outcome A) : Prop :=
  match o, t with
  | GOk a w, Ok a' s => a = a' /\ tracker w = s
  | GRaise (Python e) w, Raise e' s => e = e' /\ tracker w = s
  | _, _ => False
  end.

(** wx takes the first frame of the video the tracker has open. *)
Definition first_frame_shown (w : MyFrame) : Prop :=
  forall c first rest,
    cap (tracker w) = Some c ->
    cap_frames c = first :: rest ->
    BitmapFromBuffer 960 540 (resize first 0.5 0.5) <> None.

(** The controls of a window after some code has run: the timer still
    runs exactly when the play flag is set if it did before, and the two
    candidate indexes are as they were. *)
Definition steady (w w' : MyFrame) : Prop :=
  (timer_on w = playing w -> timer_on w' = playing w')
  /\ pupil_index w' = pupil_index w
  /\ refle_index w' = refle_index w.

(** The controls of a window untouched: the play flag, the timer, the
    candidate indexes and what was printed. *)
Definition same_controls (w w' : MyFrame) : Prop :=
  playing w' = playing w /\ timer_on w' = timer_on w
  /\ pupil_index w' = pupil_index w /\ refle_index w' = refle_index w
  /\ printed w' = printed w.

(** What holds of the controls between events: the timer runs exactly when
    the play flag is set, and the candidate indexes are at least -1. *)
Definition controls_ok (w : MyFrame) : Prop :=
  timer_on w = playing w /\ -1 <= pupil_index w /\ -1 <= refle_index w.

(** The tracker as [MyFrame.clear] leaves it over the original frame
    [img]. *)
Definition cleared (img : image) (s : PupilTracker) : PupilTracker :=
  set_roi_refle None (set_roi_pupil None (set_frame (Some img) s)).

Close Scope gui_scope.

End Window.

Arguments GOk {wx A} a w.
Arguments GRaise {wx A} e w.

(** A display that takes every buffer, for concrete runs. *)
Module SyntheticWindow.

#[export] Instance wx : Wx := {|
  bitmap := image;
  BitmapFromBuffer := fun _ _ img => Some img;
  CopyFromBuffer := fun _ img => Some img
|}.

(** Loading the synthetic video and pressing Play; the presses of Find
    pupil that follow each draw and show the next frame, up to the dark
    third frame, where two more presses find nothing; the tick after that
    meets the end of the video. *)
Definition stale_index : list event :=
  [PressLoad (Some "eye.avi"%string); PressPlay;
   PressFindPupil; PressFindPupil; PressFindPupil; PressFindPupil;
   PressFindPupil; TimerTick].

(** The window after the load of the synthetic video. *)
Definition first_shown : list event := [PressLoad (Some "eye.avi"%string)].

(** Two presses of Find pupil after the load: the second candidate is
    drawn. *)
Definition second_pupil : list event :=
  [PressLoad (Some "eye.avi"%string); PressFindPupil; PressFindPupil].

(** Playing the synthetic video up to its last frame. *)
Definition played_out : list event :=
  [PressLoad (Some "eye.avi"%string); PressPlay;
   TimerTick; TimerTick; TimerTick].

End SyntheticWindow.

(** * Properties *)

(** ** Python primitives *)

Lemma Qlt_bool_iff (x y : Q) : Py.Qlt_bool x y = true <-> (x < y)%Q.
Proof.
  unfold Py.Qlt_bool. rewrite negb_true_iff.
  split; intros H.
  - apply Qnot_le_lt. intros Hle. apply Qle_bool_iff in Hle. congruence.
  - destruct (Qle_bool y x) eqn:E; [|reflexivity].
    apply Qle_bool_iff in E. exfalso. exact (Qlt_not_le _ _ H E).
Qed.

Lemma Qbetween_bool (a x b : Q) :
  negb (Py.Qlt_bool a x && Py.Qlt_bool x b) = false -> (a < x /\ x < b)%Q.
Proof.
  rewrite negb_false_iff, andb_true_iff, !Qlt_bool_iff. tauto.
Qed.

Lemma truediv_some (x y q : Q) :
  truediv x y = Some q -> ~ (y == 0)%Q /\ q = (x / y)%Q.
Proof.
  unfold truediv. destruct (Qeq_bool y 0) eqn:E; [discriminate|].
  intros [= <-]. split; [|reflexivity].
  intros H. apply Qeq_bool_iff in H. congruence.
Qed.

(** [int(x)] lies strictly between two integers only if [x] does. *)
Lemma int_between (a b : Z) (x : Q) :
  a < Py.int x < b -> (inject_Z a < x /\ x < inject_Z b)%Q.
Proof.
  destruct x as [n d]. unfold Py.int, Qlt, inject_Z. simpl.
  intros [Ha Hb].
  pose proof (Z.quot_rem' n (Z.pos d)) as E.
  assert (Hd : 0 < Z.pos d) by reflexivity.
  destruct (Z.le_gt_cases 0 n) as [Hn|Hn].
  - pose proof (Z.rem_bound_pos n (Z.pos d) Hn Hd). nia.
  - pose proof (Z.rem_bound_pos_neg n (Z.pos d) Hd (Z.lt_le_incl _ _ Hn)). nia.
Qed.

(** Indexing: the positions at which [l[i]] is defined. *)
Lemma getitem_some {A} (l : list A) (i : Z) :
  - Z.of_nat (length l) <= i < Z.of_nat (length l) ->
  Py.getitem l i = nth_error l (Z.to_nat (i mod Z.of_nat (length l)))
  /\ Py.getitem l i <> None.
Proof.
  intros Hi. unfold Py.getitem.
  set (n := Z.of_nat (length l)) in *.
  assert (E : (if i <? 0 then i + n else i) = i mod n).
  { destruct (Z.ltb_spec i 0).
    - apply Z.mod_unique with (q := -1); lia.
    - symmetry. apply Z.mod_small. lia. }
  rewrite E.
  assert (Hm : 0 <= i mod n < n) by (apply Z.mod_pos_bound; lia).
  destruct (Z.ltb_spec (i mod n) 0); [lia|].
  destruct (Z.leb_spec n (i mod n)); [lia|]. simpl.
  split; [reflexivity|].
  apply nth_error_Some. subst n. lia.
Qed.

Lemma getitem_none {A} (l : list A) (i : Z) :
  Py.getitem l i = None <->
  Z.of_nat (length l) <= i \/ i < - Z.of_nat (length l).
Proof.
  split.
  - intros H.
    destruct (Z.le_gt_cases (Z.of_nat (length l)) i); [tauto|].
    destruct (Z.lt_ge_cases i (- Z.of_nat (length l))); [tauto|].
    exfalso. apply (getitem_some l i); [lia|exact H].
  - intros H. unfold Py.getitem.
    set (n := Z.of_nat (length l)) in *.
    destruct (Z.ltb_spec i 0).
    + destruct (Z.ltb_spec (i + n) 0); simpl; [reflexivity|].
      destruct (Z.leb_spec n (i + n)); [reflexivity|]. lia.
    + destruct (Z.ltb_spec i 0); [lia|]. simpl.
      destruct (Z.leb_spec n i); [reflexivity|lia].
Qed.

(** Slicing: the bounds, the length and the elements of [l[a:b]]. *)
Lemma slice_bound_range (n i : Z) :
  0 <= n -> 0 <= Py.slice_bound n i <= n.
Proof.
  intros Hn. unfold Py.slice_bound. destruct (Z.ltb_spec i 0); lia.
Qed.

Lemma slice_length {A} (l : list A) (a b : Z) :
  length (Py.slice l a b)
  = Z.to_nat (Py.slice_bound (Z.of_nat (length l)) b
              - Py.slice_bound (Z.of_nat (length l)) a).
Proof.
  unfold Py.slice. cbv zeta.
  pose proof (slice_bound_range (Z.of_nat (length l)) a ltac:(lia)).
  pose proof (slice_bound_range (Z.of_nat (length l)) b ltac:(lia)).
  rewrite length_firstn, length_skipn. lia.
Qed.

Lemma slice_nth {A} (l : list A) (a b : Z) (i : nat) (x : A) :
  nth_error (Py.slice l a b) i = Some x ->
  nth_error l (Z.to_nat (Py.slice_bound (Z.of_nat (length l)) a) + i) = Some x.
Proof.
  unfold Py.slice. cbv zeta. intros Hslice.
  rewrite nth_error_firstn in Hslice.
  destruct (Nat.ltb i _); [|discriminate].
  now rewrite nth_error_skipn in Hslice.
Qed.

(** ** The candidate loop *)

Lemma collect_inv (body : contour -> exn + option contour) :
  forall cnts found l,
    collect body cnts found = inr l ->
    exists added,
      l = found ++ added /\
      Forall (fun c => exists cnt, In cnt cnts /\ body cnt = inr (Some c))
             added.
Proof.
  induction cnts as [|cnt rest IH]; simpl; intros found l H.
  - injection H as <-. exists []. rewrite app_nil_r. auto.
  - destruct (body cnt) as [e|[c|]] eqn:E; [discriminate| |].
    + destruct (IH _ _ H) as (added & -> & Hall).
      exists (c :: added). rewrite <- app_assoc. split; [reflexivity|].
      constructor.
      * exists cnt. auto.
      * eapply Forall_impl; [|exact Hall].
        intros a (cnt' & Hin & Hb). exists cnt'. auto.
    + destruct (IH _ _ H) as (added & -> & Hall).
      exists added. split; [reflexivity|].
      eapply Forall_impl; [|exact Hall].
      intros a (cnt' & Hin & Hb). exists cnt'. auto.
Qed.

Section Properties.

Context {cv : Cv2}.

(** ** Preprocessing and the two searches *)

Lemma process_image_run (img : option image) (r : option roi) (s : PupilTracker) :
  process_image img r s =
  match img with
  | Some im =>
      if image_empty (searched im r) then Raise Cv2Error (with_offset r s)
      else Ok (cvtColor_BGR2GRAY (GaussianBlur (searched im r) (5, 5) 0))
              (with_offset r s)
  | None => Raise (no_frame_error r) (with_offset r s)
  end.
Proof.
  destruct r, img; try reflexivity;
    unfold process_image, cv2_GaussianBlur, bind, assign, searched;
    destruct (image_empty _); reflexivity.
Qed.

Lemma process_image_fields (img : option image) (r : option roi)
      (s : PupilTracker) :
  fields_of (process_image img r s) = with_offset r s.
Proof.
  rewrite process_image_run. destruct img; [|reflexivity].
  destruct (image_empty _); reflexivity.
Qed.

Lemma find_pupils_run (r : option roi) (s : PupilTracker) :
  find_pupils r s =
  match frame s with
  | Some img =>
      if image_empty (searched img r) then Raise Cv2Error (with_offset r s)
      else
        lift (collect (pupil_body (Some (fst (offset_of r)))
                                  (Some (snd (offset_of r))))
                      (contours_in s img r 45 4) [])
             (with_offset r s)
  | None => Raise (no_frame_error r) (with_offset r s)
  end.
Proof.
  unfold find_pupils, bind, read. rewrite process_image_run.
  destruct (frame s) as [img|]; [|reflexivity].
  destruct (image_empty _); [reflexivity|].
  unfold contours_in. simpl.
  destruct (findContours _); reflexivity.
Qed.

Lemma find_refle_run (r : option roi) (s : PupilTracker) :
  find_refle r s =
  match frame s with
  | Some img =>
      if image_empty (searched img (roi_pupil s))
      then Raise Cv2Error (with_offset (roi_pupil s) s)
      else
      lift (collect (refle_body (Some (fst (offset_of (roi_pupil s))))
                                (Some (snd (offset_of (roi_pupil s))))
                                r (roi_refle s))
                    (contours_in s img (roi_pupil s) 200 2) [])
           (with_offset (roi_pupil s) s)
  | None => Raise (no_frame_error (roi_pupil s)) (with_offset (roi_pupil s) s)
  end.
Proof.
  unfold find_refle, bind, read. rewrite process_image_run.
  destruct (frame s) as [img|]; [|reflexivity].
  destruct (image_empty _); [reflexivity|].
  unfold contours_in. simpl.
  destruct (findContours _); reflexivity.
Qed.

Lemma pupil_body_some (odx ody : option Z) (cnt c : contour) :
  pupil_body odx ody cnt = inr (Some c) ->
  exists x y,
    odx = Some x /\ ody = Some y /\
    c = translate x y (convexHull cnt) /\
    ~ (contourArea cnt == 0)%Q /\
    (1000 < contourArea cnt /\ contourArea cnt < 5000)%Q /\
    (5 <= length (convexHull cnt))%nat /\
    (circularity (convexHull cnt) (contourArea cnt) < 1.6)%Q.
Proof.
  unfold pupil_body.
  destruct (Qeq_bool (contourArea cnt) 0) eqn:Ezero; [discriminate|].
  destruct (negb _) eqn:Earea; [discriminate|].
  destruct (Z.ltb_spec (Z.of_nat (length (convexHull cnt))) 5) as [|Hhull];
    [discriminate|].
  destruct (truediv _ _) as [q|] eqn:Ediv; [|discriminate].
  destruct (Qle_bool 1.6 q) eqn:Ecirc; [discriminate|].
  destruct odx as [x|], ody as [y|]; try discriminate.
  intros [= <-]. exists x, y.
  apply truediv_some in Ediv as [_ ->].
  repeat split; try reflexivity.
  - intros H. apply Qeq_bool_iff in H. congruence.
  - apply (Qbetween_bool _ _ _ Earea).
  - apply (Qbetween_bool _ _ _ Earea).
  - lia.
  - apply Qlt_bool_iff. unfold Py.Qlt_bool, circularity. now rewrite Ecirc.
Qed.

(** C1. Every hull [find_pupils] returns, for any frame and any ROI
    argument, is the translated convex hull of a detected contour whose
    enclosed area is nonzero and strictly between 1000 and 5000, whose hull
    has at least 5 points, and whose circularity (hull perimeter squared
    over 4 pi area) is strictly below 1.6: a contour failing a filter
    contributes nothing to the returned list. *)
Theorem find_pupils_filters (r : option roi) (s s' : PupilTracker)
        (l : list contour) :
  find_pupils r s = Ok l s' -> Forall (pupil_accepted s r) l.
Proof.
  rewrite find_pupils_run.
  destruct (frame s) as [img|] eqn:Eframe; [|discriminate].
  destruct (image_empty _); [discriminate|].
  destruct (collect _ _ _) as [e|found] eqn:Ecollect; [discriminate|].
  simpl. intros [= <- _].
  apply collect_inv in Ecollect as (added & -> & Hall). simpl.
  eapply Forall_impl; [|exact Hall].
  intros c (cnt & Hin & Hbody).
  apply pupil_body_some in Hbody
    as (x & y & [= <-] & [= <-] & -> & Hzero & Harea & Hhull & Hcirc).
  exists img, cnt. tauto.
Qed.

(** The inverse ratio of a squareness in (1/2, 2) is in (1/2, 2) too. *)
Lemma ratio_symmetric (w h : Q) :
  (0.5 < h / w /\ h / w < 2 -> 0.5 < w / h /\ w / h < 2)%Q.
Proof.
  intros [Hlo Hhi].
  assert (E : (w / h == / (h / w))%Q).
  { unfold Qdiv. rewrite Qinv_mult_distr, Qinv_involutive. apply Qmult_comm. }
  rewrite E.
  assert (Hpos : (0 < h / w)%Q) by lra.
  split.
  - apply Qlt_shift_inv_l; [exact Hpos|lra].
  - apply Qlt_shift_inv_r; [exact Hpos|lra].
Qed.

Lemma refle_body_some (odx ody : option Z) (r rr : option roi)
      (cnt c : contour) :
  refle_body odx ody r rr cnt = inr (Some c) ->
  exists x y,
    odx = Some x /\ ody = Some y /\
    c = translate x y cnt /\
    ~ (contourArea cnt == 0)%Q /\
    (25 < contourArea cnt /\ contourArea cnt < 500)%Q /\
    ~ (fst (rect_size (minAreaRect c)) == 0)%Q /\
    (0.5 < snd (rect_size (minAreaRect c)) / fst (rect_size (minAreaRect c)) /\
     snd (rect_size (minAreaRect c)) / fst (rect_size (minAreaRect c)) < 2)%Q /\
    (r <> None ->
     exists box, rr = Some box /\
                 strictly_inside box (int_center (minAreaRect c))).
Proof.
  unfold refle_body.
  destruct (Qeq_bool (contourArea cnt) 0) eqn:Ezero; [discriminate|].
  destruct (negb _) eqn:Earea; [discriminate|].
  destruct odx as [x|], ody as [y|]; try discriminate.
  destruct (rect_size (minAreaRect (translate x y cnt))) as [w h] eqn:Esize.
  destruct (truediv h w) as [q|] eqn:Ediv; [|discriminate].
  destruct (negb (Py.Qlt_bool 0.5 q && Py.Qlt_bool q 2)) eqn:Esq;
    [discriminate|].
  apply truediv_some in Ediv as [Hw ->].
  apply Qbetween_bool in Earea, Esq.
  assert (Hzero : ~ (contourArea cnt == 0)%Q).
  { intros H. apply Qeq_bool_iff in H. congruence. }
  destruct r as [r|].
  - destruct rr as [[[x0 y0] [x1 y1]]|]; [|discriminate].
    destruct (negb _ || negb _) eqn:Ein; [discriminate|].
    intros [= <-]. exists x, y. rewrite Esize. simpl.
    repeat split; try tauto.
    intros _. exists ((x0, y0), (x1, y1)). split; [reflexivity|].
    apply orb_false_iff in Ein as [E1 E2].
    apply negb_false_iff, andb_true_iff in E1, E2.
    unfold strictly_inside, int_center. simpl. lia.
  - intros [= <-]. exists x, y. rewrite Esize. simpl.
    repeat split; try tauto.
Qed.

Lemma find_refle_inv (r : option roi) (s s' : PupilTracker) (l : list contour) :
  find_refle r s = Ok l s' ->
  exists img,
    frame s = Some img /\ s' = with_offset (roi_pupil s) s /\
    Forall (fun c =>
              exists cnt,
                In cnt (contours_in s img (roi_pupil s) 200 2) /\
                refle_body (Some (fst (offset_of (roi_pupil s))))
                           (Some (snd (offset_of (roi_pupil s))))
                           r (roi_refle s) cnt = inr (Some c)) l.
Proof.
  rewrite find_refle_run.
  destruct (frame s) as [img|] eqn:Eframe; [|discriminate].
  destruct (image_empty _); [discriminate|].
  destruct (collect _ _ _) as [e|found] eqn:Ecollect; [discriminate|].
  simpl. intros [= <- <-].
  apply collect_inv in Ecollect as (added & -> & Hall).
  exists img. auto.
Qed.

(** C8. Every candidate [find_refle] returns, for any frame and any ROI
    argument, comes from a detected contour of enclosed area strictly
    between 25 and 500, and the sides of its minimum-area rectangle are in
    a ratio strictly between 0.5 and 2 (height over width as the code
    computes it, and so width over height as well). *)
Theorem find_refle_filters (r : option roi) (s s' : PupilTracker)
        (l : list contour) :
  find_refle r s = Ok l s' -> Forall (refle_accepted s) l.
Proof.
  intros H. apply find_refle_inv in H as (img & Eframe & _ & Hall).
  eapply Forall_impl; [|exact Hall].
  intros c (cnt & Hin & Hbody).
  apply refle_body_some in Hbody
    as (x & y & [= <-] & [= <-] & -> & Hzero & Harea & Hw & Hsq & _).
  exists img, cnt. cbv zeta.
  pose proof (ratio_symmetric _ _ Hsq). tauto.
Qed.


(** C2 (as the code has it). With a ROI argument, every candidate
    [find_refle] returns has the integer centre of its minimum-area
    rectangle, and so the centre itself, strictly inside the reflection ROI
    the tracker holds in [roi_refle]; the argument only switches the test
    on.  The two agree whenever the argument is the stored ROI, as in the
    call [track_refle] makes. *)
Theorem find_refle_center_in_stored_roi (r : roi) (s s' : PupilTracker)
        (l : list contour) :
  find_refle (Some r) s = Ok l s' ->
  Forall (fun c =>
            exists box,
              roi_refle s = Some box /\
              strictly_inside box (int_center (minAreaRect c)) /\
              Qstrictly_inside box (rect_center (minAreaRect c))) l
  /\ (roi_refle s = Some r ->
      Forall (fun c =>
                strictly_inside r (int_center (minAreaRect c)) /\
                Qstrictly_inside r (rect_center (minAreaRect c))) l).
Proof.
  intros H. apply find_refle_inv in H as (img & Eframe & _ & Hall).
  assert (Hbox : Forall (fun c =>
            exists box,
              roi_refle s = Some box /\
              strictly_inside box (int_center (minAreaRect c)) /\
              Qstrictly_inside box (rect_center (minAreaRect c))) l).
  { eapply Forall_impl; [|exact Hall].
    intros c (cnt & Hin & Hbody).
    apply refle_body_some in Hbody as (x & y & _ & _ & _ & _ & _ & _ & _ & Hroi).
    destruct Hroi as (box & Ebox & Hin'); [discriminate|].
    exists box. split; [exact Ebox|]. split; [exact Hin'|].
    destruct Hin' as [Hx Hy]. unfold int_center in Hx, Hy. simpl in Hx, Hy.
    apply int_between in Hx, Hy. unfold Qstrictly_inside. tauto. }
  split; [exact Hbox|].
  intros Er. eapply Forall_impl; [|exact Hbox].
  intros c (box & Ebox & Hin). rewrite Er in Ebox. injection Ebox as <-.
  exact Hin.
Qed.

(** C4. Whatever its ROI argument, [find_refle] records the crop offset of
    the stored pupil ROI ((0, 0) when there is none), returns only contours
    found in the sub-image that ROI cuts from the frame, translated by that
    offset, and gives the same outcome for any two ROI arguments: the
    argument's presence gates the containment test and its value is never
    read.  The sub-image is the frame itself without a pupil ROI; with the
    pupil ROI [[(x0, y0), (x1, y1)]] it is made of the rows of the frame
    from [y0] up to [y1] and of their columns from [x0] up to [x1], bounds
    as NumPy's slicing takes them, pixel for pixel; and when it has no
    pixel the search ends in cv2.error. *)
Theorem find_refle_uses_pupil_roi (r : option roi) (s : PupilTracker) :
  dx (fields_of (find_refle r s)) = Some (fst (offset_of (roi_pupil s)))
  /\ dy (fields_of (find_refle r s)) = Some (snd (offset_of (roi_pupil s)))
  /\ (forall l s',
         find_refle r s = Ok l s' ->
         exists img,
           frame s = Some img /\
           Forall (fun c =>
                     exists cnt,
                       In cnt (contours_in s img (roi_pupil s) 200 2) /\
                       c = translate (fst (offset_of (roi_pupil s)))
                                     (snd (offset_of (roi_pupil s))) cnt) l)
  /\ (forall r1 r2 : roi, find_refle (Some r1) s = find_refle (Some r2) s)
  /\ (forall img, roi_pupil s = None -> searched img (roi_pupil s) = img)
  /\ (forall img x0 y0 x1 y1,
         roi_pupil s = Some ((x0, y0), (x1, y1)) ->
         let top := Py.slice_bound (Z.of_nat (length img)) y0 in
         let bottom := Py.slice_bound (Z.of_nat (length img)) y1 in
         length (searched img (roi_pupil s)) = Z.to_nat (bottom - top)
         /\ forall i row,
              nth_error (searched img (roi_pupil s)) i = Some row ->
              exists frame_row,
                nth_error img (Z.to_nat top + i) = Some frame_row /\
                let left := Py.slice_bound (Z.of_nat (length frame_row)) x0 in
                let right := Py.slice_bound (Z.of_nat (length frame_row)) x1 in
                length row = Z.to_nat (right - left) /\
                forall j p,
                  nth_error row j = Some p ->
                  nth_error frame_row (Z.to_nat left + j) = Some p)
  /\ (forall img,
         frame s = Some img ->
         image_empty (searched img (roi_pupil s)) = true ->
         find_refle r s = Raise Cv2Error (with_offset (roi_pupil s) s)).
Proof.
  split; [|split; [|split; [|split; [|split; [|split]]]]].
  - rewrite find_refle_run. destruct (frame s); [|reflexivity].
    destruct (image_empty _); [reflexivity|].
    destruct (collect _ _ _); reflexivity.
  - rewrite find_refle_run. destruct (frame s); [|reflexivity].
    destruct (image_empty _); [reflexivity|].
    destruct (collect _ _ _); reflexivity.
  - intros l s' H. apply find_refle_inv in H as (img & Eframe & _ & Hall).
    exists img. split; [exact Eframe|].
    eapply Forall_impl; [|exact Hall].
    intros c (cnt & Hin & Hbody).
    apply refle_body_some in Hbody as (x & y & [= <-] & [= <-] & -> & _).
    exists cnt. auto.
  - intros r1 r2. rewrite !find_refle_run. reflexivity.
  - intros img ->. reflexivity.
  - intros img x0 y0 x1 y1 ->. unfold searched, crop. cbv zeta. split.
    + rewrite length_map. apply slice_length.
    + intros i row Hrow. rewrite nth_error_map in Hrow.
      destruct (nth_error (Py.slice img y0 y1) i) as [frame_row|] eqn:E;
        [|discriminate].
      injection Hrow as <-. exists frame_row.
      split; [now apply slice_nth with (b := y1)|].
      split; [apply slice_length|].
      intros j p Hp. now apply slice_nth with (b := x1).
  - intros img Eframe Hempty. rewrite find_refle_run, Eframe, Hempty.
    reflexivity.
Qed.

(** ** Selecting and drawing a candidate *)

Lemma find_pupils_inv (r : option roi) (s s' : PupilTracker) (l : list contour) :
  find_pupils r s = Ok l s' ->
  exists img, frame s = Some img /\ s' = with_offset r s.
Proof.
  rewrite find_pupils_run.
  destruct (frame s) as [img|]; [|discriminate].
  destruct (image_empty _); [discriminate|].
  destruct (collect _ _ _); [discriminate|].
  simpl. intros [= _ <-]. eauto.
Qed.

Lemma find_pupils_raise (r : option roi) (s s' : PupilTracker) (e : exn) :
  find_pupils r s = Raise e s' -> s' = with_offset r s.
Proof.
  rewrite find_pupils_run.
  destruct (frame s) as [img|]; [|now intros [= _ <-]].
  destruct (image_empty _); [now intros [= _ <-]|].
  destruct (collect _ _ _); [|discriminate].
  simpl. now intros [= _ <-].
Qed.

Lemma find_refle_raise (r : option roi) (s s' : PupilTracker) (e : exn) :
  find_refle r s = Raise e s' -> s' = with_offset (roi_pupil s) s.
Proof.
  rewrite find_refle_run.
  destruct (frame s) as [img|]; [|now intros [= _ <-]].
  destruct (image_empty _); [now intros [= _ <-]|].
  destruct (collect _ _ _); [|discriminate].
  simpl. now intros [= _ <-].
Qed.

(** The three ways [select] ends. *)
Lemma select_run (l : list contour) (i : Z) (s : PupilTracker) :
  select l i s =
  match l with
  | [] => Raise AttributeError s
  | _ => match Py.getitem l i with
         | Some cnt => Ok cnt s
         | None => Raise IndexError s
         end
  end.
Proof.
  unfold select. destruct l as [|c l]; [reflexivity|].
  destruct (Z.ltb_spec 0 (Z.of_nat (length (c :: l)))) as [|H];
    [|simpl in H; lia].
  destruct (Py.getitem _ _); reflexivity.
Qed.

(** [draw_pupil], outcome by outcome of its search and selection. *)
Lemma draw_pupil_run (index : option Z) (r : option roi) (verbose : bool)
      (s : PupilTracker) :
  match find_pupils r s with
  | Raise e s' => draw_pupil index r verbose s = Raise e s'
  | Ok [] s' => draw_pupil index r verbose s = Raise AttributeError s'
  | Ok l s' =>
      match Py.getitem l (index_of index) with
      | None => draw_pupil index r verbose s = Raise IndexError s'
      | Some cnt =>
          exists img,
            draw_pupil index r verbose s =
            Ok tt (set_roi_pupil
                     (Some (square_around (int_center (fitEllipse cnt)) 100))
                     (set_frame (Some img) s'))
      end
  end.
Proof.
  destruct (find_pupils r s) as [l s'|e s'] eqn:Efind.
  - apply find_pupils_inv in Efind as Hinv.
    destruct Hinv as (img & Eframe & ->).
    unfold draw_pupil, bind. rewrite Efind, select_run.
    fold (index_of index).
    destruct l as [|c l]; [reflexivity|].
    destruct (Py.getitem (c :: l) (index_of index)) as [cnt|]; [|reflexivity].
    unfold draw_on_frame, bind, read, assign. simpl. rewrite Eframe.
    destruct verbose; simpl; eexists; reflexivity.
  - unfold draw_pupil, bind. rewrite Efind. reflexivity.
Qed.

(** [draw_refle], outcome by outcome of its search and selection. *)
Lemma draw_refle_run (index : option Z) (r : option roi) (verbose : bool)
      (s : PupilTracker) :
  match find_refle r s with
  | Raise e s' => draw_refle index r verbose s = Raise e s'
  | Ok [] s' => draw_refle index r verbose s = Raise AttributeError s'
  | Ok l s' =>
      match Py.getitem l (index_of index) with
      | None => draw_refle index r verbose s = Raise IndexError s'
      | Some cnt =>
          exists img,
            draw_refle index r verbose s =
            Ok tt (set_frame (Some img)
                     (set_roi_refle
                        (Some (square_around (int_center (minAreaRect cnt)) 15))
                        s'))
      end
  end.
Proof.
  destruct (find_refle r s) as [l s'|e s'] eqn:Efind.
  - apply find_refle_inv in Efind as Hinv.
    destruct Hinv as (img & Eframe & -> & _).
    unfold draw_refle, bind. rewrite Efind, select_run.
    fold (index_of index).
    destruct l as [|c l]; [reflexivity|].
    destruct (Py.getitem (c :: l) (index_of index)) as [cnt|]; [|reflexivity].
    unfold draw_on_frame, bind, read, assign. simpl. rewrite Eframe.
    destruct verbose; simpl; eexists; reflexivity.
  - unfold draw_refle, bind. rewrite Efind. reflexivity.
Qed.


(** A successful draw is the draw of the selected candidate; without one
    the draw raises and only the crop offset has changed. *)
Lemma draw_pupil_effect (index : option Z) (r : option roi) (verbose : bool)
      (s : PupilTracker) :
  match selected (find_pupils r) index s with
  | Some cnt =>
      exists img,
        draw_pupil index r verbose s =
        Ok tt (set_roi_pupil
                 (Some (square_around (int_center (fitEllipse cnt)) 100))
                 (set_frame (Some img) (with_offset r s)))
  | None => exists e, draw_pupil index r verbose s = Raise e (with_offset r s)
  end.
Proof.
  pose proof (draw_pupil_run index r verbose s) as H. unfold selected.
  destruct (find_pupils r s) as [l s'|e s'] eqn:Efind.
  - apply find_pupils_inv in Efind as (img & _ & ->).
    destruct l as [|c l]; [eauto|].
    destruct (Py.getitem _ _); eauto.
  - apply find_pupils_raise in Efind as ->. eauto.
Qed.

Lemma draw_refle_effect (index : option Z) (r : option roi) (verbose : bool)
      (s : PupilTracker) :
  match selected (find_refle r) index s with
  | Some cnt =>
      exists img,
        draw_refle index r verbose s =
        Ok tt (set_frame (Some img)
                 (set_roi_refle
                    (Some (square_around (int_center (minAreaRect cnt)) 15))
                    (with_offset (roi_pupil s) s)))
  | None =>
      exists e, draw_refle index r verbose s = Raise e (with_offset (roi_pupil s) s)
  end.
Proof.
  pose proof (draw_refle_run index r verbose s) as H. unfold selected.
  destruct (find_refle r s) as [l s'|e s'] eqn:Efind.
  - apply find_refle_inv in Efind as (img & _ & -> & _).
    destruct l as [|c l]; [eauto|].
    destruct (Py.getitem _ _); eauto.
  - apply find_refle_raise in Efind as ->. eauto.
Qed.

(** The searches raise neither of the two errors of a selection. *)
Lemma collect_raise (body : contour -> exn + option contour) :
  forall cnts found e,
    collect body cnts found = inl e -> exists cnt, body cnt = inl e.
Proof.
  induction cnts as [|cnt rest IH]; simpl; intros found e H; [discriminate|].
  destruct (body cnt) as [e'|[c|]] eqn:E; eauto.
  injection H as <-. eauto.
Qed.

Lemma pupil_body_raise (odx ody : option Z) (cnt : contour) (e : exn) :
  pupil_body odx ody cnt = inl e -> e = ZeroDivisionError \/ e = TypeError.
Proof.
  unfold pupil_body.
  repeat match goal with
         | |- context [if ?b then _ else _] => destruct b
         | |- context [match ?o with Some _ => _ | None => _ end] => destruct o
         end; intros [= <-] || discriminate; auto.
Qed.

Lemma refle_body_raise (odx ody : option Z) (r rr : option roi) (cnt : contour)
      (e : exn) :
  refle_body odx ody r rr cnt = inl e -> e = ZeroDivisionError \/ e = TypeError.
Proof.
  unfold refle_body.
  destruct (Qeq_bool _ _); [discriminate|].
  destruct (negb _); [discriminate|].
  destruct odx, ody; try (intros [= <-]; auto).
  destruct (rect_size _) as [w h].
  destruct (truediv h w); [|intros [= <-]; auto].
  destruct (negb _); [discriminate|].
  destruct r; [|discriminate].
  destruct rr as [[[x0 y0] [x1 y1]]|]; [|intros [= <-]; auto].
  destruct (_ || _); discriminate.
Qed.

Lemma find_pupils_raises (r : option roi) (s s' : PupilTracker) (e : exn) :
  find_pupils r s = Raise e s' ->
  e = ZeroDivisionError \/ e = TypeError \/ e = Cv2Error.
Proof.
  rewrite find_pupils_run.
  destruct (frame s); [|destruct r; intros [= <- _]; auto].
  destruct (image_empty _); [intros [= <- _]; auto|].
  destruct (collect _ _ _) as [e'|] eqn:E; [|discriminate].
  simpl. intros [= <- _].
  apply collect_raise in E as (cnt & E).
  apply pupil_body_raise in E. tauto.
Qed.

Lemma find_refle_raises (r : option roi) (s s' : PupilTracker) (e : exn) :
  find_refle r s = Raise e s' ->
  e = ZeroDivisionError \/ e = TypeError \/ e = Cv2Error.
Proof.
  rewrite find_refle_run.
  destruct (frame s); [|destruct (roi_pupil s); intros [= <- _]; auto].
  destruct (image_empty _); [intros [= <- _]; auto|].
  destruct (collect _ _ _) as [e'|] eqn:E; [|discriminate].
  simpl. intros [= <- _].
  apply collect_raise in E as (cnt & E).
  apply refle_body_raise in E. tauto.
Qed.

(** C6 (as the code has it). [draw_pupil] raises the not-found error
    (AttributeError) exactly when [find_pupils] returns an empty list, and
    the index error exactly when the list is non-empty and the index is at
    or past its length or below minus its length; so index 5 with two
    candidates raises the index error, not the not-found error. *)
Theorem draw_pupil_errors (index : option Z) (r : option roi) (verbose : bool)
        (s : PupilTracker) :
  (forall s', draw_pupil index r verbose s = Raise AttributeError s' <->
              find_pupils r s = Ok [] s')
  /\ (forall s', draw_pupil index r verbose s = Raise IndexError s' <->
                 exists l,
                   find_pupils r s = Ok l s' /\ l <> [] /\
                   (Z.of_nat (length l) <= index_of index \/
                    index_of index < - Z.of_nat (length l)))
  /\ (forall a b s', find_pupils r s = Ok [a; b] s' ->
                     draw_pupil (Some 5) r verbose s = Raise IndexError s').
Proof.
  pose proof (draw_pupil_run index r verbose s) as H.
  pose proof (draw_pupil_run (Some 5) r verbose s) as H5.
  destruct (find_pupils r s) as [l s1|e s1] eqn:Efind.
  - destruct l as [|c l].
    + split; [|split].
      * intros s'. rewrite H. split; congruence.
      * intros s'. rewrite H. split; [discriminate|].
        intros (l & [= <- _] & Hl & _). congruence.
      * discriminate.
    + destruct (Py.getitem (c :: l) (index_of index)) as [cnt|] eqn:Eget.
      * destruct H as (img & H). split; [|split].
        -- intros s'. rewrite H. split; discriminate.
        -- intros s'. rewrite H. split; [discriminate|].
           intros (l' & [= <- _] & _ & Hi).
           apply getitem_none in Hi. congruence.
        -- intros a b s' [= -> -> <-]. exact H5.
      * split; [|split].
        -- intros s'. rewrite H. split; discriminate.
        -- intros s'. rewrite H. split.
           ++ intros [= <-]. exists (c :: l).
              apply getitem_none in Eget. repeat split; [discriminate|exact Eget].
           ++ intros (l' & [= <- <-] & _). reflexivity.
        -- intros a b s' [= -> -> <-]. exact H5.
  - split; [|split].
    + intros s'. rewrite H. split; [|discriminate].
      intros [= -> _]. apply find_pupils_raises in Efind as [|[|]]; discriminate.
    + intros s'. rewrite H. split.
      * intros [= -> _]. apply find_pupils_raises in Efind as [|[|]]; discriminate.
      * intros (l & Hl & _). discriminate.
    + discriminate.
Qed.


(** C10. For a non-empty candidate list of length n, a negative index of
    absolute value at most n makes [draw_pupil] and [draw_refle] succeed
    on the candidate at position n + index (Python's indexing from the
    end); the index error is raised only for an index at or past n or
    below -n. *)
Theorem draw_negative_index (i : Z) (r : option roi) (verbose : bool)
        (s s' : PupilTracker) (l : list contour) :
  l <> [] ->
  let n := Z.of_nat (length l) in
  (find_pupils r s = Ok l s' ->
   (- n <= i < 0 ->
    exists cnt img,
      nth_error l (Z.to_nat (n + i)) = Some cnt /\
      draw_pupil (Some i) r verbose s =
      Ok tt (set_roi_pupil
               (Some (square_around (int_center (fitEllipse cnt)) 100))
               (set_frame (Some img) s')))
   /\ (draw_pupil (Some i) r verbose s = Raise IndexError s' <->
       n <= i \/ i < - n))
  /\
  (find_refle r s = Ok l s' ->
   (- n <= i < 0 ->
    exists cnt img,
      nth_error l (Z.to_nat (n + i)) = Some cnt /\
      draw_refle (Some i) r verbose s =
      Ok tt (set_frame (Some img)
               (set_roi_refle
                  (Some (square_around (int_center (minAreaRect cnt)) 15))
                  s')))
   /\ (draw_refle (Some i) r verbose s = Raise IndexError s' <->
       n <= i \/ i < - n)).
Proof.
  intros Hl n.
  assert (Hneg : - n <= i < 0 ->
                 exists cnt, Py.getitem l i = Some cnt /\
                             nth_error l (Z.to_nat (n + i)) = Some cnt).
  { intros Hi. destruct (getitem_some l i) as [E Hsome]; [lia|].
    fold n in E.
    replace (i mod n) with (n + i) in E
      by (apply Z.mod_unique with (q := -1); lia).
    destruct (Py.getitem l i) as [cnt|]; [|congruence].
    exists cnt. auto. }
  split; intros Efind.
  - pose proof (draw_pupil_run (Some i) r verbose s) as H.
    rewrite Efind in H. destruct l as [|c l]; [congruence|]. simpl index_of in H.
    split.
    + intros Hi. destruct (Hneg Hi) as (cnt & Eget & Enth).
      rewrite Eget in H. destruct H as (img & H). eauto.
    + destruct (Py.getitem (c :: l) i) as [cnt|] eqn:Eget.
      * destruct H as (img & H). rewrite H. split; [discriminate|].
        intros Hi. apply getitem_none in Hi. congruence.
      * apply getitem_none in Eget. tauto.
  - pose proof (draw_refle_run (Some i) r verbose s) as H.
    rewrite Efind in H. destruct l as [|c l]; [congruence|]. simpl index_of in H.
    split.
    + intros Hi. destruct (Hneg Hi) as (cnt & Eget & Enth).
      rewrite Eget in H. destruct H as (img & H). eauto.
    + destruct (Py.getitem (c :: l) i) as [cnt|] eqn:Eget.
      * destruct H as (img & H). rewrite H. split; [discriminate|].
        intros Hi. apply getitem_none in Hi. congruence.
      * apply getitem_none in Eget. tauto.
Qed.

(** ** Tracking *)

Lemma with_offset_rois (r : option roi) (s : PupilTracker) :
  roi_pupil (with_offset r s) = roi_pupil s /\
  roi_refle (with_offset r s) = roi_refle s.
Proof. split; reflexivity. Qed.

(** C7. [track_pupil] and [track_refle] do nothing when their ROI slot is
    unset.  When it is set they make the draw call with that ROI: what the
    draw returns is what the tracking returns, and when the draw raises the
    not-found error (AttributeError) or the index error, the error is
    swallowed and the slot still holds the same ROI. *)
Theorem track_swallows (s : PupilTracker) :
  (roi_pupil s = None -> track_pupil s = Ok tt s)
  /\ (forall box,
         roi_pupil s = Some box ->
         match draw_pupil None (Some box) true s with
         | Ok _ s' => track_pupil s = Ok tt s'
         | Raise e s' =>
             roi_pupil s' = Some box
             /\ (e = AttributeError \/ e = IndexError -> track_pupil s = Ok tt s')
             /\ (e <> AttributeError -> e <> IndexError ->
                 track_pupil s = Raise e s')
         end)
  /\ (roi_refle s = None -> track_refle s = Ok tt s)
  /\ (forall box,
         roi_refle s = Some box ->
         match draw_refle None (Some box) true s with
         | Ok _ s' => track_refle s = Ok tt s'
         | Raise e s' =>
             roi_refle s' = Some box
             /\ (e = AttributeError \/ e = IndexError -> track_refle s = Ok tt s')
             /\ (e <> AttributeError -> e <> IndexError ->
                 track_refle s = Raise e s')
         end).
Proof.
  split; [|split; [|split]].
  - intros E. unfold track_pupil, bind, read. rewrite E. reflexivity.
  - intros box E. unfold track_pupil, bind, read, try_pass. rewrite E.
    pose proof (draw_pupil_effect None (Some box) true s) as H.
    destruct (selected _ _ _).
    + destruct H as (img & ->). reflexivity.
    + destruct H as (e & ->). split; [exact E|].
      split; [intros [->| ->]; reflexivity|].
      intros H1 H2. destruct e; congruence.
  - intros E. unfold track_refle, bind, read. rewrite E. reflexivity.
  - intros box E. unfold track_refle, bind, read, try_pass. rewrite E.
    pose proof (draw_refle_effect None (Some box) true s) as H.
    destruct (selected _ _ _).
    + destruct H as (img & ->). reflexivity.
    + destruct H as (e & ->). split; [exact E|].
      split; [intros [->| ->]; reflexivity|].
      intros H1 H2. destruct e; congruence.
Qed.

(** ** Frames: reset and ingestion *)

(** A frame read by [next_frame] is kept as the original copy too. *)
Lemma next_frame_at_ok (d : nat) (s s' : PupilTracker) :
  next_frame_at d s = Ok tt s' ->
  exists img, orig_image s' = Some img /\ frame s' = Some img.
Proof.
  destruct d as [|d]; [discriminate|].
  cbn [next_frame_at]. unfold bind at 1, read at 1.
  destruct (cap s) as [c|]; [|discriminate].
  destruct (cap_read c) as [[raw|] c'].
  - unfold bind, assign. intros [= <-]. eexists. split; reflexivity.
  - unfold bind at 1 2 3 4 5, assign.
    destruct (load_first_frame_with _ _); discriminate.
Qed.

(** C9. Once [next_frame] has read a frame there is an original-frame
    copy, and with one [get_orig_frame] succeeds: it leaves the working
    frame equal to the original copy and both ROI slots cleared, and a
    second call succeeds too and changes nothing.  With no original frame
    (as on a fresh tracker) it raises AttributeError. *)
Theorem get_orig_frame_idempotent (s : PupilTracker) :
  (forall img,
      orig_image s = Some img ->
      exists s1,
        get_orig_frame s = Ok img s1 /\
        frame s1 = Some img /\ orig_image s1 = Some img /\
        roi_pupil s1 = None /\ roi_refle s1 = None /\
        get_orig_frame s1 = Ok img s1)
  /\ (orig_image s = None -> get_orig_frame s = Raise AttributeError s)
  /\ get_orig_frame init = Raise AttributeError init
  /\ (forall s0, next_frame s0 = Ok tt s -> orig_image s <> None).
Proof.
  split; [|split; [|split]]; cycle 3.
  - intros s0 H. apply next_frame_at_ok in H as (img & E & _). congruence.
  - intros img E. unfold get_orig_frame, bind, read, assign, ret.
    rewrite E. simpl. eexists. split; [reflexivity|].
    simpl. rewrite E. repeat split; reflexivity.
  - intros E. unfold get_orig_frame, bind, read. rewrite E. reflexivity.
  - reflexivity.
Qed.


(** Reading a frame: the next frame of the video is there. *)
Lemma next_frame_at_read (d : nat) (s : PupilTracker) (c : capture)
      (raw : image) :
  cap s = Some c ->
  nth_error (cap_frames c) (cap_pos c) = Some raw ->
  next_frame_at (S d) s =
  Ok tt (set_frame (Some (resize raw 0.5 0.5))
           (set_orig_image (Some (resize raw 0.5 0.5))
              (set_cap (Some (mk_capture (cap_frames c) (S (cap_pos c)))) s))).
Proof.
  intros Ecap Eraw. simpl. unfold bind, read, cap_read.
  rewrite Ecap, Eraw. reflexivity.
Qed.

(** The end of a video that has a first frame: the capture is rewound, the
    ROI slots are cleared, the first frame is loaded, and EOFError is
    raised. *)
Lemma next_frame_at_end (d : nat) (s : PupilTracker) (c : capture)
      (first : image) (rest : list image) :
  cap s = Some c ->
  nth_error (cap_frames c) (cap_pos c) = None ->
  cap_frames c = first :: rest ->
  next_frame_at (S (S d)) s =
  Raise EOFError
        (set_cap (Some (mk_capture (cap_frames c) 0))
           (set_frame (Some (resize first 0.5 0.5))
              (set_orig_image (Some (resize first 0.5 0.5))
                 (set_roi_refle None (set_roi_pupil None s))))).
Proof.
  intros Ecap Eraw Eframes.
  change (next_frame_at (S (S d)) s) with
    (bind (read cap)
          (fun c =>
             match c with
             | Some c =>
                 let (r, c') := cap_read c in
                 assign (set_cap (Some c'));;
                 match r with
                 | Some next_frame =>
                     let frame := resize next_frame 0.5 0.5 in
                     assign (set_orig_image (Some frame));;
                     assign (set_frame (Some frame))
                 | None =>
                     assign (set_cap (Some (cap_set_pos c' 0)));;
                     assign (set_roi_pupil None);;
                     assign (set_roi_refle None);;
                     load_first_frame_with (next_frame_at (S d));;
                     raise EOFError
                 end
             | None => raise IOError
             end) s).
  unfold bind at 1. unfold read at 1. rewrite Ecap.
  unfold cap_read. rewrite Eraw.
  unfold bind, assign, load_first_frame_with, bind, read, assign.
  cbn -[next_frame_at].
  erewrite next_frame_at_read;
    [|reflexivity|cbn; rewrite Eframes; reflexivity].
  cbn. rewrite Eframes. reflexivity.
Qed.



(** ** The ROI slots along a history of calls *)

Lemma kept (s s' : PupilTracker) :
  roi_pupil s' = roi_pupil s -> roi_refle s' = roi_refle s ->
  rois_kept_or_cleared s s'.
Proof. left. auto. Qed.

Lemma load_first_frame_with_rois (next : M unit) :
  (forall s, rois_kept_or_cleared s (fields_of (next s))) ->
  forall s, rois_kept_or_cleared s (fields_of (load_first_frame_with next s)).
Proof.
  intros Hnext s. unfold load_first_frame_with, bind, read.
  specialize (Hnext s).
  destruct (next s) as [[] s1|e s1]; [|exact Hnext].
  destruct (cap s1); exact Hnext.
Qed.

Lemma next_frame_at_rois (d : nat) :
  forall s, rois_kept_or_cleared s (fields_of (next_frame_at d s)).
Proof.
  induction d as [|d IH]; intros s.
  - apply kept; reflexivity.
  - cbn [next_frame_at]. unfold bind at 1, read at 1.
    destruct (cap s) as [c|]; [|apply kept; reflexivity].
    destruct (cap_read c) as [[raw|] c'].
    + apply kept; reflexivity.
    + unfold bind at 1 2 3 4 5, assign.
      match goal with
      | |- context [load_first_frame_with _ ?s2] =>
          pose proof (load_first_frame_with_rois _ IH s2) as H;
          destruct (load_first_frame_with _ s2) as [[] s3|e s3]
      end; right; simpl in *; destruct H as [[-> ->]|[-> ->]]; auto.
Qed.

Lemma load_video_rois (video_file : string) (s : PupilTracker) :
  rois_kept_or_cleared s (fields_of (load_video video_file s)).
Proof.
  unfold load_video, bind at 1 2 3, assign.
  match goal with
  | |- context [load_first_frame ?s1] =>
      exact (load_first_frame_with_rois _ (next_frame_at_rois recursion_limit) s1)
  end.
Qed.

Lemma get_orig_frame_rois (s : PupilTracker) :
  rois_kept_or_cleared s (fields_of (get_orig_frame s)).
Proof.
  unfold get_orig_frame, bind, read.
  destruct (orig_image s); [right|left]; split; reflexivity.
Qed.

Lemma find_pupils_fields (r : option roi) (s : PupilTracker) :
  fields_of (find_pupils r s) = with_offset r s.
Proof.
  rewrite find_pupils_run. destruct (frame s); [|reflexivity].
  destruct (image_empty _); [reflexivity|].
  destruct (collect _ _ _); reflexivity.
Qed.

Lemma find_refle_fields (r : option roi) (s : PupilTracker) :
  fields_of (find_refle r s) = with_offset (roi_pupil s) s.
Proof.
  rewrite find_refle_run. destruct (frame s); [|reflexivity].
  destruct (image_empty _); [reflexivity|].
  destruct (collect _ _ _); reflexivity.
Qed.

(** The calls that are not draws keep or clear the ROI slots. *)
Lemma perform_rois (c : call) (s : PupilTracker) :
  match c with
  | DrawPupil _ _ _ | TrackPupil | DrawRefle _ _ _ | TrackRefle => True
  | _ => rois_kept_or_cleared s (perform c s)
  end.
Proof.
  destruct c; simpl; try exact I.
  - apply load_video_rois.
  - apply load_first_frame_with_rois, next_frame_at_rois.
  - apply next_frame_at_rois.
  - apply kept; reflexivity.
  - apply get_orig_frame_rois.
  - rewrite process_image_fields. apply kept; reflexivity.
  - rewrite find_pupils_fields. apply kept; reflexivity.
  - rewrite find_refle_fields. apply kept; reflexivity.
Qed.

(** The pupil slot after a call: the square of the pupil the call drew, or
    what it held before, or nothing. *)
Lemma pupil_step (c : call) (s : PupilTracker) :
  match pupil_drawn c s with
  | Some cnt =>
      roi_pupil (perform c s)
      = Some (square_around (int_center (fitEllipse cnt)) 100)
  | None =>
      roi_pupil (perform c s) = roi_pupil s \/ roi_pupil (perform c s) = None
  end.
Proof.
  pose proof (perform_rois c s) as Hc.
  destruct c; simpl pupil_drawn; cbv iota beta in Hc;
    try (destruct Hc as [[-> _]|[-> _]]; auto).
  - (* DrawPupil *)
    simpl perform.
    pose proof (draw_pupil_effect index r verbose s) as H.
    destruct (selected _ _ _) as [cnt|].
    + destruct H as (img & ->). reflexivity.
    + destruct H as (e & ->). left. reflexivity.
  - (* TrackPupil *)
    simpl perform. unfold track_pupil, bind, read, try_pass.
    destruct (roi_pupil s) as [box|] eqn:E; [|left; simpl; auto].
    pose proof (draw_pupil_effect None (Some box) true s) as H.
    destruct (selected _ _ _) as [cnt|].
    + destruct H as (img & ->). reflexivity.
    + destruct H as (e & ->). simpl. left.
      destruct e; simpl; exact E.
  - (* DrawRefle *)
    simpl perform.
    pose proof (draw_refle_effect index r verbose s) as H.
    destruct (selected _ _ _) as [cnt|].
    + destruct H as (img & ->). left. reflexivity.
    + destruct H as (e & ->). left. reflexivity.
  - (* TrackRefle *)
    simpl perform. unfold track_refle, bind, read, try_pass.
    destruct (roi_refle s) as [box|] eqn:E; [|left; simpl; auto].
    pose proof (draw_refle_effect None (Some box) true s) as H.
    destruct (selected _ _ _) as [cnt|].
    + destruct H as (img & ->). left. reflexivity.
    + destruct H as (e & ->). left. destruct e; reflexivity.
Qed.

Lemma refle_step (c : call) (s : PupilTracker) :
  match refle_drawn c s with
  | Some cnt =>
      roi_refle (perform c s)
      = Some (square_around (int_center (minAreaRect cnt)) 15)
  | None =>
      roi_refle (perform c s) = roi_refle s \/ roi_refle (perform c s) = None
  end.
Proof.
  pose proof (perform_rois c s) as Hc.
  destruct c; simpl refle_drawn; cbv iota beta in Hc;
    try (destruct Hc as [[_ ->]|[_ ->]]; auto).
  - (* DrawPupil *)
    simpl perform.
    pose proof (draw_pupil_effect index r verbose s) as H.
    destruct (selected _ _ _) as [cnt|].
    + destruct H as (img & ->). left. reflexivity.
    + destruct H as (e & ->). left. reflexivity.
  - (* TrackPupil *)
    simpl perform. unfold track_pupil, bind, read, try_pass.
    destruct (roi_pupil s) as [box|] eqn:E; [|left; simpl; auto].
    pose proof (draw_pupil_effect None (Some box) true s) as H.
    destruct (selected _ _ _) as [cnt|].
    + destruct H as (img & ->). left. reflexivity.
    + destruct H as (e & ->). left. destruct e; reflexivity.
  - (* DrawRefle *)
    simpl perform.
    pose proof (draw_refle_effect index r verbose s) as H.
    destruct (selected _ _ _) as [cnt|].
    + destruct H as (img & ->). reflexivity.
    + destruct H as (e & ->). left. reflexivity.
  - (* TrackRefle *)
    simpl perform. unfold track_refle, bind, read, try_pass.
    destruct (roi_refle s) as [box|] eqn:E; [|left; simpl; auto].
    pose proof (draw_refle_effect None (Some box) true s) as H.
    destruct (selected _ _ _) as [cnt|].
    + destruct H as (img & ->). reflexivity.
    + destruct H as (e & ->). simpl. left.
      destruct e; simpl; exact E.
Qed.

Lemma square_around_size (c : point) (d : Z) :
  roi_width (square_around c d) = 2 * d /\
  roi_height (square_around c d) = 2 * d.
Proof.
  destruct c as [x y]. unfold roi_width, roi_height, square_around.
  cbn [fst snd]. lia.
Qed.

Lemma step_invariant (h : history_end) (c : call) :
  roi_invariant h -> roi_invariant (step h c).
Proof.
  intros [Hp Hr]. split; intros box; simpl.
  - pose proof (pupil_step c (fields h)) as H.
    destruct (pupil_drawn c (fields h)) as [cnt|]; simpl.
    + rewrite H. intros [= <-]. exists cnt.
      destruct (square_around_size (int_center (fitEllipse cnt)) 100). auto.
    + destruct H as [-> | ->]; [apply Hp|discriminate].
  - pose proof (refle_step c (fields h)) as H.
    destruct (refle_drawn c (fields h)) as [cnt|]; simpl.
    + rewrite H. intros [= <-]. exists cnt.
      destruct (square_around_size (int_center (minAreaRect cnt)) 15). auto.
    + destruct H as [-> | ->]; [apply Hr|discriminate].
Qed.

Lemma fold_invariant (calls : list call) :
  forall h, roi_invariant h -> roi_invariant (fold_left step calls h).
Proof.
  induction calls as [|c calls IH]; intros h Hh; [exact Hh|].
  simpl. apply IH, step_invariant, Hh.
Qed.

(** C5. Along every sequence of calls on a fresh tracker: whenever the
    pupil ROI slot is set it is the 200x200 square centred on the
    integer-truncated ellipse centre of the pupil drawn most recently, and
    whenever the reflection ROI slot is set it is the 30x30 square centred
    on the integer-truncated rectangle centre of the reflection drawn most
    recently.  A successful [draw_pupil] or [draw_refle] sets that square
    for the candidate it selected, whatever the verbose flag. *)
Theorem roi_invariant_holds :
  (forall calls, roi_invariant (run calls))
  /\ (forall index r verbose s s',
         draw_pupil index r verbose s = Ok tt s' ->
         exists cnt,
           selected (find_pupils r) index s = Some cnt /\
           roi_pupil s'
           = Some (square_around (int_center (fitEllipse cnt)) 100))
  /\ (forall index r verbose s s',
         draw_refle index r verbose s = Ok tt s' ->
         exists cnt,
           selected (find_refle r) index s = Some cnt /\
           roi_refle s'
           = Some (square_around (int_center (minAreaRect cnt)) 15)).
Proof.
  split; [|split].
  - intros calls. apply fold_invariant. split; discriminate.
  - intros index r verbose s s' H.
    pose proof (draw_pupil_effect index r verbose s) as He.
    destruct (selected _ _ _) as [cnt|].
    + destruct He as (img & He). rewrite He in H. injection H as <-. eauto.
    + destruct He as (e & He). congruence.
  - intros index r verbose s s' H.
    pose proof (draw_refle_effect index r verbose s) as He.
    destruct (selected _ _ _) as [cnt|].
    + destruct He as (img & He). rewrite He in H. injection H as <-. eauto.
    + destruct He as (e & He). congruence.
Qed.




(** ** The searches as filters *)

Lemma collect_filter (body : contour -> exn + option contour)
      (passes : contour -> bool) (make : contour -> contour) :
  forall cnts found,
    Forall (fun cnt => body cnt
                       = inr (if passes cnt then Some (make cnt) else None))
           cnts ->
    collect body cnts found = inr (found ++ map make (filter passes cnts)).
Proof.
  induction cnts as [|cnt rest IH]; intros found Hall; simpl.
  - now rewrite app_nil_r.
  - inversion Hall as [|? ? Hcnt Hrest]; subst. rewrite Hcnt.
    destruct (passes cnt); rewrite (IH _ Hrest); [|reflexivity].
    simpl. now rewrite <- app_assoc.
Qed.

Lemma pupil_body_passes (x y : Z) (cnt : contour) :
  ~ (np_pi == 0)%Q ->
  pupil_body (Some x) (Some y) cnt
  = inr (if pupil_passes cnt then Some (translate x y (convexHull cnt))
         else None).
Proof.
  intros Hpi. unfold pupil_body, pupil_passes.
  destruct (Qeq_bool (contourArea cnt) 0) eqn:Ezero; [reflexivity|]. simpl.
  destruct (Py.Qlt_bool 1000 _ && Py.Qlt_bool _ 5000); [|reflexivity]. simpl.
  rewrite Z.leb_antisym.
  destruct (Z.of_nat (length (convexHull cnt)) <? 5); [reflexivity|]. simpl.
  unfold truediv, circularity.
  destruct (Qeq_bool (4 * np_pi * contourArea cnt) 0) eqn:Eden.
  - exfalso. apply Qeq_bool_iff in Eden.
    apply Qmult_integral in Eden as [Eden|Eden].
    + apply Qmult_integral in Eden as [Eden|Eden]; [discriminate|auto].
    + apply Qeq_bool_iff in Eden. congruence.
  - destruct (Qle_bool 1.6 _); reflexivity.
Qed.

(** X1. With a frame loaded, [find_pupils] raises exactly when the
    sub-image it is to search has no pixel (cv2.error from the blur);
    otherwise it returns, in detection order, the translated hull of every
    detected contour that passes the three filters.  Either way it changes
    only the crop offset. *)
Theorem find_pupils_complete (r : option roi) (s : PupilTracker) (img : image) :
  frame s = Some img ->
  ~ (np_pi == 0)%Q ->
  find_pupils r s
  = if image_empty (searched img r)
    then Raise Cv2Error (with_offset r s)
    else Ok (map (fun cnt => translate (fst (offset_of r)) (snd (offset_of r))
                                       (convexHull cnt))
                 (filter pupil_passes (contours_in s img r 45 4)))
            (with_offset r s).
Proof.
  intros Eframe Hpi. rewrite find_pupils_run, Eframe.
  destruct (image_empty _); [reflexivity|].
  rewrite (collect_filter _ pupil_passes
             (fun cnt => translate (fst (offset_of r)) (snd (offset_of r))
                                   (convexHull cnt))).
  - reflexivity.
  - apply Forall_forall. intros cnt _. now apply pupil_body_passes.
Qed.

Lemma refle_body_passes (x y : Z) (r stored : option roi) (cnt : contour) :
  (r <> None -> stored <> None) ->
  ~ (fst (rect_size (minAreaRect (translate x y cnt))) == 0)%Q ->
  refle_body (Some x) (Some y) r stored cnt
  = inr (if refle_passes x y (containment_roi r stored) cnt
         then Some (translate x y cnt) else None).
Proof.
  intros Hstored Hw. unfold refle_body, refle_passes.
  destruct (Qeq_bool (contourArea cnt) 0); [reflexivity|]. simpl.
  destruct (Py.Qlt_bool 25 _ && Py.Qlt_bool _ 500); [|reflexivity]. simpl.
  destruct (rect_size (minAreaRect (translate x y cnt))) as [w h] eqn:Esize.
  simpl in *. unfold truediv.
  destruct (Qeq_bool w 0) eqn:Ew; [apply Qeq_bool_iff in Ew; contradiction|].
  destruct (Py.Qlt_bool 0.5 (h / w) && Py.Qlt_bool (h / w) 2); [|reflexivity].
  simpl. destruct r as [r|]; [|reflexivity].
  destruct stored as [[[x0 y0] [x1 y1]]|]; [|exfalso; now apply Hstored].
  unfold int_center. simpl.
  destruct ((x0 <? _) && (_ <? x1)); simpl; [|reflexivity].
  destruct ((y0 <? _) && (_ <? y1)); reflexivity.
Qed.

(** X2. With a frame loaded, no degenerate rectangle fit (zero width) among
    the shifted contours, and a reflection ROI stored when it is given a
    ROI argument, [find_refle] raises exactly when the sub-image the pupil
    ROI cuts from the frame has no pixel (cv2.error from the blur);
    otherwise it returns, in detection order, every detected contour that
    passes its filters, shifted by the pupil ROI's offset.  Either way it
    changes only the crop offset. *)
Theorem find_refle_complete (r : option roi) (s : PupilTracker) (img : image) :
  frame s = Some img ->
  (r <> None -> roi_refle s <> None) ->
  let x := fst (offset_of (roi_pupil s)) in
  let y := snd (offset_of (roi_pupil s)) in
  Forall (fun cnt =>
            ~ (fst (rect_size (minAreaRect (translate x y cnt))) == 0)%Q)
         (contours_in s img (roi_pupil s) 200 2) ->
  find_refle r s
  = if image_empty (searched img (roi_pupil s))
    then Raise Cv2Error (with_offset (roi_pupil s) s)
    else Ok (map (translate x y)
                 (filter (refle_passes x y (containment_roi r (roi_refle s)))
                         (contours_in s img (roi_pupil s) 200 2)))
            (with_offset (roi_pupil s) s).
Proof.
  intros Eframe Hstored x y Hw. rewrite find_refle_run, Eframe.
  destruct (image_empty _); [reflexivity|].
  rewrite (collect_filter _ (refle_passes x y (containment_roi r (roi_refle s)))
             (translate x y)).
  - reflexivity.
  - eapply Forall_impl; [|exact Hw].
    intros cnt Hcnt. now apply refle_body_passes.
Qed.


(** ** Reading a video *)

Lemma next_frame_read (s : PupilTracker) (c : capture) (raw : image) :
  cap s = Some c ->
  nth_error (cap_frames c) (cap_pos c) = Some raw ->
  next_frame s =
  Ok tt (set_frame (Some (resize raw 0.5 0.5))
           (set_orig_image (Some (resize raw 0.5 0.5))
              (set_cap (Some (mk_capture (cap_frames c) (S (cap_pos c)))) s))).
Proof.
  intros Ecap Eraw. unfold next_frame, recursion_limit.
  change 1000%nat with (S 999). now apply next_frame_at_read.
Qed.

(** A successful [next_frame] is a read. *)
Lemma next_frame_at_ok_inv (d : nat) (s s' : PupilTracker) :
  next_frame_at d s = Ok tt s' ->
  exists c raw,
    cap s = Some c /\
    nth_error (cap_frames c) (cap_pos c) = Some raw /\
    s' = set_frame (Some (resize raw 0.5 0.5))
           (set_orig_image (Some (resize raw 0.5 0.5))
              (set_cap (Some (mk_capture (cap_frames c) (S (cap_pos c)))) s)).
Proof.
  destruct d as [|d]; [discriminate|].
  cbn [next_frame_at]. unfold bind at 1, read at 1.
  destruct (cap s) as [c|] eqn:Ecap; [|discriminate].
  unfold cap_read.
  destruct (nth_error (cap_frames c) (cap_pos c)) as [raw|] eqn:Eraw.
  - unfold bind, assign. intros [= <-]. exists c, raw. auto.
  - unfold bind at 1 2 3 4 5, assign.
    destruct (load_first_frame_with _ _); discriminate.
Qed.

Lemma next_frame_at_no_frames (d : nat) :
  forall s c,
    cap s = Some c -> cap_frames c = [] ->
    exists s',
      next_frame_at d s = Raise RuntimeError s' /\
      frame s' = frame s /\ orig_image s' = orig_image s /\
      exists c', cap s' = Some c' /\ cap_frames c' = [].
Proof.
  induction d as [|d IH]; intros s c Ecap Eframes.
  - exists s. repeat split; eauto.
  - cbn [next_frame_at]. unfold bind at 1, read at 1. rewrite Ecap.
    unfold cap_read. rewrite Eframes.
    replace (nth_error [] (cap_pos c)) with (@None image)
      by now destruct (cap_pos c).
    unfold bind at 1 2 3 4 5, assign, load_first_frame_with, bind at 1.
    match goal with
    | |- context [next_frame_at d ?s2] =>
        destruct (IH s2 (cap_set_pos c 0) eq_refl Eframes)
          as (s3 & -> & Hf & Ho & Hc)
    end.
    exists s3. repeat split; assumption.
Qed.

Lemma next_frame_at_no_frames_run (d : nat) :
  forall s c,
    cap s = Some c -> cap_frames c = [] ->
    next_frame_at (S d) s = Raise RuntimeError (rewound c s).
Proof.
  induction d as [|d IH]; intros s c Ecap Eframes.
  - cbn [next_frame_at]. unfold bind at 1, read at 1. rewrite Ecap.
    unfold cap_read. rewrite Eframes.
    replace (nth_error [] (cap_pos c)) with (@None image)
      by now destruct (cap_pos c).
    reflexivity.
  - remember (S d) as d1 eqn:Ed1.
    cbn [next_frame_at]. unfold bind at 1, read at 1. rewrite Ecap.
    unfold cap_read. rewrite Eframes.
    replace (nth_error [] (cap_pos c)) with (@None image)
      by now destruct (cap_pos c).
    unfold bind at 1 2 3 4 5, assign, load_first_frame_with, bind at 1.
    subst d1.
    match goal with
    | |- context [next_frame_at (S d) ?s2] =>
        rewrite (IH s2 (cap_set_pos c 0) eq_refl Eframes)
    end.
    reflexivity.
Qed.

(** X5. A video that yields no frame (an unreadable file): [load_video] does
    not end in IOError or EOFError but runs [next_frame] and
    [load_first_frame] into each other until the recursion limit
    (RuntimeError), leaving the frame and its original copy as they were;
    the [next_frame] after it does the same. *)
Theorem load_video_without_frames (video_file : string) (s : PupilTracker) :
  VideoCapture video_file = [] ->
  exists s',
    load_video video_file s = Raise RuntimeError s' /\
    frame s' = frame s /\ orig_image s' = orig_image s /\
    exists s'', next_frame s' = Raise RuntimeError s''.
Proof.
  intros Evideo.
  unfold load_video, load_first_frame, load_first_frame_with, next_frame.
  unfold bind at 1 2 3 4, assign at 1 2 3.
  match goal with
  | |- context [next_frame_at recursion_limit ?s1] =>
      destruct (next_frame_at_no_frames recursion_limit s1
                  (mk_capture (VideoCapture video_file) 0) eq_refl Evideo)
        as (s' & -> & Hf & Ho & c' & Hc & Hc')
  end.
  exists s'. repeat split; try assumption.
  destruct (next_frame_at_no_frames recursion_limit s' c' Hc Hc')
    as (s'' & E & _).
  exists s''. exact E.
Qed.

(** X6. Frames come in order, one per call: [k + 1] calls of [next_frame] leave
    the frame [k] places after the capture's position, downsampled, as
    working frame and original copy, with the capture just behind it and
    the ROI slots as they were. *)
Theorem frames_in_order (k : nat) :
  forall (s : PupilTracker) (c : capture) (raw : image),
    cap s = Some c ->
    nth_error (cap_frames c) (cap_pos c + k) = Some raw ->
    exists s',
      advance (S k) s = Ok tt s' /\
      frame s' = Some (resize raw 0.5 0.5) /\
      orig_image s' = Some (resize raw 0.5 0.5) /\
      cap s' = Some (mk_capture (cap_frames c) (cap_pos c + S k)) /\
      roi_pupil s' = roi_pupil s /\ roi_refle s' = roi_refle s.
Proof.
  induction k as [|k IH]; intros s c raw Ecap Eraw.
  - rewrite Nat.add_0_r in Eraw. cbn [advance]. unfold bind.
    rewrite (next_frame_read s c raw Ecap Eraw).
    eexists. split; [reflexivity|]. rewrite Nat.add_1_r.
    repeat split; reflexivity.
  - assert (Hhere : exists here,
               nth_error (cap_frames c) (cap_pos c) = Some here).
    { destruct (nth_error (cap_frames c) (cap_pos c)) eqn:E; [eauto|].
      apply nth_error_None in E.
      assert (nth_error (cap_frames c) (cap_pos c + S k) <> None)
        by congruence.
      apply nth_error_Some in H. lia. }
    destruct Hhere as (here & Ehere).
    change (advance (S (S k)) s) with (bind next_frame (fun _ => advance (S k)) s).
    unfold bind. rewrite (next_frame_read s c here Ecap Ehere).
    match goal with
    | |- context [advance (S k) ?s1] =>
        destruct (IH s1 (mk_capture (cap_frames c) (S (cap_pos c))) raw
                     eq_refl)
          as (s' & E & Hf & Ho & Hc & Hp & Hr)
    end.
    { cbn [cap_frames cap_pos]. rewrite <- Eraw. f_equal. lia. }
    exists s'. split; [exact E|].
    cbn [cap_frames cap_pos] in Hc.
    replace (cap_pos c + S (S k))%nat with (S (cap_pos c) + S k)%nat by lia.
    repeat split; assumption.
Qed.

(** What [next_frame] leaves when it raises EOFError. *)
Lemma next_frame_at_eof (d : nat) :
  forall s s',
    next_frame_at d s = Raise EOFError s' ->
    exists first rest,
      cap s' = Some (mk_capture (first :: rest) 0) /\
      frame s' = Some (resize first 0.5 0.5) /\
      orig_image s' = Some (resize first 0.5 0.5) /\
      roi_pupil s' = None /\ roi_refle s' = None.
Proof.
  induction d as [|d IH]; intros s s'; [discriminate|].
  cbn [next_frame_at]. unfold bind at 1, read at 1.
  destruct (cap s) as [c|] eqn:Ecap; [|discriminate].
  unfold cap_read.
  destruct (nth_error (cap_frames c) (cap_pos c)) as [raw|] eqn:Eraw;
    [discriminate|].
  unfold bind at 1 2 3 4 5, assign, load_first_frame_with, bind at 1.
  match goal with
  | |- context [next_frame_at d ?s2] =>
      destruct (next_frame_at d s2) as [[] s3|e s3] eqn:Enested
  end.
  - apply next_frame_at_ok_inv in Enested as (c2 & first & [= <-] & Efirst & ->).
    cbn in Efirst. unfold bind, read, assign. cbn.
    intros [= <-]. cbn.
    destruct (cap_frames c) as [|first' rest] eqn:Eframes; [discriminate|].
    injection Efirst as ->. exists first, rest. repeat split; reflexivity.
  - intros [= -> <-]. apply (IH _ _ Enested).
Qed.

(** X7. The video loops: when [next_frame] raises EOFError, the capture is
    rewound and the ROI slots are cleared, the first frame is already
    loaded, and the next [next_frame] succeeds and loads that first frame
    again. *)
Theorem next_frame_after_eof (s s' : PupilTracker) :
  next_frame s = Raise EOFError s' ->
  roi_pupil s' = None /\ roi_refle s' = None
  /\ frame s' = orig_image s'
  /\ exists s'' c,
       next_frame s' = Ok tt s'' /\
       frame s'' = frame s' /\ orig_image s'' = frame s' /\
       cap s'' = Some c /\ cap_pos c = 1%nat /\
       roi_pupil s'' = None /\ roi_refle s'' = None.
Proof.
  intros H. apply next_frame_at_eof in H
    as (first & rest & Ecap & Ef & Eo & Ep & Er).
  repeat split; try assumption; [congruence|].
  eexists. eexists. split; [apply (next_frame_read s' _ first Ecap); reflexivity|].
  cbn. repeat split; try assumption; congruence.
Qed.


(** ** The original copy and the presence of a frame *)

Lemma track_pupil_run (s : PupilTracker) :
  track_pupil s =
  match roi_pupil s with
  | Some box => try_pass (draw_pupil None (Some box) true) s
  | None => Ok tt s
  end.
Proof.
  unfold track_pupil, bind, read. destruct (roi_pupil s); reflexivity.
Qed.

Lemma track_refle_run (s : PupilTracker) :
  track_refle s =
  match roi_refle s with
  | Some box => try_pass (draw_refle None (Some box) true) s
  | None => Ok tt s
  end.
Proof.
  unfold track_refle, bind, read. destruct (roi_refle s); reflexivity.
Qed.

Lemma try_pass_fields (m : M unit) (s : PupilTracker) :
  fields_of (try_pass m s) = fields_of (m s).
Proof. unfold try_pass. destruct (m s) as [[] s'|[] s']; reflexivity. Qed.

(** The fields the two draws leave, whatever the outcome. *)
Lemma draw_pupil_fields (index : option Z) (r : option roi) (verbose : bool)
      (s : PupilTracker) :
  fields_of (draw_pupil index r verbose s) = with_offset r s
  \/ exists cnt img img',
      frame s = Some img /\
      selected (find_pupils r) index s = Some cnt /\
      fields_of (draw_pupil index r verbose s)
      = set_roi_pupil (Some (square_around (int_center (fitEllipse cnt)) 100))
                      (set_frame (Some img') (with_offset r s)).
Proof.
  pose proof (draw_pupil_effect index r verbose s) as H.
  destruct (selected (find_pupils r) index s) as [cnt|] eqn:Esel.
  - right. destruct H as (img' & ->).
    unfold selected in Esel.
    destruct (find_pupils r s) as [l s'|] eqn:Efind; [|discriminate].
    apply find_pupils_inv in Efind as (img & Eframe & _).
    exists cnt, img, img'. auto.
  - left. destruct H as (e & ->). reflexivity.
Qed.

Lemma draw_refle_fields (index : option Z) (r : option roi) (verbose : bool)
      (s : PupilTracker) :
  fields_of (draw_refle index r verbose s) = with_offset (roi_pupil s) s
  \/ exists cnt img img',
      frame s = Some img /\
      selected (find_refle r) index s = Some cnt /\
      fields_of (draw_refle index r verbose s)
      = set_frame (Some img')
          (set_roi_refle (Some (square_around (int_center (minAreaRect cnt)) 15))
                         (with_offset (roi_pupil s) s)).
Proof.
  pose proof (draw_refle_effect index r verbose s) as H.
  destruct (selected (find_refle r) index s) as [cnt|] eqn:Esel.
  - right. destruct H as (img' & ->).
    unfold selected in Esel.
    destruct (find_refle r s) as [l s'|] eqn:Efind; [|discriminate].
    apply find_refle_inv in Efind as (img & Eframe & _).
    exists cnt, img, img'. auto.
  - left. destruct H as (e & ->). reflexivity.
Qed.

Lemma perform_keeps_original (c : call) (s : PupilTracker) :
  ingests c = false -> orig_image (perform c s) = orig_image s.
Proof.
  destruct c; try discriminate; intros _; simpl.
  - reflexivity.
  - unfold get_orig_frame, bind, read.
    destruct (orig_image s) eqn:E; simpl; congruence.
  - rewrite process_image_fields. reflexivity.
  - now rewrite find_pupils_fields.
  - destruct (draw_pupil_fields index r verbose s)
      as [->|(cnt & img & img' & _ & _ & ->)]; reflexivity.
  - rewrite track_pupil_run. destruct (roi_pupil s) as [box|]; [|reflexivity].
    rewrite try_pass_fields.
    destruct (draw_pupil_fields None (Some box) true s)
      as [->|(cnt & img & img' & _ & _ & ->)]; reflexivity.
  - now rewrite find_refle_fields.
  - destruct (draw_refle_fields index r verbose s)
      as [->|(cnt & img & img' & _ & _ & ->)]; reflexivity.
  - rewrite track_refle_run. destruct (roi_refle s) as [box|]; [|reflexivity].
    rewrite try_pass_fields.
    destruct (draw_refle_fields None (Some box) true s)
      as [->|(cnt & img & img' & _ & _ & ->)]; reflexivity.
Qed.

(** X8. Annotations never reach the original copy: after any sequence of
    searches, draws, tracking updates and resets, [get_orig_frame] gives
    back the frame as it was read, and leaves it as working frame with both
    ROI slots cleared. *)
Theorem reset_undoes_drawing (calls : list call) (s : PupilTracker)
        (img : image) :
  Forall (fun c => ingests c = false) calls ->
  orig_image s = Some img ->
  exists s',
    get_orig_frame (perform_all calls s) = Ok img s' /\
    frame s' = Some img /\ orig_image s' = Some img /\
    roi_pupil s' = None /\ roi_refle s' = None.
Proof.
  intros Hcalls Eorig.
  assert (E : orig_image (perform_all calls s) = Some img).
  { revert s Eorig. induction Hcalls as [|c calls Hc _ IH]; intros s Eorig.
    - exact Eorig.
    - simpl. apply IH. now rewrite perform_keeps_original. }
  unfold get_orig_frame, bind, read, assign, ret. rewrite E.
  eexists. split; [reflexivity|]. simpl. auto.
Qed.

Lemma with_offset_present (r : option roi) (s : PupilTracker) :
  frame_present s -> frame_present (with_offset r s).
Proof. intros H. exact H. Qed.

Lemma next_frame_at_present (d : nat) :
  forall s, frame_present s -> frame_present (fields_of (next_frame_at d s)).
Proof.
  induction d as [|d IH]; intros s Hs; [exact Hs|].
  cbn [next_frame_at]. unfold bind at 1, read at 1.
  destruct (cap s) as [c|]; [|exact Hs].
  destruct (cap_read c) as [[raw|] c'].
  - unfold frame_present. simpl. repeat split; congruence.
  - unfold bind at 1 2 3 4 5, assign, load_first_frame_with, bind at 1.
    match goal with
    | |- context [next_frame_at d ?s2] =>
        assert (H2 : frame_present s2)
          by (destruct Hs as (Hiff & _); split; [exact Hiff|split; simpl; congruence]);
        pose proof (IH s2 H2) as H3;
        destruct (next_frame_at d s2) as [[] s3|e s3]
    end; [|exact H3].
    unfold bind, read, assign. simpl in H3.
    destruct (cap s3); exact H3.
Qed.

Lemma load_first_frame_present (s : PupilTracker) :
  frame_present s -> frame_present (fields_of (load_first_frame s)).
Proof.
  intros Hs. unfold load_first_frame, load_first_frame_with, bind at 1.
  pose proof (next_frame_at_present recursion_limit s Hs) as H.
  fold next_frame in H.
  destruct (next_frame s) as [[] s1|e s1]; [|exact H].
  unfold bind, read, assign. simpl in H. destruct (cap s1); exact H.
Qed.

Lemma perform_present (c : call) (s : PupilTracker) :
  frame_present s -> frame_present (perform c s).
Proof.
  intros Hs. destruct c; simpl.
  - unfold load_video, bind at 1 2 3, assign.
    now apply load_first_frame_present.
  - now apply load_first_frame_present.
  - now apply next_frame_at_present.
  - exact Hs.
  - unfold get_orig_frame, bind, read.
    destruct (orig_image s) eqn:E; [|exact Hs].
    unfold frame_present. simpl. rewrite E. repeat split; congruence.
  - rewrite process_image_fields. exact Hs.
  - rewrite find_pupils_fields. exact Hs.
  - destruct (draw_pupil_fields index r verbose s)
      as [->|(cnt & img & img' & Eframe & _ & ->)]; [exact Hs|].
    destruct Hs as (Hiff & Hp & Hr).
    unfold frame_present. simpl. rewrite Eframe in Hiff.
    repeat split; try congruence.
    intros E. apply Hiff in E. discriminate.
  - rewrite track_pupil_run. destruct (roi_pupil s) as [box|] eqn:Ebox; [|exact Hs].
    rewrite try_pass_fields.
    destruct (draw_pupil_fields None (Some box) true s)
      as [->|(cnt & img & img' & Eframe & _ & ->)]; [exact Hs|].
    destruct Hs as (Hiff & Hp & Hr).
    unfold frame_present. simpl. rewrite Eframe in Hiff.
    repeat split; try congruence.
    intros E. apply Hiff in E. discriminate.
  - rewrite find_refle_fields. exact Hs.
  - destruct (draw_refle_fields index r verbose s)
      as [->|(cnt & img & img' & Eframe & _ & ->)]; [exact Hs|].
    destruct Hs as (Hiff & Hp & Hr).
    unfold frame_present. simpl. rewrite Eframe in Hiff.
    repeat split; try congruence.
    intros E. apply Hiff in E. discriminate.
  - rewrite track_refle_run. destruct (roi_refle s) as [box|] eqn:Ebox; [|exact Hs].
    rewrite try_pass_fields.
    destruct (draw_refle_fields None (Some box) true s)
      as [->|(cnt & img & img' & Eframe & _ & ->)]; [exact Hs|].
    destruct Hs as (Hiff & Hp & Hr).
    unfold frame_present. simpl. rewrite Eframe in Hiff.
    repeat split; try congruence.
    intros E. apply Hiff in E. discriminate.
Qed.

(** With a frame loaded and a pixel to search, the pupil search returns. *)
Lemma find_pupils_returns (r : option roi) (s : PupilTracker) (img : image) :
  frame s = Some img -> ~ (np_pi == 0)%Q ->
  image_empty (searched img r) = false ->
  exists l, find_pupils r s = Ok l (with_offset r s).
Proof.
  intros Eframe Hpi Hempty. rewrite find_pupils_run, Eframe, Hempty.
  erewrite collect_filter; [eexists; reflexivity|].
  apply Forall_forall. intros cnt _. now apply pupil_body_passes.
Qed.

(** The tracking update with a frame loaded: it returns, or the sub-image
    has no pixel and cv2.error leaves it. *)
Lemma track_pupil_outcome (s : PupilTracker) (img : image) (box : roi) :
  frame s = Some img -> roi_pupil s = Some box -> ~ (np_pi == 0)%Q ->
  if image_empty (searched img (Some box))
  then track_pupil s = Raise Cv2Error (with_offset (Some box) s)
  else exists s', track_pupil s = Ok tt s'.
Proof.
  intros Eframe Ebox Hpi. rewrite track_pupil_run, Ebox. unfold try_pass.
  pose proof (draw_pupil_run None (Some box) true s) as Hrun.
  destruct (image_empty (searched img (Some box))) eqn:Hempty.
  - rewrite find_pupils_run, Eframe, Hempty in Hrun. now rewrite Hrun.
  - destruct (find_pupils_returns (Some box) s img Eframe Hpi Hempty)
      as (l & Efind).
    rewrite Efind in Hrun.
    destruct l as [|c l]; [rewrite Hrun; eauto|].
    destruct (Py.getitem (c :: l) (index_of None)).
    + destruct Hrun as (img' & ->). eauto.
    + rewrite Hrun. eauto.
Qed.

(** X9. Along every sequence of calls on a fresh tracker there is a working
    frame exactly when there is an original copy, and a ROI slot is set
    only with a frame loaded; so the pupil tracking update finds the frame
    it needs and passes over a pupil not found: it returns, unless the
    pupil ROI cuts a sub-image without a pixel from the frame, when
    cv2.error leaves it. *)
Theorem frame_present_always (calls : list call) :
  frame_present (perform_all calls init)
  /\ (~ (np_pi == 0)%Q ->
      (exists s', track_pupil (perform_all calls init) = Ok tt s')
      \/ (exists img box,
             frame (perform_all calls init) = Some img /\
             roi_pupil (perform_all calls init) = Some box /\
             image_empty (searched img (Some box)) = true /\
             track_pupil (perform_all calls init)
             = Raise Cv2Error
                     (with_offset (Some box) (perform_all calls init)))).
Proof.
  assert (H : frame_present (perform_all calls init)).
  { assert (Hinit : frame_present init)
      by (unfold frame_present; simpl; tauto).
    revert Hinit. generalize init.
    induction calls as [|c calls IH]; intros s Hs; [exact Hs|].
    simpl. apply IH. now apply perform_present. }
  split; [exact H|].
  set (s := perform_all calls init) in *.
  intros Hpi. destruct H as (_ & Hp & _).
  destruct (roi_pupil s) as [box|] eqn:Ebox;
    [|left; rewrite track_pupil_run, Ebox; eauto].
  destruct (frame s) as [img|] eqn:Eframe; [|exfalso; apply Hp; congruence].
  pose proof (track_pupil_outcome s img box Eframe Ebox Hpi) as Hout.
  destruct (image_empty (searched img (Some box))) eqn:Hempty.
  - right. exists img, box. auto.
  - left. exact Hout.
Qed.


(** ** Candidates, crops and offsets *)

Lemma getitem_In {A} (l : list A) (i : Z) (a : A) :
  Py.getitem l i = Some a -> In a l.
Proof.
  unfold Py.getitem. destruct (_ || _); [discriminate|].
  apply nth_error_In.
Qed.

Lemma translate_length (x y : Z) (cnt : contour) :
  length (translate x y cnt) = length cnt.
Proof. apply length_map. Qed.

(** X4. Every hull [find_pupils] returns, and so every candidate [draw_pupil]
    can select and hand to the ellipse fit, has at least five points. *)
Theorem pupil_candidates_fit_an_ellipse (r : option roi) (s : PupilTracker) :
  (forall l s', find_pupils r s = Ok l s' ->
                Forall (fun c => (5 <= length c)%nat) l)
  /\ (forall index cnt,
         selected (find_pupils r) index s = Some cnt -> (5 <= length cnt)%nat).
Proof.
  assert (H : forall l s', find_pupils r s = Ok l s' ->
                           Forall (fun c => (5 <= length c)%nat) l).
  { intros l s'. rewrite find_pupils_run.
    destruct (frame s) as [img|]; [|discriminate].
    destruct (image_empty _); [discriminate|].
    destruct (collect _ _ _) as [e|found] eqn:Ecollect; [discriminate|].
    simpl. intros [= <- _].
    apply collect_inv in Ecollect as (added & -> & Hall). simpl.
    eapply Forall_impl; [|exact Hall].
    intros c (cnt & _ & Hbody).
    apply pupil_body_some in Hbody as (x & y & _ & _ & -> & _ & _ & Hhull & _).
    now rewrite translate_length. }
  split; [exact H|].
  intros index cnt. unfold selected.
  destruct (find_pupils r s) as [l s'|] eqn:Efind; [|discriminate].
  destruct l as [|c l]; [discriminate|].
  intros Hget. apply getitem_In in Hget.
  specialize (H _ _ eq_refl). rewrite Forall_forall in H. now apply H.
Qed.

Lemma wrap_int32_small (z : Z) :
  - 2 ^ 31 <= z < 2 ^ 31 -> Py.wrap_int32 z = z.
Proof.
  intros Hz. unfold Py.wrap_int32.
  rewrite Z.mod_small; lia.
Qed.

(** X11. Shifting by a crop offset is plain addition, and shifting back undoes
    it, as long as every coordinate stays an int32 on the way. *)
Theorem translate_round_trip (x y : Z) (cnt : contour) :
  Forall (fun p => - 2 ^ 31 <= fst p < 2 ^ 31 /\ - 2 ^ 31 <= snd p < 2 ^ 31
                   /\ - 2 ^ 31 <= fst p + x < 2 ^ 31
                   /\ - 2 ^ 31 <= snd p + y < 2 ^ 31) cnt ->
  translate x y cnt = map (fun p => (fst p + x, snd p + y)) cnt
  /\ translate (- x) (- y) (translate x y cnt) = cnt.
Proof.
  induction 1 as [|[px py] cnt (Hx & Hy & Hx' & Hy') _ [IH1 IH2]].
  - split; reflexivity.
  - simpl in *. split.
    + rewrite !wrap_int32_small by lia. f_equal. exact IH1.
    + rewrite (wrap_int32_small (px + x)), (wrap_int32_small (py + y)) by lia.
      rewrite !wrap_int32_small by lia.
      f_equal; [f_equal; lia|exact IH2].
Qed.

Lemma slice_from_nonneg {A} (l : list A) (a b : Z) (i : nat) (x : A) :
  0 <= a ->
  nth_error (Py.slice l a b) i = Some x ->
  nth_error l (Z.to_nat a + i) = Some x.
Proof.
  intros Ha. unfold Py.slice.
  set (n := Z.of_nat (length l)).
  assert (Elo : Py.slice_bound n a = Z.min a n).
  { unfold Py.slice_bound. destruct (Z.ltb_spec a 0); [lia|reflexivity]. }
  rewrite Elo. intros Hslice.
  assert (H' : nth_error (skipn (Z.to_nat (Z.min a n)) l) i = Some x).
  { rewrite nth_error_firstn in Hslice.
    destruct (Nat.ltb i (Z.to_nat (Py.slice_bound n b - Z.min a n)));
      [exact Hslice|discriminate]. }
  rewrite nth_error_skipn in H'.
  destruct (Z.le_gt_cases a n) as [Hle|Hgt].
  - now rewrite Z.min_l in H' by lia.
  - rewrite Z.min_r in H' by lia.
    assert (Hsome : nth_error l (Z.to_nat n + i) <> None) by congruence.
    apply nth_error_Some in Hsome. subst n. lia.
Qed.

(** X12. The recorded offset is where the crop sits: for a ROI whose corner is
    in the frame's quadrant, pixel (j, i) of the searched sub-image is
    pixel (dx + j, dy + i) of the frame. *)
Theorem crop_offset_exact (img : image) (r : roi) (i j : nat)
        (row : list pixel) (p : pixel) :
  0 <= fst (offset_of (Some r)) -> 0 <= snd (offset_of (Some r)) ->
  nth_error (searched img (Some r)) i = Some row ->
  nth_error row j = Some p ->
  exists frame_row,
    nth_error img (Z.to_nat (snd (offset_of (Some r))) + i) = Some frame_row /\
    nth_error frame_row (Z.to_nat (fst (offset_of (Some r))) + j) = Some p.
Proof.
  destruct r as [[x0 y0] [x1 y1]]. simpl. intros Hx Hy Hrow Hp.
  rewrite nth_error_map in Hrow.
  destruct (nth_error (Py.slice img y0 y1) i) as [frame_row|] eqn:E;
    [|discriminate].
  injection Hrow as <-. exists frame_row. split.
  - now apply slice_from_nonneg with (b := y1).
  - now apply slice_from_nonneg with (b := x1).
Qed.

Lemma slice_In {A} (l : list A) (a b : Z) (x : A) :
  In x (Py.slice l a b) -> In x l.
Proof.
  unfold Py.slice.
  generalize (Z.to_nat (Py.slice_bound (Z.of_nat (length l)) b
                        - Py.slice_bound (Z.of_nat (length l)) a)).
  generalize (Z.to_nat (Py.slice_bound (Z.of_nat (length l)) a)).
  intros lo k Hin.
  rewrite <- (firstn_skipn lo l). apply in_or_app. right.
  rewrite <- (firstn_skipn k (skipn lo l)). apply in_or_app. now left.
Qed.

Lemma slice_over_the_edge {A} (l : list A) (a : Z) :
  - 200 <= a < 0 -> 200 <= Z.of_nat (length l) ->
  Py.slice l a (a + 200) = [].
Proof.
  intros Ha Hn. unfold Py.slice, Py.slice_bound.
  destruct (Z.ltb_spec a 0); [|lia].
  destruct (Z.ltb_spec (a + 200) 0); [lia|].
  replace (Z.to_nat _) with 0%nat by lia. reflexivity.
Qed.

(** The square of half-width 100 around a centre less than 100 pixels
    from the left or the top edge, on a frame at least 200 pixels wide,
    or high: the sub-image it cuts has no pixel. *)
Lemma searched_over_the_edge (img : image) (c : point) :
  (- 100 <= fst c < 100 /\
   Forall (fun row => 200 <= Z.of_nat (length row)) img)
  \/ (- 100 <= snd c < 100 /\ 200 <= Z.of_nat (length img)) ->
  image_empty (searched img (Some (square_around c 100))) = true.
Proof.
  destruct c as [cx cy]. unfold square_around, searched, crop. cbn [fst snd].
  intros [[Hc Hrows]|[Hc Himg]].
  - unfold image_empty. apply forallb_forall. intros row Hin.
    apply in_map_iff in Hin as (frame_row & <- & Hin).
    apply slice_In in Hin. rewrite Forall_forall in Hrows.
    specialize (Hrows _ Hin). cbv beta in Hrows.
    replace (cx + 100) with (cx - 100 + 200) by lia.
    rewrite slice_over_the_edge by lia. reflexivity.
  - replace (cy + 100) with (cy - 100 + 200) by lia.
    rewrite slice_over_the_edge by lia. reflexivity.
Qed.

(** X13. A pupil drawn less than 100 pixels from the left or the top edge
    gets a ROI with a negative corner, which NumPy's slicing counts from
    the far edge: on a frame at least 200 pixels wide (or high) the
    sub-image that ROI cuts has no pixel, and the next tracking update
    does not pass over it: cv2.error leaves [track_pupil], with only the
    crop offset changed. *)
Theorem track_pupil_over_the_edge (s : PupilTracker) (img : image)
        (c : point) :
  frame s = Some img ->
  roi_pupil s = Some (square_around c 100) ->
  (- 100 <= fst c < 100 /\
   Forall (fun row => 200 <= Z.of_nat (length row)) img)
  \/ (- 100 <= snd c < 100 /\ 200 <= Z.of_nat (length img)) ->
  image_empty (searched img (roi_pupil s)) = true
  /\ track_pupil s = Raise Cv2Error (with_offset (roi_pupil s) s).
Proof.
  intros Eframe Eroi Hedge. rewrite Eroi.
  pose proof (searched_over_the_edge img c Hedge) as Hempty.
  split; [exact Hempty|].
  rewrite track_pupil_run, Eroi. unfold try_pass.
  pose proof (draw_pupil_run None (Some (square_around c 100)) true s) as Hrun.
  rewrite find_pupils_run, Eframe, Hempty in Hrun. now rewrite Hrun.
Qed.

(** X3. A ROI argument with no reflection ROI stored: [find_refle] returns no
    candidate.  When it returns, the list is empty: a contour that passes
    the area and squareness filters reaches the containment test, which
    subscripts the missing ROI and raises instead of appending. *)
Theorem find_refle_without_stored_roi (r : roi) (s s' : PupilTracker)
        (l : list contour) :
  roi_refle s = None ->
  find_refle (Some r) s = Ok l s' -> l = [].
Proof.
  intros Enone H. apply find_refle_inv in H as (img & _ & _ & Hall).
  destruct l as [|c l]; [reflexivity|].
  inversion Hall as [|? ? (cnt & _ & Hbody) _]; subst.
  apply refle_body_some in Hbody as (x & y & _ & _ & _ & _ & _ & _ & _ & Hroi).
  destruct Hroi as (box & Ebox & _); [discriminate|congruence].
Qed.

(** X10. The two tracked shapes do not disturb each other, and within a tick
    the reflection follows the pupil: drawing or tracking the pupil leaves
    the reflection ROI alone and the other way round, and when
    [track_refle] runs after [track_pupil] with a reflection ROI set, its
    search is cropped at the pupil ROI as [track_pupil] left it. *)
Theorem tracking_order (s : PupilTracker) :
  (forall index r verbose,
      roi_refle (fields_of (draw_pupil index r verbose s)) = roi_refle s /\
      roi_pupil (fields_of (draw_refle index r verbose s)) = roi_pupil s)
  /\ roi_refle (fields_of (track_pupil s)) = roi_refle s
  /\ roi_pupil (fields_of (track_refle s)) = roi_pupil s
  /\ (roi_refle s <> None ->
      let s1 := fields_of (track_pupil s) in
      let s2 := fields_of (track_refle s1) in
      dx s2 = Some (fst (offset_of (roi_pupil s1))) /\
      dy s2 = Some (snd (offset_of (roi_pupil s1))) /\
      roi_pupil s2 = roi_pupil s1).
Proof.
  assert (Hp : forall s index r verbose,
             roi_refle (fields_of (draw_pupil index r verbose s)) = roi_refle s).
  { intros s0 index r verbose.
    destruct (draw_pupil_fields index r verbose s0)
      as [->|(cnt & img & img' & _ & _ & ->)]; reflexivity. }
  assert (Hr : forall s index r verbose,
             roi_pupil (fields_of (draw_refle index r verbose s)) = roi_pupil s
             /\ dx (fields_of (draw_refle index r verbose s))
                = Some (fst (offset_of (roi_pupil s)))
             /\ dy (fields_of (draw_refle index r verbose s))
                = Some (snd (offset_of (roi_pupil s)))).
  { intros s0 index r verbose.
    destruct (draw_refle_fields index r verbose s0)
      as [->|(cnt & img & img' & _ & _ & ->)]; repeat split; reflexivity. }
  assert (Htp : forall s, roi_refle (fields_of (track_pupil s)) = roi_refle s).
  { intros s0. rewrite track_pupil_run.
    destruct (roi_pupil s0); [|reflexivity].
    rewrite try_pass_fields. apply Hp. }
  split; [intros index r verbose; split; [apply Hp|apply Hr]|].
  split; [apply Htp|].
  split.
  - rewrite track_refle_run. destruct (roi_refle s); [|reflexivity].
    rewrite try_pass_fields. apply Hr.
  - intros Hset s1 s2. subst s2. rewrite track_refle_run.
    destruct (roi_refle s1) as [box|] eqn:Ebox.
    + rewrite try_pass_fields.
      destruct (Hr s1 None (Some box) true) as (H1 & H2 & H3). auto.
    + subst s1. rewrite Htp in Ebox. contradiction.
Qed.

End Properties.


(** * Properties of the window *)

Section WindowProperties.

Context {cv : Cv2} {wx : Wx}.

(** ** The controls under the calls *)

Lemma steady_refl (w : MyFrame) : steady w w.
Proof. unfold steady. auto. Qed.

Lemma steady_trans (w1 w2 w3 : MyFrame) :
  steady w1 w2 -> steady w2 w3 -> steady w1 w3.
Proof.
  unfold steady. intros (H1 & H2 & H3) (H4 & H5 & H6).
  repeat split; try congruence. auto.
Qed.

Lemma same_controls_refl (w : MyFrame) : same_controls w w.
Proof. unfold same_controls. auto. Qed.

Lemma same_controls_trans (w1 w2 w3 : MyFrame) :
  same_controls w1 w2 -> same_controls w2 w3 -> same_controls w1 w3.
Proof.
  unfold same_controls. intros (? & ? & ? & ? & ?) (? & ? & ? & ? & ?).
  repeat split; congruence.
Qed.

Lemma same_controls_bind {A B} (m : G A) (k : A -> G B) (w : MyFrame) :
  same_controls w (window_of (m w)) ->
  (forall a w', same_controls w' (window_of (k a w'))) ->
  same_controls w (window_of (gbind m k w)).
Proof.
  intros Hm Hk. unfold gbind. destruct (m w) as [a w'|e w']; [|exact Hm].
  eapply same_controls_trans; [exact Hm|apply Hk].
Qed.

Lemma same_controls_steady (w w' : MyFrame) :
  same_controls w w' -> steady w w'.
Proof.
  unfold same_controls, steady. intros (? & ? & ? & ? & ?).
  repeat split; congruence.
Qed.

Lemma steady_ok (w w' : MyFrame) :
  controls_ok w -> steady w w' -> controls_ok w'.
Proof.
  unfold controls_ok, steady. intros (Ht & Hp & Hr) (Hs & -> & ->). auto.
Qed.

Lemma steady_bind {A B} (m : G A) (k : A -> G B) (w : MyFrame) :
  steady w (window_of (m w)) ->
  (forall a w', steady w' (window_of (k a w'))) ->
  steady w (window_of (gbind m k w)).
Proof.
  intros Hm Hk. unfold gbind. destruct (m w) as [a w'|e w']; [|exact Hm].
  eapply steady_trans; [exact Hm|apply Hk].
Qed.

(** A call that runs out of stack changes nothing. *)
Lemma pycall_controls {A} (depth : nat) (body : nat -> G A) (w : MyFrame) :
  (forall d, same_controls w (window_of (body d w))) ->
  same_controls w (window_of (pycall depth body w)).
Proof.
  intros H. destruct depth; [apply same_controls_refl|apply H].
Qed.

Lemma pycall_steady {A} (depth : nat) (body : nat -> G A) (w : MyFrame) :
  (forall d, depth = S d -> steady w (window_of (body d w))) ->
  steady w (window_of (pycall depth body w)).
Proof.
  intros H. destruct depth; [apply steady_refl|now apply H].
Qed.

Lemma on_tracker_controls {A} (m : M A) (w : MyFrame) :
  same_controls w (window_of (on_tracker m w)).
Proof.
  unfold on_tracker, same_controls.
  destruct (m (tracker w)); simpl; auto 6.
Qed.

Lemma tracker_call_controls {A} (need : nat) (m : M A) (depth : nat)
      (w : MyFrame) :
  same_controls w (window_of (tracker_call need m depth w)).
Proof.
  unfold tracker_call. destruct (_ <? _)%nat;
    [apply same_controls_refl|apply on_tracker_controls].
Qed.

Lemma tracker_call_enough {A} (need : nat) (m : M A) (depth : nat)
      (w : MyFrame) :
  (need <= depth)%nat -> tracker_call need m depth w = on_tracker m w.
Proof.
  intros H. unfold tracker_call.
  destruct (Nat.ltb_spec depth need); [lia|reflexivity].
Qed.

Lemma tracker_call_short {A} (need : nat) (m : M A) (depth : nat)
      (w : MyFrame) :
  (depth < need)%nat ->
  tracker_call need m depth w = GRaise (Python RuntimeError) w.
Proof.
  intros H. unfold tracker_call.
  destruct (Nat.ltb_spec depth need); [reflexivity|lia].
Qed.

Lemma track_pupil_controls (depth : nat) (w : MyFrame) :
  same_controls w (window_of (PupilTracker_track_pupil_at depth w)).
Proof.
  unfold PupilTracker_track_pupil_at, gbind, gread.
  apply tracker_call_controls.
Qed.

Lemma track_refle_controls (depth : nat) (w : MyFrame) :
  same_controls w (window_of (PupilTracker_track_refle_at depth w)).
Proof.
  unfold PupilTracker_track_refle_at, gbind, gread.
  apply tracker_call_controls.
Qed.

Lemma load_image_controls (depth : nat) (img : option image) (w : MyFrame) :
  same_controls w (window_of (ImagePanel_load_image_at depth img w)).
Proof.
  unfold ImagePanel_load_image_at. apply pycall_controls. intros _.
  unfold same_controls.
  destruct img as [img|]; [|simpl; auto 6].
  destruct (BitmapFromBuffer 960 540 img); simpl; auto 6.
Qed.

Lemma frame_load_video_controls (depth : nat) (img : option image)
      (w : MyFrame) :
  same_controls w (window_of (MyFrame_load_video_at depth img w)).
Proof.
  unfold MyFrame_load_video_at. apply pycall_controls. intros d.
  apply load_image_controls.
Qed.

Lemma load_first_frame_with_controls (depth : nat) (next : G unit) :
  (forall w, same_controls w (window_of (next w))) ->
  forall w,
    same_controls w
      (window_of (PupilTracker_load_first_frame_with depth next w)).
Proof.
  intros Hnext w. unfold PupilTracker_load_first_frame_with.
  apply same_controls_bind; [apply Hnext|]. intros _ w1.
  apply same_controls_bind; [apply same_controls_refl|]. intros f w2.
  apply same_controls_bind; [apply frame_load_video_controls|]. intros _ w3.
  apply same_controls_bind; [apply same_controls_refl|]. intros c w4.
  destruct c; [apply on_tracker_controls|apply same_controls_refl].
Qed.

Lemma next_frame_at_controls (depth : nat) :
  forall w, same_controls w (window_of (PupilTracker_next_frame_at depth w)).
Proof.
  induction depth as [depth IH] using lt_wf_ind. intros w.
  destruct depth as [|d]; [apply same_controls_refl|].
  cbn [PupilTracker_next_frame_at].
  apply same_controls_bind; [apply same_controls_refl|]. intros c w1.
  destruct c as [c|]; [|apply same_controls_refl].
  destruct (cap_read c) as [[raw|] c'].
  - apply same_controls_bind; [apply on_tracker_controls|]. intros _ w2.
    apply same_controls_bind; [apply on_tracker_controls|]. intros _ w3.
    apply on_tracker_controls.
  - apply same_controls_bind; [apply on_tracker_controls|]. intros _ w2.
    apply same_controls_bind; [apply on_tracker_controls|]. intros _ w3.
    apply same_controls_bind; [apply on_tracker_controls|]. intros _ w4.
    apply same_controls_bind; [apply on_tracker_controls|]. intros _ w5.
    apply same_controls_bind; [|intros _ w6; apply same_controls_refl].
    destruct d as [|d']; [apply same_controls_refl|].
    apply load_first_frame_with_controls. apply IH. lia.
Qed.

Lemma load_first_frame_at_controls (depth : nat) (w : MyFrame) :
  same_controls w (window_of (PupilTracker_load_first_frame_at depth w)).
Proof.
  unfold PupilTracker_load_first_frame_at. apply pycall_controls. intros d.
  apply load_first_frame_with_controls, next_frame_at_controls.
Qed.

Lemma load_video_at_controls (depth : nat) (video_file : string)
      (w : MyFrame) :
  same_controls w (window_of (PupilTracker_load_video_at depth video_file w)).
Proof.
  unfold PupilTracker_load_video_at. apply pycall_controls. intros d.
  apply same_controls_bind; [apply on_tracker_controls|]. intros _ w2.
  apply same_controls_bind; [apply on_tracker_controls|]. intros _ w3.
  apply same_controls_bind; [apply on_tracker_controls|]. intros _ w4.
  apply load_first_frame_at_controls.
Qed.

(** Showing the frame changes the bitmap only. *)
Lemma show_frame_outcome (depth : nat) (w : MyFrame) :
  exists w',
    (ImagePanel_show_frame depth w = GOk tt w'
     \/ ImagePanel_show_frame depth w = GRaise WxError w'
     \/ ImagePanel_show_frame depth w = GRaise (Python AttributeError) w'
     \/ (depth = O /\
         ImagePanel_show_frame depth w = GRaise (Python RuntimeError) w'))
    /\ tracker w' = tracker w /\ same_controls w w'.
Proof.
  unfold ImagePanel_show_frame, gbind, gread, PupilTracker_get_frame_at.
  destruct (image_bmp w) as [bmp|];
    [|exists w; repeat split; auto using same_controls_refl].
  destruct depth as [|d].
  - rewrite tracker_call_short by lia.
    exists w. repeat split; auto 6 using same_controls_refl.
  - rewrite tracker_call_enough by lia.
    unfold on_tracker, get_frame, read.
    simpl. destruct (frame (tracker w)) as [img|].
    + destruct (CopyFromBuffer bmp img) as [bmp'|].
      * eexists. split; [left; reflexivity|].
        split; [destruct w; reflexivity|].
        unfold same_controls; simpl; auto 6.
      * eexists. split; [right; left; reflexivity|].
        split; [destruct w; reflexivity|].
        unfold same_controls; simpl; auto 6.
    + eexists. split; [right; left; reflexivity|].
      split; [destruct w; reflexivity|].
      unfold same_controls; simpl; auto 6.
Qed.

Lemma show_frame_controls (depth : nat) (w : MyFrame) :
  same_controls w (window_of (ImagePanel_show_frame depth w)).
Proof.
  destruct (show_frame_outcome depth w) as (w' & [E|[E|[E|[_ E]]]] & _ & H);
    rewrite E; exact H.
Qed.

Lemma on_tracker_assign (upd : PupilTracker -> PupilTracker) (w : MyFrame) :
  on_tracker (assign upd) w = GOk tt (set_tracker (upd (tracker w)) w).
Proof. reflexivity. Qed.

(** ** The tracker inside the window *)

Lemma window_next_frame_read (d : nat) (w : MyFrame) (c : capture)
      (raw : image) :
  cap (tracker w) = Some c ->
  nth_error (cap_frames c) (cap_pos c) = Some raw ->
  PupilTracker_next_frame_at (S d) w
  = GOk tt
        (set_tracker
           (set_frame (Some (resize raw 0.5 0.5))
              (set_orig_image (Some (resize raw 0.5 0.5))
                 (set_cap (Some (mk_capture (cap_frames c) (S (cap_pos c))))
                          (tracker w)))) w).
Proof.
  intros Ecap Eraw. cbn [PupilTracker_next_frame_at].
  unfold gbind at 1, gread at 1. rewrite Ecap.
  unfold cap_read. rewrite Eraw. reflexivity.
Qed.

(** A capture without frames: the window's [next_frame] runs into the
    recursion limit as the tracker's own does. *)
Lemma window_next_frame_no_frames (d : nat) :
  forall w c,
    cap (tracker w) = Some c -> cap_frames c = [] ->
    PupilTracker_next_frame_at (S d) w
    = GRaise (Python RuntimeError) (set_tracker (rewound c (tracker w)) w).
Proof.
  induction d as [d IH] using lt_wf_ind. intros w c Ecap Eframes.
  assert (Eraw : nth_error (cap_frames c) (cap_pos c) = None)
    by (rewrite Eframes; now destruct (cap_pos c)).
  destruct d as [|[|d]].
  - cbn [PupilTracker_next_frame_at].
    unfold gbind at 1, gread at 1. rewrite Ecap.
    unfold cap_read. rewrite Eraw. reflexivity.
  - cbn [PupilTracker_next_frame_at].
    unfold gbind at 1, gread at 1. rewrite Ecap.
    unfold cap_read. rewrite Eraw. reflexivity.
  - remember (S d) as d1 eqn:Ed1.
    cbn [PupilTracker_next_frame_at].
    unfold gbind at 1, gread at 1. rewrite Ecap.
    unfold cap_read. rewrite Eraw.
    unfold gbind at 1 2 3 4 5. rewrite !on_tracker_assign.
    unfold PupilTracker_load_first_frame_with, gbind at 1.
    subst d1.
    match goal with
    | |- context [PupilTracker_next_frame_at (S d) ?w2] =>
        rewrite (IH d ltac:(lia) w2 (cap_set_pos c 0) eq_refl Eframes)
    end.
    reflexivity.
Qed.

(** The end of a video with frames: the first one is loaded again and
    shown, and EOFError is raised. *)
Lemma window_next_frame_end (d : nat) (w : MyFrame) (c : capture)
      (first : image) (rest : list image) (bmp : bitmap) :
  cap (tracker w) = Some c ->
  nth_error (cap_frames c) (cap_pos c) = None ->
  cap_frames c = first :: rest ->
  BitmapFromBuffer 960 540 (resize first 0.5 0.5) = Some bmp ->
  PupilTracker_next_frame_at (S (S (S (S d)))) w
  = GRaise (Python EOFError)
      (set_tracker
         (set_cap (Some (mk_capture (cap_frames c) 0))
            (set_frame (Some (resize first 0.5 0.5))
               (set_orig_image (Some (resize first 0.5 0.5))
                  (set_roi_refle None (set_roi_pupil None (tracker w))))))
         (set_image_bmp (Some bmp) w)).
Proof.
  intros Ecap Eraw Eframes Ebmp.
  remember (S (S d)) as d2 eqn:Ed2.
  cbn [PupilTracker_next_frame_at].
  unfold gbind at 1, gread at 1. rewrite Ecap.
  unfold cap_read. rewrite Eraw.
  unfold gbind at 1 2 3 4 5. rewrite !on_tracker_assign.
  unfold PupilTracker_load_first_frame_with, gbind at 1.
  subst d2.
  erewrite window_next_frame_read;
    [|reflexivity|cbn; rewrite Eframes; reflexivity].
  unfold gbind, gread, MyFrame_load_video_at, ImagePanel_load_image_at, pycall.
  cbn [tracker set_tracker frame set_frame]. rewrite Ebmp.
  cbn. rewrite Eframes. reflexivity.
Qed.

(** The window's [next_frame] and the tracker's own, side by side. *)
Lemma next_frame_at_agrees (dw dt : nat) (w : MyFrame) :
  first_frame_shown w ->
  agrees (PupilTracker_next_frame_at (S (S (S (S dw)))) w)
         (next_frame_at (S (S dt)) (tracker w))
  /\ (forall w',
         PupilTracker_next_frame_at (S (S (S (S dw)))) w
         = GRaise (Python EOFError) w' ->
         image_bmp w' <> None).
Proof.
  intros Hshown.
  destruct (cap (tracker w)) as [c|] eqn:Ecap.
  - destruct (nth_error (cap_frames c) (cap_pos c)) as [raw|] eqn:Eraw.
    + rewrite (window_next_frame_read _ w c raw Ecap Eraw).
      rewrite (next_frame_at_read _ (tracker w) c raw Ecap Eraw).
      split; [split; reflexivity|discriminate].
    + pose proof Eraw as Eraw'.
      destruct (cap_frames c) as [|first rest] eqn:Eframes in Eraw' |- *.
      * rewrite (window_next_frame_no_frames _ w c Ecap Eframes).
        rewrite (next_frame_at_no_frames_run _ (tracker w) c Ecap Eframes).
        split; [split; reflexivity|discriminate].
      * destruct (BitmapFromBuffer 960 540 (resize first 0.5 0.5))
          as [bmp|] eqn:Ebmp;
          [|exfalso; now apply (Hshown c first rest Ecap Eframes)].
        rewrite (window_next_frame_end dw w c first rest bmp Ecap Eraw
                   Eframes Ebmp).
        rewrite (next_frame_at_end dt (tracker w) c first rest Ecap Eraw
                   Eframes).
        split; [split; reflexivity|].
        intros w' [= <-]. discriminate.
  - cbn [PupilTracker_next_frame_at next_frame_at].
    unfold gbind, gread, bind, read. rewrite Ecap.
    split; [split; reflexivity|discriminate].
Qed.

(** X14. The call to the window inside [load_first_frame] does not change what
    the tracker does: as long as wx takes the first frame of the video,
    [next_frame] and [load_video] in the window end with the same result or
    exception and the same tracker fields as the tracker's methods on their
    own. *)
Theorem window_keeps_tracker (w : MyFrame) :
  (first_frame_shown w ->
   agrees (PupilTracker_next_frame w) (next_frame (tracker w)))
  /\ (forall video_file,
         (forall first rest,
             VideoCapture video_file = first :: rest ->
             BitmapFromBuffer 960 540 (resize first 0.5 0.5) <> None) ->
         agrees (PupilTracker_load_video video_file w)
                (load_video video_file (tracker w))).
Proof.
  split.
  - intros Hshown.
    unfold PupilTracker_next_frame, next_frame, recursion_limit.
    change 1000%nat with (S (S (S (S 996)))) at 1.
    change 1000%nat with (S (S 998)).
    apply next_frame_at_agrees, Hshown.
  - intros video_file Hshown.
    unfold PupilTracker_load_video, recursion_limit.
    change 1000%nat with (S (S (S (S (S 995))))) at 1.
    unfold PupilTracker_load_video_at, PupilTracker_load_first_frame_at,
      pycall.
    unfold load_video, load_first_frame, load_first_frame_with, next_frame,
      recursion_limit.
    change 1000%nat with (S (S 998)).
    unfold gbind at 1 2 3, bind at 1 2 3. rewrite !on_tracker_assign.
    unfold assign at 1 2 3.
    unfold PupilTracker_load_first_frame_with.
    unfold gbind at 1, bind at 1.
    destruct (VideoCapture video_file) as [|first rest] eqn:Eframes.
    + erewrite window_next_frame_no_frames; [|reflexivity|reflexivity].
      erewrite next_frame_at_no_frames_run; [|reflexivity|reflexivity].
      split; reflexivity.
    + destruct (BitmapFromBuffer 960 540 (resize first 0.5 0.5))
        as [bmp|] eqn:Ebmp;
        [|exfalso; now apply (Hshown first rest)].
      erewrite window_next_frame_read; [|reflexivity|reflexivity].
      erewrite next_frame_at_read; [|reflexivity|reflexivity].
      unfold gbind, gread, MyFrame_load_video_at, ImagePanel_load_image_at,
        pycall, bind, read, assign.
      cbn [tracker set_tracker frame set_frame]. rewrite Ebmp.
      cbn. split; reflexivity.
Qed.

(** ** The tick *)

Lemma draw_at_end_of_video (d dt : nat) (w : MyFrame) (s' : PupilTracker) :
  playing w = true ->
  first_frame_shown w ->
  next_frame_at (S (S dt)) (tracker w) = Raise EOFError s' ->
  exists w',
    ImagePanel_draw_at (S (S (S (S (S d))))) w = GOk tt w' /\
    tracker w' = s' /\
    playing w' = false /\ timer_on w' = false /\
    printed w' = EOFError :: printed w /\
    image_bmp w' <> None /\
    pupil_index w' = pupil_index w /\ refle_index w' = refle_index w.
Proof.
  intros Hplaying Hshown Heof.
  destruct (next_frame_at_agrees d dt w Hshown) as (Hagree & Hbmp).
  pose proof (next_frame_at_controls (S (S (S (S d)))) w) as Hc.
  rewrite Heof in Hagree.
  unfold ImagePanel_draw_at, pycall. rewrite Hplaying.
  destruct (PupilTracker_next_frame_at (S (S (S (S d)))) w)
    as [[] w1|[e|] w1]; try now destruct Hagree.
  destruct Hagree as (-> & Htracker).
  destruct Hc as (Hc1 & Hc2 & Hc3 & Hc4 & Hc5). cbn [window_of] in *.
  eexists. split; [reflexivity|]. cbn.
  repeat split; try assumption; try congruence.
  now apply Hbmp.
Qed.

(** X15. The tick at the end of the video, and with no video: [ImagePanel.draw]
    does not pass the exception on; it prints it, clears the play flag and
    stops the timer.  At the end of the video the tracker is as
    [next_frame] left it (rewound, first frame loaded, ROI slots cleared)
    and the panel holds the bitmap of that first frame; the candidate
    indexes are not reset. *)
Theorem tick_stops_playback (w : MyFrame) :
  playing w = true ->
  (forall s',
      first_frame_shown w ->
      next_frame (tracker w) = Raise EOFError s' ->
      exists w',
        ImagePanel_draw w = GOk tt w' /\
        tracker w' = s' /\
        playing w' = false /\ timer_on w' = false /\
        printed w' = EOFError :: printed w /\
        image_bmp w' <> None /\
        pupil_index w' = pupil_index w /\ refle_index w' = refle_index w)
  /\ (cap (tracker w) = None ->
      ImagePanel_draw w
      = GOk tt (set_timer_on false (set_playing false (print IOError w)))).
Proof.
  intros Hplaying. split.
  - intros s' Hshown Heof.
    unfold ImagePanel_draw, recursion_limit.
    change 1000%nat with (S (S (S (S (S 995))))).
    apply (draw_at_end_of_video 995 998 w s' Hplaying Hshown).
    exact Heof.
  - intros Ecap. unfold ImagePanel_draw, recursion_limit.
    change 1000%nat with (S (S 998)).
    unfold ImagePanel_draw_at, pycall. rewrite Hplaying.
    cbn [PupilTracker_next_frame_at].
    unfold gbind at 1, gread at 1. rewrite Ecap. reflexivity.
Qed.

(** ** The controls between events *)

Lemma draw_at_steady (depth : nat) (w : MyFrame) :
  steady w (window_of (ImagePanel_draw_at depth w)).
Proof.
  unfold ImagePanel_draw_at. apply pycall_steady. intros d _.
  destruct (playing w) eqn:Hplaying;
    [|apply same_controls_steady, show_frame_controls].
  pose proof (next_frame_at_controls d w) as Hc.
  destruct d as [|d].
  - cbn. apply steady_refl.
  - destruct (PupilTracker_next_frame_at (S d) w) as [[] w1|[e|] w1];
      cbn [window_of] in Hc.
    + apply same_controls_steady.
      eapply same_controls_trans; [exact Hc|].
      apply same_controls_bind; [apply track_pupil_controls|]. intros _ w2.
      apply same_controls_bind; [apply track_refle_controls|]. intros _ w3.
      apply show_frame_controls.
    + destruct Hc as (Hc1 & Hc2 & Hc3 & Hc4 & Hc5).
      destruct e; unfold steady; cbn; repeat split; congruence.
    + apply same_controls_steady. exact Hc.
Qed.

Lemma steady_tracker_call {A} (need : nat) (m : M A) (depth : nat)
      (w : MyFrame) :
  steady w (window_of (tracker_call need m depth w)).
Proof. apply same_controls_steady, tracker_call_controls. Qed.

Lemma frame_draw_at_steady (depth : nat) (w : MyFrame) :
  steady w (window_of (MyFrame_draw_at depth w)).
Proof.
  unfold MyFrame_draw_at. apply pycall_steady. intros d _.
  apply draw_at_steady.
Qed.

Lemma clear_at_steady (depth : nat) (draw : bool) (w : MyFrame) :
  steady w (window_of (MyFrame_clear_at depth draw w)).
Proof.
  unfold MyFrame_clear_at. apply pycall_steady. intros d _.
  apply steady_bind; [apply steady_tracker_call|]. intros _ w1.
  destruct draw; [apply frame_draw_at_steady|apply steady_refl].
Qed.

Lemma draw_pupil_at_steady (depth : nat) (j : Z) (w : MyFrame) :
  steady w (window_of (MyFrame_draw_pupil_at depth j w)).
Proof.
  unfold MyFrame_draw_pupil_at. apply pycall_steady. intros d _.
  apply steady_bind; [apply clear_at_steady|]. intros _ w1.
  apply steady_bind; [|intros _ w2; apply draw_at_steady].
  destruct (negb _); [apply steady_tracker_call|apply steady_refl].
Qed.

Lemma draw_refle_at_steady (depth : nat) (j k : Z) (w : MyFrame) :
  steady w (window_of (MyFrame_draw_refle_at depth j k w)).
Proof.
  unfold MyFrame_draw_refle_at. apply pycall_steady. intros d _.
  apply steady_bind; [apply clear_at_steady|]. intros _ w1.
  apply steady_bind.
  - destruct (negb _); [|apply steady_refl].
    apply steady_bind; [apply steady_tracker_call|]. intros _ w2.
    apply draw_at_steady.
  - intros _ w2.
    apply steady_bind; [apply steady_tracker_call|]. intros _ w3.
    apply draw_at_steady.
Qed.

Lemma find_pupil_button_ok (d : nat) :
  forall w, controls_ok w ->
            controls_ok (window_of (ToolsPanel_on_find_pupil_button_at d w)).
Proof.
  induction d as [|d IH]; intros w Hw; [exact Hw|].
  cbn [ToolsPanel_on_find_pupil_button_at].
  set (w1 := set_pupil_index (pupil_index w + 1) w).
  assert (H1 : controls_ok w1).
  { destruct Hw as (Ht & Hp & Hr). unfold controls_ok, w1. simpl.
    repeat split; [exact Ht|lia|exact Hr]. }
  pose proof (steady_ok _ _ H1 (draw_pupil_at_steady d (pupil_index w1) w1))
    as H2.
  destruct (MyFrame_draw_pupil_at d (pupil_index w1) w1) as [[] w2|[e|] w2];
    cbn [window_of] in H2; try exact H2.
  destruct H2 as (Ht & Hp & Hr).
  destruct e; try (unfold controls_ok; simpl; auto).
  apply IH. unfold controls_ok. simpl. repeat split; [exact Ht|lia|exact Hr].
Qed.

Lemma find_refle_button_ok (d : nat) :
  forall w, controls_ok w ->
            controls_ok (window_of (ToolsPanel_on_find_refle_button_at d w)).
Proof.
  induction d as [|d IH]; intros w Hw; [exact Hw|].
  cbn [ToolsPanel_on_find_refle_button_at].
  set (w1 := set_refle_index (refle_index w + 1) w).
  assert (H1 : controls_ok w1).
  { destruct Hw as (Ht & Hp & Hr). unfold controls_ok, w1. simpl.
    repeat split; [exact Ht|exact Hp|lia]. }
  pose proof (steady_ok _ _ H1
                (draw_refle_at_steady d (pupil_index w1) (refle_index w1) w1))
    as H2.
  destruct (MyFrame_draw_refle_at d (pupil_index w1) (refle_index w1) w1)
    as [[] w2|[e|] w2]; cbn [window_of] in H2; try exact H2.
  destruct H2 as (Ht & Hp & Hr).
  destruct e; try (unfold controls_ok; simpl; auto).
  apply IH. unfold controls_ok. simpl. repeat split; [exact Ht|exact Hp|lia].
Qed.

Lemma clear_button_ok (depth : nat) (w : MyFrame) :
  controls_ok w ->
  controls_ok (window_of (ToolsPanel_on_clear_button_at depth w)).
Proof.
  intros Hw. unfold ToolsPanel_on_clear_button_at.
  destruct depth as [|d]; [exact Hw|]. cbn [pycall].
  pose proof (steady_ok _ _ Hw (clear_at_steady d true w)) as H.
  destruct (MyFrame_clear_at d true w) as [[] w1|[e|] w1];
    cbn [window_of] in H.
  - destruct H as (Ht & _ & _). unfold controls_ok. simpl.
    repeat split; [exact Ht|lia|lia].
  - destruct e; exact H.
  - exact H.
Qed.

Lemma load_button_ok (depth : nat) (choice : option string) (w : MyFrame) :
  controls_ok w ->
  controls_ok (window_of (ToolsPanel_on_load_button_at depth choice w)).
Proof.
  intros Hw. unfold ToolsPanel_on_load_button_at.
  destruct depth as [|d]; [exact Hw|]. cbn [pycall].
  unfold gbind at 1 2, gassign.
  match goal with
  | |- context [MyFrame_load_dialog_at d choice ?w1] =>
      assert (H1 : controls_ok w1)
        by (destruct Hw as (Ht & _ & _); unfold controls_ok; simpl;
            repeat split; [exact Ht|lia|lia]);
      apply (steady_ok w1); [exact H1|]
  end.
  apply same_controls_steady.
  unfold MyFrame_load_dialog_at. apply pycall_controls. intros d1.
  destruct choice; [|apply same_controls_refl].
  unfold MyFrame_open_video_at. apply pycall_controls. intros d2.
  apply load_video_at_controls.
Qed.

Lemma play_button_ok (depth : nat) (w : MyFrame) :
  controls_ok w ->
  controls_ok (window_of (ToolsPanel_on_play_button_at depth w)).
Proof.
  intros Hw. destruct Hw as (Ht & Hp & Hr).
  destruct depth as [|[|[|d]]]; unfold controls_ok; cbn;
    repeat split; (assumption || lia || reflexivity).
Qed.

Lemma stop_button_ok (depth : nat) (w : MyFrame) :
  controls_ok w ->
  controls_ok (window_of (ToolsPanel_on_stop_button_at depth w)).
Proof.
  intros Hw. destruct Hw as (Ht & Hp & Hr).
  destruct depth as [|[|[|d]]]; unfold controls_ok; cbn;
    repeat split; (assumption || lia || reflexivity).
Qed.

(** X16. Between events the timer runs exactly when the play flag is set, and
    the two candidate indexes never fall below -1, whatever the sequence
    of button presses and ticks and whatever the handlers raise. *)
Theorem controls_ok_always (events : list event) :
  controls_ok (session_after events).
Proof.
  unfold session_after.
  assert (Hnew : controls_ok new_frame)
    by (unfold controls_ok; simpl; repeat split; lia).
  revert Hnew. generalize new_frame.
  induction events as [|ev events IH]; intros w Hw; [exact Hw|].
  simpl. apply IH. unfold react.
  destruct ev; cbn [handler].
  - now apply find_pupil_button_ok.
  - now apply find_refle_button_ok.
  - now apply clear_button_ok.
  - now apply load_button_ok.
  - now apply play_button_ok.
  - now apply stop_button_ok.
  - apply (steady_ok w); [exact Hw|apply draw_at_steady].
Qed.

(** ** The Clear button *)

Lemma get_orig_frame_at_run (d : nat) (w : MyFrame) (img : image) :
  orig_image (tracker w) = Some img ->
  PupilTracker_get_orig_frame_at (S d) w
  = GOk img (set_tracker (cleared img (tracker w)) w).
Proof.
  intros Eorig. unfold PupilTracker_get_orig_frame_at.
  rewrite tracker_call_enough by lia.
  unfold on_tracker, get_orig_frame, bind, read. rewrite Eorig. reflexivity.
Qed.

Lemma clear_at_run (d : nat) (w : MyFrame) (img : image) :
  orig_image (tracker w) = Some img ->
  MyFrame_clear_at (S (S d)) false w
  = GOk tt (set_tracker (cleared img (tracker w)) w).
Proof.
  intros Eorig. unfold MyFrame_clear_at, pycall, gbind.
  now rewrite (get_orig_frame_at_run d w img Eorig).
Qed.

(** The redraw with playback stopped is the copy into the bitmap. *)
Lemma draw_at_stopped (d : nat) (w : MyFrame) :
  playing w = false ->
  ImagePanel_draw_at (S d) w = ImagePanel_show_frame d w.
Proof.
  intros Hstopped. unfold ImagePanel_draw_at, pycall. now rewrite Hstopped.
Qed.

Lemma show_frame_run (d : nat) (w : MyFrame) (bmp : bitmap) (img : image)
      (bmp' : bitmap) :
  image_bmp w = Some bmp -> frame (tracker w) = Some img ->
  CopyFromBuffer bmp img = Some bmp' ->
  ImagePanel_show_frame (S d) w
  = GOk tt (set_image_bmp (Some bmp') (set_tracker (tracker w) w)).
Proof.
  intros Ebmp Eframe Ecopy.
  unfold ImagePanel_show_frame, gbind, gread, PupilTracker_get_frame_at.
  rewrite Ebmp. rewrite tracker_call_enough by lia.
  unfold on_tracker, get_frame, read. rewrite Eframe, Ecopy. reflexivity.
Qed.

Lemma clear_at_redraw (d : nat) (w : MyFrame) (img : image) :
  orig_image (tracker w) = Some img ->
  playing w = false ->
  MyFrame_clear_at (S (S (S d))) true w
  = ImagePanel_show_frame d (set_tracker (cleared img (tracker w)) w).
Proof.
  intros Eorig Hstopped. unfold MyFrame_clear_at, pycall, gbind.
  rewrite (get_orig_frame_at_run _ w img Eorig).
  unfold MyFrame_draw_at, pycall.
  now rewrite draw_at_stopped by exact Hstopped.
Qed.

Lemma clear_button_at_run (d : nat) (w : MyFrame) :
  (orig_image (tracker w) = None ->
   ToolsPanel_on_clear_button_at (S (S (S d))) w
   = GOk tt (print AttributeError w))
  /\ (forall img,
         orig_image (tracker w) = Some img ->
         playing w = false ->
         tracker (window_of
                    (ToolsPanel_on_clear_button_at (S (S (S (S (S d))))) w))
         = cleared img (tracker w)
         /\ (image_bmp w <> None ->
             (forall bmp, CopyFromBuffer bmp img <> None) ->
             exists w',
               ToolsPanel_on_clear_button_at (S (S (S (S (S d))))) w
               = GOk tt w' /\
               pupil_index w' = -1 /\ refle_index w' = -1)).
Proof.
  split.
  - intros Eorig.
    unfold ToolsPanel_on_clear_button_at, MyFrame_clear_at, pycall, gbind,
      PupilTracker_get_orig_frame_at.
    rewrite tracker_call_enough by lia.
    unfold on_tracker, get_orig_frame, bind, read.
    rewrite Eorig. destruct w; reflexivity.
  - intros img Eorig Hstopped.
    unfold ToolsPanel_on_clear_button_at, pycall.
    rewrite (clear_at_redraw (S d) w img Eorig Hstopped).
    split.
    + match goal with
      | |- context [ImagePanel_show_frame ?d1 ?w1] =>
          destruct (show_frame_outcome d1 w1) as (w2 & Hshow & Htracker & Hc)
      end.
      destruct Hshow as [E|[E|[E|[E _]]]]; [..|discriminate];
        rewrite E; cbn; exact Htracker.
    + intros Hbmp Hcopy.
      destruct (image_bmp w) as [bmp|] eqn:Ebmp; [|congruence].
      specialize (Hcopy bmp).
      destruct (CopyFromBuffer bmp img) as [bmp'|] eqn:Ecopy; [|congruence].
      rewrite (show_frame_run _ _ bmp img bmp');
        [|exact Ebmp|reflexivity|exact Ecopy].
      eexists. split; [reflexivity|]. split; reflexivity.
Qed.

(** X17. The Clear button with nothing loaded only prints the error: the
    indexes are not reset.  With a frame loaded and playback stopped it
    restores the original frame, clears both ROI slots and resets both
    indexes, whatever wx does with the bitmap. *)
Theorem clear_button (w : MyFrame) :
  (orig_image (tracker w) = None ->
   ToolsPanel_on_clear_button w = GOk tt (print AttributeError w))
  /\ (forall img,
         orig_image (tracker w) = Some img ->
         playing w = false ->
         tracker (window_of (ToolsPanel_on_clear_button w))
         = cleared img (tracker w)
         /\ (image_bmp w <> None ->
             (forall bmp, CopyFromBuffer bmp img <> None) ->
             exists w',
               ToolsPanel_on_clear_button w = GOk tt w' /\
               pupil_index w' = -1 /\ refle_index w' = -1)).
Proof.
  unfold ToolsPanel_on_clear_button, recursion_limit. split.
  - change 1000%nat with (S (S (S 997))).
    apply (proj1 (clear_button_at_run 997 w)).
  - change 1000%nat with (S (S (S (S (S 995))))).
    apply (proj2 (clear_button_at_run 995 w)).
Qed.

(** ** The Find buttons *)

Lemma find_pupils_same_frame (r : option roi) (t t' s1 : PupilTracker)
      (l : list contour) :
  frame t' = frame t -> noise_kernel t' = noise_kernel t ->
  find_pupils r t = Ok l s1 ->
  find_pupils r t' = Ok l (with_offset r t').
Proof.
  intros Eframe Ekernel. rewrite !find_pupils_run, Eframe.
  destruct (frame t) as [img|]; [|discriminate].
  destruct (image_empty _); [discriminate|].
  unfold contours_in. rewrite Ekernel.
  destruct (collect _ _ _); [discriminate|].
  simpl. now intros [= <- _].
Qed.

(** One level of the handlers of the two Find buttons. *)
Lemma find_pupil_button_at_S (d : nat) (w : MyFrame) :
  ToolsPanel_on_find_pupil_button_at (S d) w
  = let w1 := set_pupil_index (pupil_index w + 1) w in
    match MyFrame_draw_pupil_at d (pupil_index w1) w1 with
    | GRaise (Python IndexError) w2 =>
        ToolsPanel_on_find_pupil_button_at d (set_pupil_index (-1) w2)
    | GRaise (Python AttributeError) w2 => GOk tt (print AttributeError w2)
    | o => o
    end.
Proof. reflexivity. Qed.

Lemma find_refle_button_at_S (d : nat) (w : MyFrame) :
  ToolsPanel_on_find_refle_button_at (S d) w
  = let w1 := set_refle_index (refle_index w + 1) w in
    match MyFrame_draw_refle_at d (pupil_index w1) (refle_index w1) w1 with
    | GRaise (Python IndexError) w2 =>
        ToolsPanel_on_find_refle_button_at d (set_refle_index (-1) w2)
    | GRaise (Python AttributeError) w2 => GOk tt (print AttributeError w2)
    | o => o
    end.
Proof. reflexivity. Qed.

(** The pupil draw on the restored frame with an index past the
    candidates. *)
Lemma draw_pupil_past_the_end (d : nat) (w : MyFrame) (img : image)
      (l : list contour) (s0 : PupilTracker) (j : Z) :
  orig_image (tracker w) = Some img ->
  find_pupils None (cleared img (tracker w)) = Ok l s0 ->
  l <> [] -> Z.of_nat (length l) <= j ->
  PupilTracker_draw_pupil_at (S (S (S d))) (Some j) None true
                             (set_tracker (cleared img (tracker w)) w)
  = GRaise (Python IndexError)
           (set_tracker (with_offset None (cleared img (tracker w))) w).
Proof.
  intros Eorig Efind Hl Hj. unfold PupilTracker_draw_pupil_at.
  rewrite tracker_call_enough by lia.
  unfold on_tracker. cbn [tracker set_tracker].
  pose proof (draw_pupil_run (Some j) None true (cleared img (tracker w))) as H.
  rewrite Efind in H. apply find_pupils_inv in Efind as (img' & _ & ->).
  destruct l as [|c l]; [congruence|].
  assert (Eget : Py.getitem (c :: l) (index_of (Some j)) = None)
    by (apply getitem_none; left; exact Hj).
  rewrite Eget in H. rewrite H. destruct w; reflexivity.
Qed.

(** [MyFrame.draw_pupil] with an index past the candidates. *)
Lemma frame_draw_pupil_past_the_end (d : nat) (w : MyFrame) (img : image)
      (l : list contour) (s0 : PupilTracker) (j : Z) :
  orig_image (tracker w) = Some img ->
  find_pupils None (cleared img (tracker w)) = Ok l s0 ->
  l <> [] -> Z.of_nat (length l) <= j ->
  MyFrame_draw_pupil_at (S (S (S (S d)))) j w
  = GRaise (Python IndexError)
           (set_tracker (with_offset None (cleared img (tracker w))) w).
Proof.
  intros Eorig Efind Hl Hj.
  unfold MyFrame_draw_pupil_at, pycall. unfold gbind at 1 2.
  rewrite (clear_at_run _ w img Eorig).
  destruct (Z.eqb_spec j (-1)); [destruct l; [congruence|simpl in Hj; lia]|].
  cbn [negb].
  now rewrite (draw_pupil_past_the_end d w img l s0 j Eorig Efind Hl Hj).
Qed.

(** [MyFrame.draw_pupil] with an index among the candidates, playback
    stopped. *)
Lemma draw_pupil_among (d : nat) (w : MyFrame) (img : image)
      (l : list contour) (s0 : PupilTracker) (j : Z) (cnt : contour) :
  playing w = false ->
  orig_image (tracker w) = Some img ->
  find_pupils None (cleared img (tracker w)) = Ok l s0 ->
  0 <= j -> nth_error l (Z.to_nat j) = Some cnt ->
  exists w',
    (MyFrame_draw_pupil_at (S (S (S (S d)))) j w = GOk tt w'
     \/ MyFrame_draw_pupil_at (S (S (S (S d)))) j w = GRaise WxError w'
     \/ MyFrame_draw_pupil_at (S (S (S (S d)))) j w
        = GRaise (Python AttributeError) w')
    /\ roi_pupil (tracker w')
       = Some (square_around (int_center (fitEllipse cnt)) 100)
    /\ roi_refle (tracker w') = None
    /\ same_controls w w'.
Proof.
  intros Hstopped Eorig Efind Hj Hnth.
  assert (Hlen : j < Z.of_nat (length l)).
  { assert (nth_error l (Z.to_nat j) <> None) by congruence.
    apply nth_error_Some in H. lia. }
  assert (Eget : Py.getitem l (index_of (Some j)) = Some cnt).
  { destruct (getitem_some l j) as [E _]; [lia|].
    simpl. rewrite E, Z.mod_small by lia. exact Hnth. }
  remember (MyFrame_draw_pupil_at (S (S (S (S d)))) j w) as o eqn:Eo.
  unfold MyFrame_draw_pupil_at, pycall in Eo. unfold gbind at 1 2 in Eo.
  rewrite (clear_at_run _ w img Eorig) in Eo.
  destruct (Z.eqb_spec j (-1)); [lia|]. cbn [negb] in Eo.
  unfold PupilTracker_draw_pupil_at in Eo.
  rewrite tracker_call_enough in Eo by lia.
  unfold on_tracker at 1 in Eo. cbn [tracker set_tracker] in Eo.
  pose proof (draw_pupil_run (Some j) None true (cleared img (tracker w))) as H.
  rewrite Efind in H. apply find_pupils_inv in Efind as (img' & _ & ->).
  destruct l as [|c l]; [destruct (Z.to_nat j); discriminate|].
  rewrite Eget in H. destruct H as (img'' & H). rewrite H in Eo.
  rewrite draw_at_stopped in Eo by exact Hstopped.
  match type of Eo with
  | _ = ImagePanel_show_frame ?d1 ?w1 =>
      destruct (show_frame_outcome d1 w1) as (w2 & Hshow & Htracker & Hc)
  end.
  rewrite <- Eo in Hshow.
  exists w2. split; [destruct Hshow as [E|[E|[E|[E _]]]]; auto; discriminate|].
  rewrite Htracker. cbn.
  split; [reflexivity|]. split; [reflexivity|]. exact Hc.
Qed.

(** X18. The Find pupil button steps through the pupil candidates of the
    frame and wraps around: with playback stopped and n > 0 candidates on
    the original frame, a press moves the index to the next candidate, or
    back to the first one after the last, sets the pupil ROI around that
    candidate, clears the reflection ROI and leaves the reflection index
    alone. *)
Theorem find_pupil_button_cycles (w : MyFrame) (img : image)
        (l : list contour) (s0 : PupilTracker) :
  playing w = false ->
  orig_image (tracker w) = Some img ->
  find_pupils None (cleared img (tracker w)) = Ok l s0 ->
  l <> [] ->
  -1 <= pupil_index w ->
  let n := Z.of_nat (length l) in
  let next := if pupil_index w + 1 <? n then pupil_index w + 1 else 0 in
  let w' := window_of (ToolsPanel_on_find_pupil_button w) in
  pupil_index w' = next
  /\ refle_index w' = refle_index w
  /\ exists cnt,
       nth_error l (Z.to_nat next) = Some cnt /\
       roi_pupil (tracker w')
       = Some (square_around (int_center (fitEllipse cnt)) 100) /\
       roi_refle (tracker w') = None.
Proof.
  intros Hstopped Eorig Efind Hl Hindex n next w'.
  assert (Hattempt : forall w1 j cnt,
             playing w1 = false ->
             orig_image (tracker w1) = Some img ->
             find_pupils None (cleared img (tracker w1))
             = Ok l (with_offset None (cleared img (tracker w1))) ->
             pupil_index w1 + 1 = j -> 0 <= j ->
             nth_error l (Z.to_nat j) = Some cnt ->
             forall d,
               let w2 := window_of (ToolsPanel_on_find_pupil_button_at
                                      (S (S (S (S (S d))))) w1) in
               pupil_index w2 = j /\ refle_index w2 = refle_index w1 /\
               roi_pupil (tracker w2)
               = Some (square_around (int_center (fitEllipse cnt)) 100) /\
               roi_refle (tracker w2) = None).
  { intros w1 j cnt H1 H2 H3 H4 H5 H6 d.
    rewrite find_pupil_button_at_S. cbv zeta.
    cbn [pupil_index set_pupil_index]. rewrite H4.
    destruct (draw_pupil_among d (set_pupil_index j w1) img l _ j cnt
                H1 H2 H3 H5 H6)
      as (w2 & Hout & Hroi & Hrefle & Hc).
    destruct Hc as (_ & _ & Hp & Hr & _). simpl in Hp, Hr.
    destruct Hout as [E|[E|E]]; rewrite E; simpl; auto. }
  assert (Efind' : find_pupils None (cleared img (tracker w))
                   = Ok l (with_offset None (cleared img (tracker w)))).
  { apply find_pupils_inv in Efind as Hinv. destruct Hinv as (? & _ & <-).
    exact Efind. }
  subst w'. unfold ToolsPanel_on_find_pupil_button, recursion_limit.
  subst next. destruct (Z.ltb_spec (pupil_index w + 1) n) as [Hin|Hpast].
  - change 1000%nat with (S (S (S (S (S 995))))).
    destruct (nth_error l (Z.to_nat (pupil_index w + 1))) as [cnt|] eqn:Enth.
    + destruct (Hattempt w _ cnt Hstopped Eorig Efind' eq_refl ltac:(lia) Enth
                  995%nat) as (H1 & H2 & H3 & H4).
      repeat split; try assumption. eauto.
    + apply nth_error_None in Enth. subst n. lia.
  - change 1000%nat with (S (S (S (S (S (S 994)))))).
    remember (ToolsPanel_on_find_pupil_button_at
                (S (S (S (S (S (S 994)))))) w) as o eqn:Eo.
    rewrite find_pupil_button_at_S in Eo. cbv zeta in Eo.
    cbn [pupil_index set_pupil_index] in Eo.
    rewrite (frame_draw_pupil_past_the_end _
               (set_pupil_index (pupil_index w + 1) w)
               img l _ _ Eorig Efind' Hl Hpast) in Eo.
    cbv beta iota in Eo.
    destruct l as [|cnt l'] eqn:El; [congruence|]. rewrite <- El in *.
    match type of Eo with
    | _ = ToolsPanel_on_find_pupil_button_at _ ?w1 =>
        destruct (Hattempt w1 0 cnt) with (d := 994%nat)
          as (H1 & H2 & H3 & H4);
          [exact Hstopped|exact Eorig| |reflexivity|lia|now rewrite El|]
    end.
    + eapply find_pupils_same_frame; [| |exact Efind']; reflexivity.
    + rewrite <- Eo in H1, H2, H3, H4.
      cbn [refle_index set_pupil_index set_tracker] in H2.
      repeat split; try assumption. exists cnt. rewrite El. auto.
Qed.

(** [MyFrame.draw_refle] with a pupil index past the candidates never gets
    to the reflection. *)
Lemma draw_refle_stale (d : nat) (w : MyFrame) (img : image)
      (l : list contour) (s0 : PupilTracker) (k : Z) :
  orig_image (tracker w) = Some img ->
  find_pupils None (cleared img (tracker w)) = Ok l s0 ->
  l <> [] -> Z.of_nat (length l) <= pupil_index w ->
  MyFrame_draw_refle_at (S (S (S (S d)))) (pupil_index w) k w
  = GRaise (Python IndexError)
           (set_tracker (with_offset None (cleared img (tracker w))) w).
Proof.
  intros Eorig Efind Hl Hstale.
  unfold MyFrame_draw_refle_at, pycall. unfold gbind at 1 2 3.
  rewrite (clear_at_run _ w img Eorig).
  destruct (Z.eqb_spec (pupil_index w) (-1));
    [destruct l; [congruence|simpl in Hstale; lia]|].
  cbn [negb]. unfold gbind at 1.
  now rewrite (draw_pupil_past_the_end d w img l s0 _ Eorig Efind Hl Hstale).
Qed.

(** With three levels left [MyFrame.draw_refle] restores the frame and
    runs out of stack in the pupil draw. *)
Lemma draw_refle_out_of_stack (w : MyFrame) (img : image) (k : Z) :
  orig_image (tracker w) = Some img ->
  pupil_index w <> -1 ->
  MyFrame_draw_refle_at 3 (pupil_index w) k w
  = GRaise (Python RuntimeError) (set_tracker (cleared img (tracker w)) w).
Proof.
  intros Eorig Hindex.
  unfold MyFrame_draw_refle_at, pycall. unfold gbind at 1 2 3.
  rewrite (clear_at_run _ w img Eorig).
  destruct (Z.eqb_spec (pupil_index w) (-1)); [contradiction|].
  cbn [negb]. unfold gbind at 1, PupilTracker_draw_pupil_at.
  now rewrite tracker_call_short by lia.
Qed.

Lemma find_refle_button_stale (k : nat) (img : image) (l : list contour)
      (kernel_ : option kernel) (i : Z) :
  l <> [] -> Z.of_nat (length l) <= i ->
  (forall t, frame t = Some img -> noise_kernel t = kernel_ ->
             find_pupils None t = Ok l (with_offset None t)) ->
  forall w,
    orig_image (tracker w) = Some img ->
    noise_kernel (tracker w) = kernel_ ->
    pupil_index w = i ->
    exists w',
      ToolsPanel_on_find_refle_button_at (S (S (S (S (S k))))) w
      = GRaise (Python RuntimeError) w' /\
      pupil_index w' = i /\ refle_index w' = 0 /\
      roi_pupil (tracker w') = None /\ roi_refle (tracker w') = None.
Proof.
  intros Hl Hstale Hfind.
  assert (Hi : i <> -1) by (destruct l; [congruence|simpl in Hstale; lia]).
  induction k as [|k IH]; intros w Eorig Ekernel Eindex.
  - rewrite find_refle_button_at_S. cbv zeta.
    cbn [pupil_index refle_index set_refle_index].
    rewrite <- Eindex in Hstale.
    rewrite (draw_refle_stale 0 (set_refle_index (refle_index w + 1) w) img l
               (with_offset None (cleared img (tracker w))) _ Eorig);
      [|apply Hfind; [reflexivity|exact Ekernel]|exact Hl|exact Hstale].
    rewrite find_refle_button_at_S. cbv zeta.
    match goal with
    | |- context [MyFrame_draw_refle_at 3 _ _ ?w2] =>
        rewrite (draw_refle_out_of_stack w2 img (refle_index w2) Eorig)
          by (cbn; congruence)
    end.
    eexists. split; [reflexivity|]. cbn. auto.
  - rewrite find_refle_button_at_S. cbv zeta.
    cbn [pupil_index refle_index set_refle_index].
    rewrite <- Eindex in Hstale.
    rewrite (draw_refle_stale (S k) (set_refle_index (refle_index w + 1) w)
               img l (with_offset None (cleared img (tracker w))) _ Eorig);
      [|apply Hfind; [reflexivity|exact Ekernel]|exact Hl|exact Hstale].
    apply IH; [exact Eorig|exact Ekernel|exact Eindex].
Qed.

(** X19. A pupil index left over from another frame: when the index of the
    tools panel is at or past the number of pupil candidates of the frame
    (and there are candidates), the Find refle button never draws a
    reflection.  Each call raises the index error from the pupil draw,
    resets the reflection index and calls itself, until a call runs out
    of stack inside [MyFrame.draw_refle]: that is after the index has
    been incremented, and the RuntimeError is not caught, so the handler
    ends with the reflection index at 0, the pupil index as it was and
    both ROI slots cleared.  This is so for the whole stack and for any
    stack of five levels or more. *)
Theorem find_refle_button_stale_pupil_index (w : MyFrame) (img : image)
        (l : list contour) (s0 : PupilTracker) :
  orig_image (tracker w) = Some img ->
  find_pupils None (cleared img (tracker w)) = Ok l s0 ->
  l <> [] ->
  Z.of_nat (length l) <= pupil_index w ->
  (exists w',
      ToolsPanel_on_find_refle_button w = GRaise (Python RuntimeError) w' /\
      pupil_index w' = pupil_index w /\ refle_index w' = 0 /\
      roi_pupil (tracker w') = None /\ roi_refle (tracker w') = None)
  /\ (forall depth,
         (5 <= depth)%nat ->
         exists w',
           ToolsPanel_on_find_refle_button_at depth w
           = GRaise (Python RuntimeError) w' /\
           pupil_index w' = pupil_index w /\ refle_index w' = 0 /\
           roi_pupil (tracker w') = None /\ roi_refle (tracker w') = None).
Proof.
  intros Eorig Efind Hl Hstale.
  assert (Hall : forall k,
             exists w',
               ToolsPanel_on_find_refle_button_at (S (S (S (S (S k))))) w
               = GRaise (Python RuntimeError) w' /\
               pupil_index w' = pupil_index w /\ refle_index w' = 0 /\
               roi_pupil (tracker w') = None /\ roi_refle (tracker w') = None).
  { intros k.
    apply (find_refle_button_stale k img l (noise_kernel (tracker w))
             (pupil_index w) Hl Hstale); try reflexivity; try assumption.
    intros t Eframe Ekernel.
    eapply find_pupils_same_frame; [| |exact Efind];
      [exact Eframe|exact Ekernel]. }
  split.
  - unfold ToolsPanel_on_find_refle_button, recursion_limit.
    change 1000%nat with (S (S (S (S (S 995))))). apply Hall.
  - intros depth Hdepth.
    replace depth with (S (S (S (S (S (depth - 5)))))) by lia. apply Hall.
Qed.

End WindowProperties.
(** * Concrete runs on the synthetic OpenCV *)

#[local] Existing Instance Synthetic.cv.

(** C1 on the first frame of the synthetic video: of the five shapes the
    two blobs are returned, and they pass the filters. *)
Lemma find_pupils_filters_witness :
  find_pupils None Synthetic.loaded
  = Ok [Synthetic.blob; Synthetic.blob2] (with_offset None Synthetic.loaded)
  /\ Forall (pupil_accepted Synthetic.loaded None)
            [Synthetic.blob; Synthetic.blob2].
Proof.
  assert (H : find_pupils None Synthetic.loaded
              = Ok [Synthetic.blob; Synthetic.blob2]
                   (with_offset None Synthetic.loaded))
    by (vm_compute; reflexivity).
  split; [exact H|exact (find_pupils_filters _ _ _ _ H)].
Defined.

(** C8 on the same frame: only the 10x10 highlight is returned. *)
Lemma find_refle_filters_witness :
  find_refle None Synthetic.loaded
  = Ok [Synthetic.glint] (with_offset None Synthetic.loaded)
  /\ Forall (refle_accepted Synthetic.loaded) [Synthetic.glint].
Proof.
  assert (H : find_refle None Synthetic.loaded
              = Ok [Synthetic.glint] (with_offset None Synthetic.loaded))
    by (vm_compute; reflexivity).
  split; [exact H|exact (find_refle_filters _ _ _ _ H)].
Defined.

(** C2 with the stored reflection ROI as argument, as [track_refle] calls
    it: the highlight's centre (45, 45) is inside (30, 30)-(60, 60). *)
Lemma find_refle_center_in_stored_roi_witness :
  roi_refle Synthetic.refle_tracked = Some ((30, 30), (60, 60))
  /\ find_refle (Some ((30, 30), (60, 60))) Synthetic.refle_tracked
     = Ok [Synthetic.glint] (with_offset None Synthetic.refle_tracked)
  /\ Forall (fun c =>
               strictly_inside ((30, 30), (60, 60)) (int_center (minAreaRect c))
               /\ Qstrictly_inside ((30, 30), (60, 60))
                                   (rect_center (minAreaRect c)))
            [Synthetic.glint].
Proof.
  assert (E : roi_refle Synthetic.refle_tracked = Some ((30, 30), (60, 60)))
    by (vm_compute; reflexivity).
  assert (H : find_refle (Some ((30, 30), (60, 60))) Synthetic.refle_tracked
              = Ok [Synthetic.glint] (with_offset None Synthetic.refle_tracked))
    by (vm_compute; reflexivity).
  split; [exact E|]. split; [exact H|].
  exact (proj2 (find_refle_center_in_stored_roi _ _ _ _ H) E).
Defined.

(** C2 as stated fails: with the reflection ROI (30, 30)-(60, 60) stored, a
    search given the ROI (0, 0)-(10, 10) still returns the highlight, whose
    centre (45, 45) is outside the ROI it was given. *)
Lemma find_refle_ignores_roi_argument :
  roi_refle Synthetic.refle_tracked = Some ((30, 30), (60, 60))
  /\ find_refle (Some ((0, 0), (10, 10))) Synthetic.refle_tracked
     = Ok [Synthetic.glint] (with_offset None Synthetic.refle_tracked)
  /\ int_center (minAreaRect Synthetic.glint) = (45, 45)
  /\ ~ strictly_inside ((0, 0), (10, 10))
                       (int_center (minAreaRect Synthetic.glint)).
Proof.
  split; [vm_compute; reflexivity|].
  split; [vm_compute; reflexivity|].
  split; [vm_compute; reflexivity|].
  unfold strictly_inside.
  replace (int_center (minAreaRect Synthetic.glint)) with (45, 45)
    by (vm_compute; reflexivity).
  simpl. lia.
Qed.



(** C5 on a session: the slots after two played frames. *)
Lemma roi_invariant_holds_witness :
  roi_invariant (run Synthetic.session)
  /\ roi_pupil (fields (run Synthetic.session)) = Some ((-160, -110), (40, 90))
  /\ roi_refle (fields (run Synthetic.session)) = Some ((-20, 30), (10, 60)).
Proof.
  split; [exact (proj1 roi_invariant_holds Synthetic.session)|].
  split; vm_compute; reflexivity.
Defined.

(** C6 as stated fails: with two candidates, index -3 is not at or past the
    length of the list, and [draw_pupil] raises the index error. *)
Lemma draw_pupil_index_error_below :
  find_pupils None Synthetic.loaded
  = Ok [Synthetic.blob; Synthetic.blob2] (with_offset None Synthetic.loaded)
  /\ draw_pupil (Some (-3)) None true Synthetic.loaded
     = Raise IndexError (with_offset None Synthetic.loaded)
  /\ ~ (Z.of_nat (length [Synthetic.blob; Synthetic.blob2]) <= -3).
Proof.
  split; [vm_compute; reflexivity|].
  split; [vm_compute; reflexivity|].
  simpl. lia.
Qed.

(** C6 on the synthetic frames: index 5 with two candidates, and a dark
    frame with none. *)
Lemma draw_pupil_errors_witness :
  draw_pupil (Some 5) None true Synthetic.loaded
  = Raise IndexError (with_offset None Synthetic.loaded)
  /\ draw_pupil None None true (fields_of (load_video "night.avi" init))
     = Raise AttributeError
             (with_offset None (fields_of (load_video "night.avi" init))).
Proof.
  split.
  - refine (proj2 (proj2 (draw_pupil_errors (Some 5) None true Synthetic.loaded))
                  Synthetic.blob Synthetic.blob2 _ _).
    vm_compute; reflexivity.
  - apply (proj1 (draw_pupil_errors None None true
                    (fields_of (load_video "night.avi" init)))).
    vm_compute; reflexivity.
Defined.

(** C10 on the two blobs: index -1 draws the second one. *)
Lemma draw_negative_index_witness :
  [Synthetic.blob; Synthetic.blob2] <> []
  /\ exists cnt img,
       nth_error [Synthetic.blob; Synthetic.blob2] 1 = Some cnt /\
       draw_pupil (Some (-1)) None true Synthetic.loaded
       = Ok tt (set_roi_pupil
                  (Some (square_around (int_center (fitEllipse cnt)) 100))
                  (set_frame (Some img) (with_offset None Synthetic.loaded))).
Proof.
  assert (Hl : [Synthetic.blob; Synthetic.blob2] <> []) by discriminate.
  split; [exact Hl|].
  refine (proj1 (proj1 (draw_negative_index (-1) None true Synthetic.loaded
                          (with_offset None Synthetic.loaded)
                          [Synthetic.blob; Synthetic.blob2] Hl) _) _).
  - vm_compute; reflexivity.
  - simpl. lia.
Defined.

(** C7 on the dark frame: the pupil is not found, the error is swallowed
    and the ROI stays. *)
Lemma track_swallows_witness :
  roi_pupil Synthetic.in_the_dark = Some ((-55, -55), (145, 145))
  /\ draw_pupil None (Some ((-55, -55), (145, 145))) true Synthetic.in_the_dark
     = Raise AttributeError
             (with_offset (Some ((-55, -55), (145, 145))) Synthetic.in_the_dark)
  /\ track_pupil Synthetic.in_the_dark
     = Ok tt (with_offset (Some ((-55, -55), (145, 145))) Synthetic.in_the_dark)
  /\ roi_pupil (with_offset (Some ((-55, -55), (145, 145))) Synthetic.in_the_dark)
     = Some ((-55, -55), (145, 145)).
Proof.
  assert (E : roi_pupil Synthetic.in_the_dark = Some ((-55, -55), (145, 145)))
    by (vm_compute; reflexivity).
  assert (D : draw_pupil None (Some ((-55, -55), (145, 145))) true
                         Synthetic.in_the_dark
              = Raise AttributeError
                      (with_offset (Some ((-55, -55), (145, 145)))
                                   Synthetic.in_the_dark))
    by (vm_compute; reflexivity).
  pose proof (proj1 (proj2 (track_swallows Synthetic.in_the_dark)) _ E) as H.
  match type of H with
  | match ?d with Ok _ _ => _ | Raise _ _ => _ end =>
      replace d with (@Raise unit AttributeError
                             (with_offset (Some ((-55, -55), (145, 145)))
                                          Synthetic.in_the_dark)) in H
        by (vm_compute; reflexivity)
  end.
  destruct H as (Hroi & Hswallow & _).
  split; [exact E|]. split; [exact D|].
  split; [exact (Hswallow (or_introl eq_refl))|exact Hroi].
Defined.

(** C9 after a load: reset twice. *)
Lemma get_orig_frame_idempotent_witness :
  exists s1,
    get_orig_frame Synthetic.pupil_tracked
    = Ok (Synthetic.half Synthetic.lit) s1 /\
    frame s1 = Some (Synthetic.half Synthetic.lit) /\
    orig_image s1 = Some (Synthetic.half Synthetic.lit) /\
    roi_pupil s1 = None /\ roi_refle s1 = None /\
    get_orig_frame s1 = Ok (Synthetic.half Synthetic.lit) s1.
Proof.
  apply (proj1 (get_orig_frame_idempotent Synthetic.pupil_tracked)).
  vm_compute; reflexivity.
Defined.

(** C4 on a frame lit at its left end only, with the pupil tracked: the
    pupil ROI (-55, -55)-(145, 145) cuts columns 45 to 99 from the frame
    of 100x1 pixels, the lit pixel is outside, and the search finds
    nothing where the whole frame has the highlight. *)
Lemma find_refle_uses_pupil_roi_witness :
  roi_pupil Synthetic.spot_tracked = Some ((-55, -55), (145, 145))
  /\ frame Synthetic.spot_tracked = Some (Synthetic.half Synthetic.spot)
  /\ find_refle None Synthetic.spot_tracked
     = Ok [] (with_offset (roi_pupil Synthetic.spot_tracked)
                          Synthetic.spot_tracked)
  /\ find_refle None (set_roi_pupil None Synthetic.spot_tracked)
     = Ok [Synthetic.glint]
          (with_offset None (set_roi_pupil None Synthetic.spot_tracked))
  /\ dx (fields_of (find_refle None Synthetic.spot_tracked)) = Some (-55)
  /\ dy (fields_of (find_refle None Synthetic.spot_tracked)) = Some (-55)
  /\ length (searched (Synthetic.half Synthetic.spot)
                      (roi_pupil Synthetic.spot_tracked)) = 1%nat
  /\ forall row,
       nth_error (searched (Synthetic.half Synthetic.spot)
                           (roi_pupil Synthetic.spot_tracked)) 0 = Some row ->
       length row = 55%nat
       /\ forall j p,
            nth_error row j = Some p ->
            nth_error (nth 0 (Synthetic.half Synthetic.spot) [])
                      (45 + j) = Some p.
Proof.
  assert (Eroi : roi_pupil Synthetic.spot_tracked
                 = Some ((-55, -55), (145, 145)))
    by (vm_compute; reflexivity).
  pose proof (find_refle_uses_pupil_roi None Synthetic.spot_tracked)
    as (Hx & Hy & _ & _ & _ & Hsub & _).
  specialize (Hsub (Synthetic.half Synthetic.spot) _ _ _ _ Eroi).
  cbv zeta in Hsub. destruct Hsub as (Hrows & Hpixels).
  split; [exact Eroi|].
  split; [vm_compute; reflexivity|].
  split; [vm_compute; reflexivity|].
  split; [vm_compute; reflexivity|].
  split; [rewrite Hx, Eroi; reflexivity|].
  split; [rewrite Hy, Eroi; reflexivity|].
  split; [rewrite Hrows; vm_compute; reflexivity|].
  intros row Hrow.
  destruct (Hpixels 0%nat row Hrow) as (frame_row & Hframe_row & Hlen & Hpix).
  assert (Efr : frame_row = nth 0 (Synthetic.half Synthetic.spot) [])
    by (vm_compute in Hframe_row; injection Hframe_row as <-;
        vm_compute; reflexivity).
  subst frame_row.
  split; [rewrite Hlen; vm_compute; reflexivity|].
  intros j p Hp. apply Hpix in Hp.
  replace (45 + j)%nat
    with (Z.to_nat (Py.slice_bound
                      (Z.of_nat (length (nth 0 (Synthetic.half Synthetic.spot) [])))
                      (-55)) + j)%nat
    by (vm_compute; reflexivity).
  exact Hp.
Defined.

(** ** Searches on the synthetic frames *)

(** [find_pupils] on the first frame of the synthetic video: of the five
    detected shapes the two blobs pass.  On the wide frame with the pupil
    ROI (-55, -55)-(145, 145) the crop has no pixel and the search ends
    in cv2.error. *)
Lemma find_pupils_complete_witness :
  frame Synthetic.loaded = Some (Synthetic.half Synthetic.lit)
  /\ filter pupil_passes
            (contours_in Synthetic.loaded (Synthetic.half Synthetic.lit)
                         None 45 4)
     = [Synthetic.blob; Synthetic.blob2]
  /\ find_pupils None Synthetic.loaded
     = Ok (map (fun cnt => translate (fst (offset_of None)) (snd (offset_of None))
                                     (convexHull cnt))
               (filter pupil_passes
                       (contours_in Synthetic.loaded
                                    (Synthetic.half Synthetic.lit) None 45 4)))
          (with_offset None Synthetic.loaded)
  /\ find_pupils (Some ((-55, -55), (145, 145))) Synthetic.wide_tracked
     = Raise Cv2Error
             (with_offset (Some ((-55, -55), (145, 145)))
                          Synthetic.wide_tracked).
Proof.
  assert (E : frame Synthetic.loaded = Some (Synthetic.half Synthetic.lit))
    by (vm_compute; reflexivity).
  assert (Hpi : ~ (np_pi == 0)%Q) by (intros H; vm_compute in H; discriminate).
  split; [exact E|]. split; [vm_compute; reflexivity|].
  split.
  - pose proof (find_pupils_complete None Synthetic.loaded _ E Hpi) as H.
    replace (image_empty (searched (Synthetic.half Synthetic.lit) None))
      with false in H by (vm_compute; reflexivity).
    exact H.
  - assert (E' : frame Synthetic.wide_tracked
                 = Some (Synthetic.half Synthetic.wide))
      by (vm_compute; reflexivity).
    pose proof (find_pupils_complete (Some ((-55, -55), (145, 145)))
                  Synthetic.wide_tracked _ E' Hpi) as H.
    replace (image_empty (searched (Synthetic.half Synthetic.wide)
                                   (Some ((-55, -55), (145, 145)))))
      with true in H by (vm_compute; reflexivity).
    exact H.
Defined.

(** [find_refle] with the stored reflection ROI as argument: of the five
    detected shapes only the highlight passes.  On the wide frame with the
    pupil tracked the crop has no pixel and the search ends in
    cv2.error. *)
Lemma find_refle_complete_witness :
  filter (refle_passes 0 0 (Some ((30, 30), (60, 60))))
         (contours_in Synthetic.refle_tracked (Synthetic.half Synthetic.lit)
                      None 200 2)
  = [Synthetic.glint]
  /\ find_refle (Some ((30, 30), (60, 60))) Synthetic.refle_tracked
     = Ok (map (translate (fst (offset_of (roi_pupil Synthetic.refle_tracked)))
                          (snd (offset_of (roi_pupil Synthetic.refle_tracked))))
               (filter (refle_passes
                          (fst (offset_of (roi_pupil Synthetic.refle_tracked)))
                          (snd (offset_of (roi_pupil Synthetic.refle_tracked)))
                          (containment_roi (Some ((30, 30), (60, 60)))
                                           (roi_refle Synthetic.refle_tracked)))
                       (contours_in Synthetic.refle_tracked
                                    (Synthetic.half Synthetic.lit)
                                    (roi_pupil Synthetic.refle_tracked) 200 2)))
          (with_offset (roi_pupil Synthetic.refle_tracked)
                       Synthetic.refle_tracked)
  /\ find_refle None Synthetic.wide_tracked
     = Raise Cv2Error
             (with_offset (roi_pupil Synthetic.wide_tracked)
                          Synthetic.wide_tracked).
Proof.
  split; [vm_compute; reflexivity|]. split.
  - pose proof (find_refle_complete (Some ((30, 30), (60, 60)))
                  Synthetic.refle_tracked
                  (Synthetic.half Synthetic.lit)) as H.
    cbv zeta in H.
    replace (image_empty (searched (Synthetic.half Synthetic.lit)
                                   (roi_pupil Synthetic.refle_tracked)))
      with false in H by (vm_compute; reflexivity).
    apply H.
    + vm_compute; reflexivity.
    + intros _. vm_compute. discriminate.
    + replace (contours_in Synthetic.refle_tracked
                           (Synthetic.half Synthetic.lit)
                           (roi_pupil Synthetic.refle_tracked) 200 2)
        with Synthetic.shapes by (vm_compute; reflexivity).
      repeat constructor; cbv beta; intros H'; vm_compute in H'; discriminate.
  - pose proof (find_refle_complete None Synthetic.wide_tracked
                  (Synthetic.half Synthetic.wide)) as H.
    cbv zeta in H.
    replace (image_empty (searched (Synthetic.half Synthetic.wide)
                                   (roi_pupil Synthetic.wide_tracked)))
      with true in H by (vm_compute; reflexivity).
    apply H.
    + vm_compute; reflexivity.
    + intros H'. congruence.
    + replace (contours_in Synthetic.wide_tracked
                           (Synthetic.half Synthetic.wide)
                           (roi_pupil Synthetic.wide_tracked) 200 2)
        with (@nil contour) by (vm_compute; reflexivity).
      constructor.
Defined.

(** A ROI argument with nothing stored, on the dark frame: no contour
    reaches the containment test and the list is empty.  On the lit frame
    the highlight reaches it and the search raises TypeError. *)
Lemma find_refle_without_stored_roi_witness :
  find_refle (Some ((0, 0), (10, 10))) (fields_of (load_video "night.avi" init))
  = Ok [] (with_offset None (fields_of (load_video "night.avi" init)))
  /\ ([] : list contour) = []
  /\ find_refle (Some ((0, 0), (10, 10))) Synthetic.loaded
     = Raise TypeError (with_offset None Synthetic.loaded).
Proof.
  assert (H : find_refle (Some ((0, 0), (10, 10)))
                         (fields_of (load_video "night.avi" init))
              = Ok [] (with_offset None
                                   (fields_of (load_video "night.avi" init))))
    by (vm_compute; reflexivity).
  split; [exact H|]. split; [|vm_compute; reflexivity].
  refine (find_refle_without_stored_roi _ _ _ _ _ H). vm_compute; reflexivity.
Defined.

(** ** Frames of the synthetic video *)

(** A file name the synthetic OpenCV has no frames for. *)
Lemma load_video_without_frames_witness :
  exists s',
    load_video "none.avi" init = Raise RuntimeError s' /\
    frame s' = frame init /\ orig_image s' = orig_image init /\
    exists s'', next_frame s' = Raise RuntimeError s''.
Proof.
  apply (load_video_without_frames "none.avi" init). vm_compute; reflexivity.
Defined.

(** Three reads after the load: the dark third frame of the synthetic
    video. *)
Lemma frames_in_order_witness :
  exists s',
    advance 3 Synthetic.loaded = Ok tt s' /\
    frame s' = Some (resize Synthetic.dark 0.5 0.5) /\
    orig_image s' = Some (resize Synthetic.dark 0.5 0.5) /\
    cap s' = Some (mk_capture [Synthetic.lit; Synthetic.lit; Synthetic.dark] 3) /\
    roi_pupil s' = roi_pupil Synthetic.loaded /\
    roi_refle s' = roi_refle Synthetic.loaded.
Proof.
  apply (frames_in_order 2 Synthetic.loaded
           (mk_capture [Synthetic.lit; Synthetic.lit; Synthetic.dark] 0)
           Synthetic.dark); vm_compute; reflexivity.
Defined.

(** The read after the dark third frame, with the pupil tracked: the end
    of the video. *)
Lemma next_frame_after_eof_witness :
  roi_pupil Synthetic.in_the_dark = Some ((-55, -55), (145, 145))
  /\ exists s',
       next_frame Synthetic.in_the_dark = Raise EOFError s' /\
       roi_pupil s' = None /\ roi_refle s' = None /\
       frame s' = Some (Synthetic.half Synthetic.lit) /\
       exists s'' c,
         next_frame s' = Ok tt s'' /\
         frame s'' = frame s' /\ orig_image s'' = frame s' /\
         cap s'' = Some c /\ cap_pos c = 1%nat /\
         roi_pupil s'' = None /\ roi_refle s'' = None.
Proof.
  split; [vm_compute; reflexivity|].
  assert (E : next_frame Synthetic.in_the_dark
              = Raise EOFError (fields_of (next_frame Synthetic.in_the_dark)))
    by (vm_compute; reflexivity).
  exists (fields_of (next_frame Synthetic.in_the_dark)).
  split; [exact E|].
  destruct (next_frame_after_eof _ _ E) as (Hp & Hr & _ & Hnext).
  split; [exact Hp|]. split; [exact Hr|].
  split; [vm_compute; reflexivity|exact Hnext].
Defined.

(** Drawing and tracking on the first frame, then the reset. *)
Lemma reset_undoes_drawing_witness :
  roi_pupil (perform_all [DrawPupil None None true; DrawRefle None None true;
                          TrackPupil; TrackRefle] Synthetic.loaded)
  <> None
  /\ exists s',
       get_orig_frame
         (perform_all [DrawPupil None None true; DrawRefle None None true;
                       TrackPupil; TrackRefle] Synthetic.loaded)
       = Ok (Synthetic.half Synthetic.lit) s' /\
       frame s' = Some (Synthetic.half Synthetic.lit) /\
       orig_image s' = Some (Synthetic.half Synthetic.lit) /\
       roi_pupil s' = None /\ roi_refle s' = None.
Proof.
  split; [vm_compute; discriminate|].
  apply reset_undoes_drawing.
  - repeat constructor.
  - vm_compute; reflexivity.
Defined.

(** Any calls on a fresh tracker, then the tracking update: it returns
    after the session on the synthetic video, and ends in cv2.error after
    a pupil has been drawn on the wide frame. *)
Lemma frame_present_always_witness :
  frame_present (perform_all Synthetic.session init)
  /\ (exists s', track_pupil (perform_all Synthetic.session init) = Ok tt s')
  /\ exists box,
       roi_pupil (perform_all [LoadVideo "wide.avi"; DrawPupil None None true]
                              init) = Some box /\
       track_pupil (perform_all [LoadVideo "wide.avi"; DrawPupil None None true]
                                init)
       = Raise Cv2Error
               (with_offset (Some box)
                  (perform_all [LoadVideo "wide.avi"; DrawPupil None None true]
                               init)).
Proof.
  assert (Hpi : ~ (np_pi == 0)%Q) by (intros H; vm_compute in H; discriminate).
  destruct (frame_present_always Synthetic.session) as (H & Htrack).
  split; [exact H|]. split.
  - destruct (Htrack Hpi) as [Hok|(img & box & _ & _ & _ & E)]; [exact Hok|].
    vm_compute in E. discriminate.
  - destruct (proj2 (frame_present_always
                       [LoadVideo "wide.avi"; DrawPupil None None true]) Hpi)
      as [(s' & E)|(img & box & _ & Ebox & _ & E)].
    + vm_compute in E. discriminate.
    + exists box. split; [exact Ebox|exact E].
Defined.

(** The reflection tracked after the pupil, both ROIs set. *)
Lemma tracking_order_witness :
  roi_refle (perform_all [DrawPupil None None true; DrawRefle None None true]
                         Synthetic.loaded) <> None
  /\ let s1 := fields_of (track_pupil
                   (perform_all [DrawPupil None None true;
                                 DrawRefle None None true] Synthetic.loaded)) in
     let s2 := fields_of (track_refle s1) in
     dx s2 = Some (fst (offset_of (roi_pupil s1))) /\
     dy s2 = Some (snd (offset_of (roi_pupil s1))) /\
     roi_pupil s2 = roi_pupil s1.
Proof.
  assert (H : roi_refle (perform_all [DrawPupil None None true;
                                      DrawRefle None None true]
                                     Synthetic.loaded) <> None)
    by (vm_compute; discriminate).
  split; [exact H|].
  exact (proj2 (proj2 (proj2 (tracking_order _))) H).
Defined.

(** ** Crops and offsets *)

(** The first blob shifted to and from a crop at (-55, -55). *)
Lemma translate_round_trip_witness :
  translate (-55) (-55) Synthetic.blob
  = map (fun p => (fst p + -55, snd p + -55)) Synthetic.blob
  /\ translate (- -55) (- -55) (translate (-55) (-55) Synthetic.blob)
     = Synthetic.blob.
Proof.
  apply translate_round_trip. repeat constructor; simpl; lia.
Defined.

(** A crop of a frame of 4x3 pixels with its corner at (1, 1). *)
Lemma crop_offset_exact_witness :
  exists frame_row,
    nth_error [[(0, 0, 0); (1, 0, 0); (2, 0, 0); (3, 0, 0)];
               [(4, 0, 0); (5, 0, 0); (6, 0, 0); (7, 0, 0)];
               [(8, 0, 0); (9, 0, 0); (10, 0, 0); (11, 0, 0)]]
              (Z.to_nat (snd (offset_of (Some ((1, 1), (3, 3))))) + 1)
    = Some frame_row /\
    nth_error frame_row (Z.to_nat (fst (offset_of (Some ((1, 1), (3, 3))))) + 0)
    = Some (9, 0, 0).
Proof.
  apply (crop_offset_exact _ ((1, 1), (3, 3)) 1 0 [(9, 0, 0); (10, 0, 0)]);
    vm_compute; try reflexivity; discriminate.
Defined.

(** The pupil drawn on the wide frame of 200x1 pixels has its centre 45
    pixels from the left edge: the tracking update on the same frame ends
    in cv2.error. *)
Lemma track_pupil_over_the_edge_witness :
  roi_pupil Synthetic.wide_tracked = Some ((-55, -55), (145, 145))
  /\ image_empty (searched (Synthetic.half Synthetic.wide)
                           (roi_pupil Synthetic.wide_tracked)) = true
  /\ track_pupil Synthetic.wide_tracked
     = Raise Cv2Error
             (with_offset (roi_pupil Synthetic.wide_tracked)
                          Synthetic.wide_tracked).
Proof.
  split; [vm_compute; reflexivity|].
  apply (track_pupil_over_the_edge Synthetic.wide_tracked
           (Synthetic.half Synthetic.wide) (45, 45)).
  - vm_compute; reflexivity.
  - vm_compute; reflexivity.
  - left. split; [simpl; lia|].
    repeat constructor. vm_compute. discriminate.
Defined.

(** ** The window on the synthetic video *)

#[local] Existing Instance SyntheticWindow.wx.

(** The window after the load: a read and a second load, in the window
    and on the tracker alone. *)
Lemma window_keeps_tracker_witness :
  agrees (PupilTracker_next_frame
            (session_after SyntheticWindow.first_shown))
         (next_frame (tracker (session_after SyntheticWindow.first_shown)))
  /\ agrees (PupilTracker_load_video "eye.avi"
               (session_after SyntheticWindow.first_shown))
            (load_video "eye.avi"
               (tracker (session_after SyntheticWindow.first_shown))).
Proof.
  destruct (window_keeps_tracker (session_after SyntheticWindow.first_shown))
    as (Hnext & Hload).
  split.
  - apply Hnext. intros c first rest _ _. discriminate.
  - apply Hload. intros first rest _. discriminate.
Defined.

(** The tick after the last frame of the synthetic video. *)
Lemma tick_stops_playback_witness :
  playing (session_after SyntheticWindow.played_out) = true
  /\ exists w',
       ImagePanel_draw (session_after SyntheticWindow.played_out) = GOk tt w' /\
       tracker w'
       = fields_of (next_frame
                      (tracker (session_after SyntheticWindow.played_out))) /\
       playing w' = false /\ timer_on w' = false /\
       printed w' = EOFError :: printed (session_after SyntheticWindow.played_out) /\
       image_bmp w' <> None /\
       pupil_index w' = pupil_index (session_after SyntheticWindow.played_out) /\
       refle_index w' = refle_index (session_after SyntheticWindow.played_out).
Proof.
  assert (H : playing (session_after SyntheticWindow.played_out) = true)
    by (vm_compute; reflexivity).
  split; [exact H|].
  apply (proj1 (tick_stops_playback _ H)).
  - intros c first rest _ _. discriminate.
  - vm_compute; reflexivity.
Defined.

(** The Clear button on a new window, and after a pupil was drawn. *)
Lemma clear_button_witness :
  ToolsPanel_on_clear_button new_frame = GOk tt (print AttributeError new_frame)
  /\ pupil_index (session_after SyntheticWindow.second_pupil) = 1
  /\ tracker (window_of (ToolsPanel_on_clear_button
                           (session_after SyntheticWindow.second_pupil)))
     = cleared (Synthetic.half Synthetic.lit)
               (tracker (session_after SyntheticWindow.second_pupil))
  /\ exists w',
       ToolsPanel_on_clear_button (session_after SyntheticWindow.second_pupil)
       = GOk tt w' /\
       pupil_index w' = -1 /\ refle_index w' = -1.
Proof.
  split; [apply (proj1 (clear_button new_frame)); reflexivity|].
  split; [vm_compute; reflexivity|].
  destruct (proj2 (clear_button (session_after SyntheticWindow.second_pupil))
                  (Synthetic.half Synthetic.lit))
    as (Htracker & Hindexes); [vm_compute; reflexivity..|].
  split; [exact Htracker|]. apply Hindexes.
  - vm_compute; discriminate.
  - intros bmp. discriminate.
Defined.

(** The Find pupil button with the second of two candidates drawn: the
    index goes back to the first. *)
Lemma find_pupil_button_cycles_witness :
  pupil_index (session_after SyntheticWindow.second_pupil) = 1
  /\ pupil_index (window_of (ToolsPanel_on_find_pupil_button
                               (session_after SyntheticWindow.second_pupil)))
     = 0
  /\ roi_pupil (tracker (window_of (ToolsPanel_on_find_pupil_button
                                      (session_after SyntheticWindow.second_pupil))))
     = Some (square_around (int_center (fitEllipse Synthetic.blob)) 100).
Proof.
  split; [vm_compute; reflexivity|].
  destruct (find_pupil_button_cycles
              (session_after SyntheticWindow.second_pupil)
              (Synthetic.half Synthetic.lit)
              [Synthetic.blob; Synthetic.blob2]
              (with_offset None
                 (cleared (Synthetic.half Synthetic.lit)
                    (tracker (session_after SyntheticWindow.second_pupil)))))
    as (Hindex & _ & cnt & Hnth & Hroi & _).
  - vm_compute; reflexivity.
  - vm_compute; reflexivity.
  - vm_compute; reflexivity.
  - discriminate.
  - vm_compute; discriminate.
  - split; [exact Hindex|].
    vm_compute in Hnth. injection Hnth as <-. exact Hroi.
Defined.

(** The Find refle button after the synthetic video has looped with the
    pupil index at 2: the first frame has two pupil candidates. *)
Lemma find_refle_button_stale_pupil_index_witness :
  pupil_index (session_after SyntheticWindow.stale_index) = 2
  /\ refle_index (session_after SyntheticWindow.stale_index) = -1
  /\ exists w',
       ToolsPanel_on_find_refle_button
         (session_after SyntheticWindow.stale_index)
       = GRaise (Python RuntimeError) w' /\
       pupil_index w' = pupil_index (session_after SyntheticWindow.stale_index) /\
       refle_index w' = 0 /\
       roi_pupil (tracker w') = None /\ roi_refle (tracker w') = None.
Proof.
  split; [vm_compute; reflexivity|].
  split; [vm_compute; reflexivity|].
  refine (proj1 (find_refle_button_stale_pupil_index
                   (session_after SyntheticWindow.stale_index)
                   (Synthetic.half Synthetic.lit)
                   [Synthetic.blob; Synthetic.blob2]
                   (with_offset None
                      (cleared (Synthetic.half Synthetic.lit)
                         (tracker (session_after SyntheticWindow.stale_index))))
                   _ _ _ _)).
  - vm_compute; reflexivity.
  - vm_compute; reflexivity.
  - discriminate.
  - vm_compute; discriminate.
Defined.
